(** * Detection-to-decision pipeline of the atomic arbitrage bot

    A shallow embedding of the TypeScript sources
      - [ProfitCalculator]      (src/analyzer/ProfitCalculator.ts),
      - [PriceAggregator]       (the scanner aggregator),
      - [OpportunityValidator]  (the opportunity validator),
      - [DexScanner]            (the arithmetic of the scanner base class),
      - [Bot.handleOpportunity] (the opportunity handler of src/index.ts),
    together with the few platform primitives they call (ethers' BigNumber,
    [parseUnits], [isAddress]; JavaScript strings, arrays and numbers).

    Conventions.
      - An [ethers.BigNumber] is a [Z]; the operations that can throw
        ([div] by zero, [toNumber] outside 53 bits, [BigNumber.from] of a
        number that is not an integer) return a [result].
      - A JavaScript [number] is read as the rational it denotes ([Q]).
        The quotients of integers by 100 or 1000 that the pipeline compares
        with constants are kept exact, the rational reading and the double
        agreeing there.  Where the code multiplies numbers, or parses the
        decimal rendering of a wei amount ([parseFloat(formatEther(x))]),
        the result is rounded to the nearest IEEE 754 double ([Js.double],
        ties to the even significand); overflow to infinity is outside the
        model.
      - [Date.now()] is a clock reading in milliseconds ([Z]).
      - Log calls have no effect on results and are left out. *)

From Stdlib Require Import ZArith QArith Qround Qabs Qpower Bool List Ascii String.
From Stdlib Require Import Lia Lqa.
From Stdlib Require Import DecimalString.
Import ListNotations.

Local Open Scope string_scope.
Local Open Scope Z_scope.

(* ================================================================== *)
(** ** Thrown errors *)

Inductive error : Type :=
| DivisionByZero        (* BigNumber.div by zero *)
| Overflow              (* BigNumber.toNumber / BigNumber.from out of the safe range *)
| Underflow             (* BigNumber.from of a fraction, parseUnits with too many decimals *)
| InvalidArgument       (* parseUnits of a malformed string *)
| TypeError.            (* a field read on undefined *)

Inductive result (A : Type) : Type :=
| Ok (a : A)
| Throw (e : error).
Arguments Ok {A} a.
Arguments Throw {A} e.

Definition bind {A B : Type} (r : result A) (k : A -> result B) : result B :=
  match r with
  | Ok a => k a
  | Throw e => Throw e
  end.

Notation "x <- c ;; k" := (bind c (fun x => k))
  (at level 61, c at next level, right associativity).

(* ================================================================== *)
(** ** JavaScript strings and arrays *)

Module Js.

Definition code (c : ascii) : N := N_of_ascii c.

Definition isDigit (c : ascii) : bool :=
  (48 <=? code c)%N && (code c <=? 57)%N.

Definition isUpperAF (c : ascii) : bool :=
  (65 <=? code c)%N && (code c <=? 70)%N.

Definition isLowerAF (c : ascii) : bool :=
  (97 <=? code c)%N && (code c <=? 102)%N.

Definition isHexDigit (c : ascii) : bool :=
  isDigit c || isUpperAF c || isLowerAF c.

Definition isUpper (c : ascii) : bool :=
  (65 <=? code c)%N && (code c <=? 90)%N.

Definition isAlnum (c : ascii) : bool :=
  isDigit c || isUpper c || ((97 <=? code c)%N && (code c <=? 122)%N).

(** [String.prototype.toLowerCase] on the ASCII range. *)
Definition lowerChar (c : ascii) : ascii :=
  if isUpper c then ascii_of_N (code c + 32) else c.

Fixpoint toLowerCase (s : string) : string :=
  match s with
  | EmptyString => EmptyString
  | String c s' => String (lowerChar c) (toLowerCase s')
  end.

Fixpoint forallb_string (p : ascii -> bool) (s : string) : bool :=
  match s with
  | EmptyString => true
  | String c s' => p c && forallb_string p s'
  end.

Fixpoint existsb_string (p : ascii -> bool) (s : string) : bool :=
  match s with
  | EmptyString => false
  | String c s' => p c || existsb_string p s'
  end.

(** [s.split(sep)] for a one-character separator: never the empty list. *)
Fixpoint split (sep : ascii) (s : string) : list string :=
  match s with
  | EmptyString => [EmptyString]
  | String c s' =>
      if Ascii.eqb c sep then EmptyString :: split sep s'
      else match split sep s' with
           | [] => [String c EmptyString]
           | w :: ws => String c w :: ws
           end
  end.

(** [[a, b].sort()]: the default comparison orders strings by code unit;
    the sort is stable, so equal or ordered elements stay in place. *)
Definition sort2 (a b : string) : string * string :=
  if String.ltb b a then (b, a) else (a, b).

(** Decimal rendering of an integer, as a template literal prints it. *)
Definition intToString (z : Z) : string :=
  NilZero.string_of_int (Z.to_int z).

(** A falsy string is the empty one: [s || d]. *)
Definition orString (s : option string) (d : string) : string :=
  match s with
  | Some EmptyString | None => d
  | Some s' => s'
  end.

(** Numbers. *)
Definition ltb (x y : Q) : bool := negb (Qle_bool y x).
Definition gtb (x y : Q) : bool := ltb y x.

(** [x || d] on numbers: zero is falsy. *)
Definition orNumber (x : option Q) (d : Q) : Q :=
  match x with
  | Some q => if Qeq_bool q 0 then d else q
  | None => d
  end.

(** [Math.round]: the nearest integer, halves towards plus infinity. *)
Definition round (x : Q) : Z := Qfloor (x + (1 # 2)).

Definition min (x y : Q) : Q := if ltb y x then y else x.

(** Doubles.  [roundHalfEven x] is the integer nearest to [x], a tie going
    to the even one. *)
Definition roundHalfEven (x : Q) : Z :=
  let f := Qfloor x in
  match Qcompare (x - inject_Z f) (1 # 2) with
  | Lt => f
  | Gt => f + 1
  | Eq => if Z.even f then f else f + 1
  end.

(** The exponent of the last significand bit of the double nearest to a
    positive [q]: floor(log2 q) - 52, and -1074 in the subnormal range. *)
Definition exponent (q : Q) : Z :=
  Z.max (-1074) (Z.log2 (Qfloor (q * 2 ^ 1200)) - 1252).

Definition roundPositive (q : Q) : Q :=
  let e := exponent q in
  (inject_Z (roundHalfEven (q / 2 ^ e)) * 2 ^ e)%Q.

(** The double nearest to [q] (round to nearest, ties to even): what a
    numeric literal, [parseFloat] of a decimal string and every arithmetic
    operation deliver. *)
Definition double (q : Q) : Q :=
  match Qcompare q 0 with
  | Eq => 0%Q
  | Gt => roundPositive q
  | Lt => (- roundPositive (- q))%Q
  end.

(** [x * y] on numbers. *)
Definition mul (x y : Q) : Q := double (double x * double y).

(** [parseFloat(s)] for a decimal string [s] denoting [q]. *)
Definition parseFloat (q : Q) : Q := double q.

End Js.

(* ================================================================== *)
(** ** ethers: BigNumber and unit parsing *)

Module BigNumber.

Definition t := Z.

Definition WeiPerEther : Z := 10 ^ 18.

(** [a.div(b)]: throws on a zero divisor, truncates otherwise. *)
Definition div (a b : Z) : result Z :=
  if b =? 0 then Throw DivisionByZero else Ok (Z.quot a b).

(** [a.toNumber()]: throws unless the magnitude fits 53 bits. *)
Definition toNumber (a : Z) : result Z :=
  if Z.abs a <? 2 ^ 53 then Ok a else Throw Overflow.

(** [BigNumber.from(x)] for a JavaScript number [x], as [mul] applies it
    to a numeric argument: integers strictly inside the safe range
    (magnitude below 2^53 - 1) only. *)
Definition fromNumber (x : Q) : result Z :=
  if Qeq_bool (inject_Z (Qfloor x)) x
  then (if Z.abs (Qfloor x) <? 2 ^ 53 - 1 then Ok (Qfloor x) else Throw Overflow)
  else Throw Underflow.

Fixpoint digitsValue (s : string) (acc : Z) : Z :=
  match s with
  | EmptyString => acc
  | String c s' => digitsValue s' (10 * acc + (Z.of_N (Js.code c) - 48))
  end.

(** Drop the trailing zeros of a fraction. *)
Fixpoint trimZeros (s : string) : string :=
  match s with
  | EmptyString => EmptyString
  | String c s' =>
      match trimZeros s' with
      | EmptyString => if Ascii.eqb c "0" then EmptyString else String c EmptyString
      | r => String c r
      end
  end.

Definition isDigitOrDot (c : ascii) : bool := Js.isDigit c || Ascii.eqb c ".".

(** [ethers.utils.parseUnits(value, decimals)]. *)
Definition parseUnits (value : string) (decimals : nat) : result Z :=
  let negative := match value with String "-" _ => true | _ => false end in
  let value' := match value with String "-" r => r | _ => value end in
  match value' with
  | EmptyString => Throw InvalidArgument
  | _ =>
    if negb (Js.forallb_string isDigitOrDot value') then Throw InvalidArgument
    else if String.eqb value' "." then Throw InvalidArgument
    else
      match Js.split "." value' with
      | [] => Throw InvalidArgument
      | whole :: rest =>
        match rest with
        | _ :: _ :: _ => Throw InvalidArgument
        | _ =>
          let whole' := match whole with EmptyString => "0" | _ => whole end in
          let fraction := match rest with
                          | f :: _ => match f with EmptyString => "0" | _ => f end
                          | [] => "0"
                          end in
          let fraction' := trimZeros fraction in
          if (decimals <? String.length fraction')%nat then Throw Underflow
          else
            let wei := digitsValue whole' 0 * 10 ^ Z.of_nat decimals
                       + digitsValue fraction' 0
                         * 10 ^ Z.of_nat (decimals - String.length fraction') in
            Ok (if negative then - wei else wei)
        end
      end
  end.

Definition parseEther (value : string) : result Z := parseUnits value 18.

(** [ethers.utils.formatEther(x)]: the decimal rendering of x / 10^18,
    given as the number it denotes. *)
Definition formatEther (x : Z) : Q := (inject_Z x / inject_Z WeiPerEther)%Q.

(** [parseUnits(value, 'gwei')]. *)
Definition parseGwei (value : string) : result Z := parseUnits value 9.

End BigNumber.

(* ================================================================== *)
(** ** Data model (types/dex.types.ts, types/arbitrage.types.ts,
       types/config.types.ts); only the fields the pipeline reads *)

Record Price : Type := {
  price : Z;                       (* price of tokenB in tokenA, 18 decimals *)
  inversePrice : Z;
  priceBlockNumber : Z;
  priceTimestamp : Z;
  source : string;
  poolAddress : option string
}.

Record ArbitrageOpportunity : Type := {
  id : string;
  tokenIn : string;
  tokenOut : string;
  buyDex : string;
  sellDex : string;
  buyPrice : Z;
  sellPrice : Z;
  buyPoolAddress : string;
  sellPoolAddress : string;
  availableLiquidity : Z;
  timestamp : Z;
  blockNumber : Z;
  estimatedProfit : option Z
}.

Record PriceImpact : Type := {
  buy : Q;
  sell : Q
}.

Record ProfitAnalysis : Type := {
  opportunity : ArbitrageOpportunity;
  grossProfit : Z;
  flashLoanFee : Z;
  gasCost : Z;
  dexFees : Z;
  netProfit : Z;
  profitPercentage : Q;
  recommendedAmount : Z;
  isExecutable : bool;
  priceImpact : PriceImpact
}.

Record FlashLoanProvider : Type := {
  providerContract : string;       (* pool, or vault *)
  providerFeePercentage : Q        (* e.g. 0.09 for 0.09% *)
}.

Record FlashLoanProviders : Type := {
  aave : option FlashLoanProvider;
  balancer : option FlashLoanProvider
}.

Record DexConfig : Type := {
  dexName : string;
  dexFeePercentage : Q             (* in basis points, e.g. 30 *)
}.

Record ExecutionConfig : Type := {
  minProfitUSD : Q;
  minProfitPercentage : Q;
  maxGasPrice : string;            (* in gwei *)
  maxSlippage : Q;                 (* in basis points *)
  maxTradeSize : string            (* in ether *)
}.

Record NetworkConfig : Type := {
  flashLoanProviders : FlashLoanProviders;
  dexes : list (option DexConfig); (* Object.values(config.dexes), in order *)
  execution : ExecutionConfig
}.

(* ================================================================== *)
(** ** ProfitCalculator *)

Module ProfitCalculator.

Record t : Type := {
  config : NetworkConfig;
  ethPriceUSD : Q                (* 2000 until updateEthPrice *)
}.

Definition new (cfg : NetworkConfig) : t :=
  {| config := cfg; ethPriceUSD := 2000 |}.

Definition updateEthPrice (self : t) (priceUSD : Q) : t :=
  {| config := config self; ethPriceUSD := priceUSD |}.

Definition calculateOptimalAmount (self : t)
    (buyPrice sellPrice availableLiquidity : Z) : result Z :=
  maxTradeSize <- BigNumber.parseEther (maxTradeSize (execution (config self))) ;;
  tenPercentLiquidity <- BigNumber.div availableLiquidity 10 ;;
  let recommendedAmount :=
    if tenPercentLiquidity <? maxTradeSize then tenPercentLiquidity else maxTradeSize in
  minAmount <- BigNumber.parseEther "0.1" ;;
  Ok (if recommendedAmount <? minAmount then minAmount else recommendedAmount).

Definition calculateGrossProfit (amount buyPrice sellPrice : Z) : result Z :=
  let priceDiff := sellPrice - buyPrice in
  BigNumber.div (priceDiff * amount) BigNumber.WeiPerEther.

Definition calculateFlashLoanFee (self : t) (amount : Z) : result Z :=
  let aaveFee :=
    Js.orNumber (option_map providerFeePercentage
                   (aave (flashLoanProviders (config self)))) (9 # 100) in
  let feeBasisPoints := Js.round (Js.mul aaveFee 100) in
  bps <- BigNumber.fromNumber (inject_Z feeBasisPoints) ;;
  BigNumber.div (amount * bps) 10000.

(** [Object.values(config.dexes).find(d => d?.name === dexName)]. *)
Definition findDex (self : t) (name : string) : option DexConfig :=
  match find (fun d => match d with
                       | Some d' => String.eqb (dexName d') name
                       | None => false
                       end) (dexes (config self)) with
  | Some d => d
  | None => None
  end.

Definition getDexFee (self : t) (name : string) : Q :=
  Js.orNumber (option_map dexFeePercentage (findDex self name)) 30.

Definition calculateDexFees (self : t) (amount : Z) (buyDex sellDex : string)
    : result Z :=
  let buyFee := getDexFee self buyDex in
  let sellFee := getDexFee self sellDex in
  let totalFeeBasisPoints := (buyFee + sellFee)%Q in
  bps <- BigNumber.fromNumber totalFeeBasisPoints ;;
  BigNumber.div (amount * bps) 10000.

Definition estimateGasCost (self : t) : result Z :=
  let estimatedGas := 400000 in
  maxGasPrice <- BigNumber.parseGwei (maxGasPrice (execution (config self))) ;;
  Ok (estimatedGas * maxGasPrice).

Definition calculateProfitPercentage (netProfit amount : Z) : result Q :=
  if amount =? 0 then Ok 0%Q
  else
    q <- BigNumber.div (netProfit * 10000) amount ;;
    n <- BigNumber.toNumber q ;;
    Ok (inject_Z n / 100)%Q.

Definition calculatePriceImpactPercent (amount price : Z) : result Q :=
  let assumedLiquidity := amount * 100 in
  q <- BigNumber.div (amount * 10000) assumedLiquidity ;;
  n <- BigNumber.toNumber q ;;
  let impact := (inject_Z n / 100)%Q in
  Ok (Js.min impact 100).

(** [parseFloat(formatEther(x)) * ethPriceUSD]. *)
Definition convertToUSD (self : t) (ethAmount : Z) : Q :=
  let ethValue := Js.parseFloat (BigNumber.formatEther ethAmount) in
  Js.mul ethValue (ethPriceUSD self).

Definition isOpportunityExecutable (self : t) (netProfit : Z)
    (profitPercentage buyPriceImpact sellPriceImpact : Q) : bool :=
  if netProfit <=? 0 then false
  else
    let netProfitUSD := convertToUSD self netProfit in
    if Js.ltb netProfitUSD (Js.double (minProfitUSD (execution (config self))))
    then false
    else if Js.ltb profitPercentage (minProfitPercentage (execution (config self)))
    then false
    else
      let maxSlippagePercent := (maxSlippage (execution (config self)) / 100)%Q in
      if Js.gtb buyPriceImpact maxSlippagePercent
         || Js.gtb sellPriceImpact maxSlippagePercent
      then false
      else true.

Definition calculateProfit (self : t) (opp : ArbitrageOpportunity)
    : result ProfitAnalysis :=
  recommendedAmount <-
    calculateOptimalAmount self (buyPrice opp) (sellPrice opp)
                           (availableLiquidity opp) ;;
  grossProfit <-
    calculateGrossProfit recommendedAmount (buyPrice opp) (sellPrice opp) ;;
  flashLoanFee <- calculateFlashLoanFee self recommendedAmount ;;
  dexFees <- calculateDexFees self recommendedAmount (buyDex opp) (sellDex opp) ;;
  gasCost <- estimateGasCost self ;;
  let netProfit := grossProfit - flashLoanFee - dexFees - gasCost in
  profitPercentage <- calculateProfitPercentage netProfit recommendedAmount ;;
  buyPriceImpact <- calculatePriceImpactPercent recommendedAmount (buyPrice opp) ;;
  sellPriceImpact <- calculatePriceImpactPercent recommendedAmount (sellPrice opp) ;;
  let isExecutable :=
    isOpportunityExecutable self netProfit profitPercentage
                            buyPriceImpact sellPriceImpact in
  Ok {| opportunity := opp;
        grossProfit := grossProfit;
        flashLoanFee := flashLoanFee;
        gasCost := gasCost;
        dexFees := dexFees;
        netProfit := netProfit;
        profitPercentage := profitPercentage;
        recommendedAmount := recommendedAmount;
        isExecutable := isExecutable;
        priceImpact := {| buy := buyPriceImpact; sell := sellPriceImpact |} |}.

Definition calculateMinimumProfitableAmount (buyPrice sellPrice : Z) : result Z :=
  let priceDiff := sellPrice - buyPrice in
  if priceDiff <=? 0 then Ok 0
  else BigNumber.parseEther "0.1".

End ProfitCalculator.

(* ================================================================== *)
(** ** Insertion-ordered [Map] and [Set] keyed by strings *)

Module JsMap.

(** [m.set(k, v)]: an existing key keeps its place, a new one goes last. *)
Fixpoint set {V : Type} (k : string) (v : V) (m : list (string * V))
    : list (string * V) :=
  match m with
  | [] => [(k, v)]
  | (k', v') :: m' =>
      if String.eqb k' k then (k, v) :: m' else (k', v') :: set k v m'
  end.

Fixpoint get {V : Type} (m : list (string * V)) (k : string) : option V :=
  match m with
  | [] => None
  | (k', v') :: m' => if String.eqb k' k then Some v' else get m' k
  end.

Definition keys {V : Type} (m : list (string * V)) : list string := map fst m.

End JsMap.

Module JsSet.

Definition has (s : list string) (k : string) : bool := existsb (String.eqb k) s.

Definition add (k : string) (s : list string) : list string :=
  if has s k then s else (s ++ [k])%list.

Definition delete (k : string) (s : list string) : list string :=
  filter (fun x => negb (String.eqb x k)) s.

End JsSet.

(* ================================================================== *)
(** ** Computations that read the clock and may throw *)

Section Clocked.

(** The successive readings of [Date.now()]. *)
Variable clock : nat -> Z.

Definition Clocked (A : Type) : Type := nat -> result A * nat.

Definition ret {A : Type} (a : A) : Clocked A := fun n => (Ok a, n).

Definition lift {A : Type} (r : result A) : Clocked A := fun n => (r, n).

Definition cbind {A B : Type} (c : Clocked A) (k : A -> Clocked B) : Clocked B :=
  fun n => match c n with
           | (Ok a, n') => k a n'
           | (Throw e, n') => (Throw e, n')
           end.

Definition Date_now : Clocked Z := fun n => (Ok (clock n), S n).

(** [try { c } catch { h }]. *)
Definition catch {A : Type} (c : Clocked A) (h : Clocked A) : Clocked A :=
  fun n => match c n with
           | (Ok a, n') => (Ok a, n')
           | (Throw _, n') => h n'
           end.

End Clocked.

Arguments ret {A} a _.
Arguments lift {A} r _.
Arguments cbind {A B} c k _.
Arguments catch {A} c h _.

Notation "x <~ c ;; k" := (cbind c (fun x => k))
  (at level 61, c at next level, right associativity).

(* ================================================================== *)
(** ** PriceAggregator *)

Module PriceAggregator.

(** A registered scanner, as the aggregator uses it during one scan:
    its name, whether it is ready, and the outcome of [getPrice]. *)
Record DexScanner : Type := {
  getName : string;
  isReady : bool;
  getPrice : string -> string -> result Price
}.

Record t : Type := {
  scanners : list (string * DexScanner);
  monitoredPairs : list string
}.

Definition new (scs : list DexScanner) : t :=
  {| scanners := fold_left (fun m sc => JsMap.set (getName sc) sc m) scs [];
     monitoredPairs := [] |}.

Definition getPairKey (tokenA tokenB : string) : string :=
  let sorted := Js.sort2 (Js.toLowerCase tokenA) (Js.toLowerCase tokenB) in
  (fst sorted ++ "-" ++ snd sorted)%string.

(** [const [tokenA, tokenB] = pairKey.split('-')]; a missing second
    component ([undefined]) is rendered as the empty string. *)
Definition parsePairKey (pairKey : string) : string * string :=
  let parts := Js.split "-" pairKey in
  (nth 0 parts EmptyString, nth 1 parts EmptyString).

Definition addPair (self : t) (tokenA tokenB : string) : t :=
  let pairKey := getPairKey tokenA tokenB in
  {| scanners := scanners self;
     monitoredPairs := JsSet.add pairKey (monitoredPairs self) |}.

Definition addPairs (self : t) (pairs : list (string * string)) : t :=
  fold_left (fun s p => addPair s (fst p) (snd p)) pairs self.

Definition removePair (self : t) (tokenA tokenB : string) : t :=
  let pairKey := getPairKey tokenA tokenB in
  {| scanners := scanners self;
     monitoredPairs := JsSet.delete pairKey (monitoredPairs self) |}.

Definition getMonitoredPairs (self : t) : list (string * string) :=
  map parsePairKey (monitoredPairs self).

Definition AddressZero : string := "0x0000000000000000000000000000000000000000".

Section WithClock.

Variable clock : nat -> Z.

Definition generateOpportunityId (tokenA tokenB buyDex sellDex : string)
    : Clocked string :=
  timestamp <~ Date_now clock ;;
  ret (tokenA ++ "-" ++ tokenB ++ "-" ++ buyDex ++ "-" ++ sellDex ++ "-"
         ++ Js.intToString timestamp)%string.

Definition createOpportunityIfProfitable
    (tokenA tokenB buyDex sellDex : string) (buyPrice sellPrice : Price)
    : Clocked (option ArbitrageOpportunity) :=
  if price sellPrice <=? price buyPrice then ret None
  else
    let priceDiff := price sellPrice - price buyPrice in
    q <~ lift (BigNumber.div (priceDiff * 10000) (price buyPrice)) ;;
    n <~ lift (BigNumber.toNumber q) ;;
    let diffPercentage := (inject_Z n / 100)%Q in
    let minDiffPercentage := (5 # 10)%Q in
    if Js.ltb diffPercentage minDiffPercentage then ret None
    else
      availableLiquidity <~ lift (BigNumber.parseEther "10") ;;
      ident <~ generateOpportunityId tokenA tokenB buyDex sellDex ;;
      now <~ Date_now clock ;;
      ret (Some {| id := ident;
                   tokenIn := tokenA;
                   tokenOut := tokenB;
                   buyDex := buyDex;
                   sellDex := sellDex;
                   buyPrice := price buyPrice;
                   sellPrice := price sellPrice;
                   buyPoolAddress := Js.orString (poolAddress buyPrice) AddressZero;
                   sellPoolAddress := Js.orString (poolAddress sellPrice) AddressZero;
                   availableLiquidity := availableLiquidity;
                   timestamp := now;
                   blockNumber := Z.max (priceBlockNumber buyPrice)
                                        (priceBlockNumber sellPrice);
                   estimatedProfit := Some priceDiff |}).

(** The first loop of [detectOpportunitiesForPair]: scanners that are
    not ready, or whose [getPrice] throws, contribute no price. *)
Definition fetchPrices (self : t) (tokenA tokenB : string)
    : list (string * Price) :=
  fold_left
    (fun prices entry =>
       let '(dexName, scanner) := entry in
       if negb (isReady scanner) then prices
       else match getPrice scanner tokenA tokenB with
            | Ok p => JsMap.set dexName p prices
            | Throw _ => prices
            end)
    (scanners self) [].

Definition push (opps : list ArbitrageOpportunity)
    (o : option ArbitrageOpportunity) : list ArbitrageOpportunity :=
  match o with
  | Some o' => (opps ++ [o'])%list
  | None => opps
  end.

(** [prices.get(dex)!], then a field access: a missing entry would
    raise a TypeError. *)
Definition getPriceOf (prices : list (string * Price)) (dex : string)
    : Clocked Price :=
  match JsMap.get prices dex with
  | Some p => ret p
  | None => lift (Throw TypeError)
  end.

(** The inner loop, [j] ranging over the names after [dex1]. *)
Fixpoint compareWith (prices : list (string * Price))
    (tokenA tokenB dex1 : string) (later : list string)
    (opps : list ArbitrageOpportunity) : Clocked (list ArbitrageOpportunity) :=
  match later with
  | [] => ret opps
  | dex2 :: later' =>
      price1 <~ getPriceOf prices dex1 ;;
      price2 <~ getPriceOf prices dex2 ;;
      opportunity1 <~
        createOpportunityIfProfitable tokenA tokenB dex1 dex2 price1 price2 ;;
      let opps1 := push opps opportunity1 in
      opportunity2 <~
        createOpportunityIfProfitable tokenA tokenB dex2 dex1 price2 price1 ;;
      let opps2 := push opps1 opportunity2 in
      compareWith prices tokenA tokenB dex1 later' opps2
  end.

(** The outer loop, [i] ranging over all names. *)
Fixpoint compareAll (prices : list (string * Price))
    (tokenA tokenB : string) (dexNames : list string)
    (opps : list ArbitrageOpportunity) : Clocked (list ArbitrageOpportunity) :=
  match dexNames with
  | [] => ret opps
  | dex1 :: later =>
      opps' <~ compareWith prices tokenA tokenB dex1 later opps ;;
      compareAll prices tokenA tokenB later opps'
  end.

Definition detectOpportunitiesForPair (self : t) (tokenA tokenB : string)
    : Clocked (list ArbitrageOpportunity) :=
  let prices := fetchPrices self tokenA tokenB in
  if (List.length prices <? 2)%nat then ret []
  else
    let dexNames := JsMap.keys prices in
    compareAll prices tokenA tokenB dexNames [].

(** The scan of every monitored pair; a pair whose scan throws is
    skipped. *)
Fixpoint scanPairs (self : t) (pairKeys : list string)
    (opps : list ArbitrageOpportunity) : Clocked (list ArbitrageOpportunity) :=
  match pairKeys with
  | [] => ret opps
  | pairKey :: rest =>
      let '(tokenA, tokenB) := parsePairKey pairKey in
      opps' <~ catch
                 (pairOpportunities <~ detectOpportunitiesForPair self tokenA tokenB ;;
                  ret (opps ++ pairOpportunities)%list)
                 (ret opps) ;;
      scanPairs self rest opps'
  end.

Definition detectOpportunities (self : t)
    : Clocked (list ArbitrageOpportunity) :=
  catch (scanPairs self (monitoredPairs self) []) (ret []).

End WithClock.

Definition getScanner (self : t) (name : string) : option DexScanner :=
  JsMap.get (scanners self) name.

(** [getStats]: the two sizes (monitoring flag and callbacks belong to the
    monitoring loop). *)
Definition scannerCount (self : t) : nat := List.length (scanners self).
Definition monitoredPairCount (self : t) : nat := List.length (monitoredPairs self).

End PriceAggregator.

(* ================================================================== *)
(** ** DexScanner: the helpers of the scanner base class *)

Module DexScanner.

(** Besides the numeric faults of [error], [BigNumber.pow] refuses a
    negative exponent. *)
Inductive fault : Type :=
| Numeric (e : error)
| NegativePower.

Inductive outcome (A : Type) : Type :=
| Done (a : A)
| Fault (f : fault).
Arguments Done {A} a.
Arguments Fault {A} f.

Definition obind {A B : Type} (c : outcome A) (k : A -> outcome B) : outcome B :=
  match c with
  | Done a => k a
  | Fault f => Fault f
  end.

Definition ofResult {A : Type} (r : result A) : outcome A :=
  match r with
  | Ok a => Done a
  | Throw e => Fault (Numeric e)
  end.

(** [BigNumber.from(10).pow(n)] for a JavaScript number [n]. *)
Definition pow10 (n : Z) : outcome Z :=
  obind (ofResult (BigNumber.fromNumber (inject_Z n)))
        (fun e => if e <? 0 then Fault NegativePower else Done (10 ^ e)).

Record PricePair : Type := {
  pairPrice : Z;
  pairInversePrice : Z
}.

Definition calculatePrice (reserve0 reserve1 decimals0 decimals1 : Z)
    : outcome PricePair :=
  obind (pow10 (18 - decimals0)) (fun scale0 =>
  let adjustedReserve0 := reserve0 * scale0 in
  obind (pow10 (18 - decimals1)) (fun scale1 =>
  let adjustedReserve1 := reserve1 * scale1 in
  obind (ofResult (BigNumber.div (adjustedReserve1 * BigNumber.WeiPerEther)
                                 adjustedReserve0)) (fun price =>
  obind (ofResult (BigNumber.div (adjustedReserve0 * BigNumber.WeiPerEther)
                                 adjustedReserve1)) (fun inversePrice =>
  Done {| pairPrice := price; pairInversePrice := inversePrice |})))).

Definition calculatePriceImpact (amountIn reserveIn reserveOut : Z) : result Q :=
  q <- BigNumber.div (amountIn * 10000) reserveIn ;;
  n <- BigNumber.toNumber q ;;
  Ok (inject_Z n / 100)%Q.

(** [feeBasisPoints] defaults to 30 when the argument is left out. *)
Definition calculateAmountOut (amountIn reserveIn reserveOut : Z)
    (feeBasisPoints : option Q) : result Z :=
  let fee := match feeBasisPoints with Some f => f | None => 30%Q end in
  keep <- BigNumber.fromNumber (10000 - fee)%Q ;;
  let amountInWithFee := amountIn * keep in
  let numerator := amountInWithFee * reserveOut in
  let denominator := reserveIn * 10000 + amountInWithFee in
  BigNumber.div numerator denominator.

(** The pair [(token0, token1)]. *)
Definition sortTokens (tokenA tokenB : string) : string * string :=
  let token0 :=
    if String.ltb (Js.toLowerCase tokenA) (Js.toLowerCase tokenB) then tokenA
    else tokenB in
  let token1 := if String.eqb token0 tokenA then tokenB else tokenA in
  (token0, token1).

End DexScanner.

(* ================================================================== *)
(** ** OpportunityValidator *)

Record ValidationResult : Type := {
  isValid : bool;
  reason : option string;
  warnings : option (list string)
}.

Module OpportunityValidator.

Record Options : Type := {
  optBlacklistedTokens : option (list string);
  optWhitelistedTokens : option (list string);
  optBlacklistedDexes : option (list string);
  optMinLiquidityUSD : option Q;
  optUseWhitelist : option bool
}.

Record t : Type := {
  config : NetworkConfig;
  blacklistedTokens : list string;
  whitelistedTokens : list string;
  blacklistedDexes : list string;
  minLiquidityUSD : Q;
  useWhitelist : bool
}.

(** [new Set(array)]. *)
Definition setOf (l : list string) : list string :=
  fold_left (fun s k => JsSet.add k s) l [].

Definition orEmpty (l : option (list string)) : list string :=
  match l with Some l' => l' | None => [] end.

Definition new (cfg : NetworkConfig) (options : option Options) : t :=
  let get {A} (f : Options -> option A) : option A :=
    match options with Some o => f o | None => None end in
  {| config := cfg;
     blacklistedTokens :=
       setOf (orEmpty (option_map (map Js.toLowerCase) (get optBlacklistedTokens)));
     whitelistedTokens :=
       setOf (orEmpty (option_map (map Js.toLowerCase) (get optWhitelistedTokens)));
     blacklistedDexes := setOf (orEmpty (get optBlacklistedDexes));
     minLiquidityUSD := Js.orNumber (get optMinLiquidityUSD) 10000;
     useWhitelist := match get optUseWhitelist with Some b => b | None => false end |}.

Definition accept (ws : list string) : ValidationResult :=
  {| isValid := true;
     reason := None;
     warnings := match ws with [] => None | _ => Some ws end |}.

Definition reject (why : string) : ValidationResult :=
  {| isValid := false; reason := Some why; warnings := None |}.

Section Platform.

(** Number formatting: [x.toFixed(d)] and the template rendering [`${x}`]. *)
Variable toFixed : Q -> nat -> string.
Variable numberToString : Q -> string.
(** ethers' EIP-55 checksum of a 0x-prefixed 40-digit hexadecimal
    address, and its acceptance of a string of ICAP shape. *)
Variable getChecksumAddress : string -> string.
Variable icapValid : string -> bool.

Definition hasPrefix0x (s : string) : bool :=
  match s with
  | String "0" (String "x" _) => true
  | _ => false
  end.

Definition isHex40 (s : string) : bool :=
  Js.forallb_string Js.isHexDigit s && (String.length s =? 40)%nat.

(** [/^(0x)?[0-9a-fA-F]{40}$/]. *)
Definition matchesHexAddress (s : string) : bool :=
  match s with
  | String "0" (String "x" r) => isHex40 r
  | _ => isHex40 s
  end.

(** [/([A-F].*[a-f])|([a-f].*[A-F])/] on a hexadecimal address. *)
Definition isMixedCase (s : string) : bool :=
  Js.existsb_string Js.isUpperAF s && Js.existsb_string Js.isLowerAF s.

(** [/^XE[0-9]{2}[0-9A-Za-z]{30,31}$/]. *)
Definition matchesIcap (s : string) : bool :=
  match s with
  | String "X" (String "E" (String d1 (String d2 r))) =>
      Js.isDigit d1 && Js.isDigit d2 && Js.forallb_string Js.isAlnum r
      && ((String.length r =? 30)%nat || (String.length r =? 31)%nat)
  | _ => false
  end.

(** [ethers.utils.isAddress]: [getAddress] does not throw. *)
Definition isAddress (address : string) : bool :=
  if matchesHexAddress address then
    let address' := if hasPrefix0x address then address
                    else ("0x" ++ address)%string in
    let result := getChecksumAddress address' in
    if isMixedCase address' && negb (String.eqb result address') then false
    else true
  else if matchesIcap address then icapValid address
  else false.

Definition validateTokens (self : t) (opp : ArbitrageOpportunity)
    : ValidationResult :=
  if negb (isAddress (tokenIn opp)) then
    reject ("Invalid tokenIn address: " ++ tokenIn opp)%string
  else if negb (isAddress (tokenOut opp)) then
    reject ("Invalid tokenOut address: " ++ tokenOut opp)%string
  else if String.eqb (Js.toLowerCase (tokenIn opp)) (Js.toLowerCase (tokenOut opp)) then
    reject "TokenIn and tokenOut cannot be the same"
  else
    let tokenInLower := Js.toLowerCase (tokenIn opp) in
    let tokenOutLower := Js.toLowerCase (tokenOut opp) in
    if JsSet.has (blacklistedTokens self) tokenInLower then
      reject ("TokenIn is blacklisted: " ++ tokenIn opp)%string
    else if JsSet.has (blacklistedTokens self) tokenOutLower then
      reject ("TokenOut is blacklisted: " ++ tokenOut opp)%string
    else if useWhitelist self
            && negb (JsSet.has (whitelistedTokens self) tokenInLower) then
      reject ("TokenIn not in whitelist: " ++ tokenIn opp)%string
    else if useWhitelist self
            && negb (JsSet.has (whitelistedTokens self) tokenOutLower) then
      reject ("TokenOut not in whitelist: " ++ tokenOut opp)%string
    else accept [].

Definition validateDexes (self : t) (opp : ArbitrageOpportunity)
    : ValidationResult :=
  if String.eqb (buyDex opp) (sellDex opp) then
    reject "Buy and sell DEX cannot be the same"
  else if JsSet.has (blacklistedDexes self) (buyDex opp) then
    reject ("Buy DEX is blacklisted: " ++ buyDex opp)%string
  else if JsSet.has (blacklistedDexes self) (sellDex opp) then
    reject ("Sell DEX is blacklisted: " ++ sellDex opp)%string
  else if negb (isAddress (buyPoolAddress opp)) then
    reject ("Invalid buy pool address: " ++ buyPoolAddress opp)%string
  else if negb (isAddress (sellPoolAddress opp)) then
    reject ("Invalid sell pool address: " ++ sellPoolAddress opp)%string
  else accept [].

(** The price stage divides and converts through BigNumber, so it can
    throw; [buyPrice] is positive by then, so only [toNumber] can. *)
Definition validatePrices (self : t) (opp : ArbitrageOpportunity)
    : result ValidationResult :=
  if buyPrice opp <=? 0 then Ok (reject "Buy price must be positive")
  else if sellPrice opp <=? 0 then Ok (reject "Sell price must be positive")
  else if sellPrice opp <=? buyPrice opp then
    Ok (reject "Sell price must be higher than buy price for profitable arbitrage")
  else
    let priceDiff := sellPrice opp - buyPrice opp in
    q <- BigNumber.div (priceDiff * 10000) (buyPrice opp) ;;
    n <- BigNumber.toNumber q ;;
    let diffPercentage := (inject_Z n / 100)%Q in
    let warnings1 :=
      if Js.gtb diffPercentage 10 then
        ["Very high price difference: " ++ toFixed diffPercentage 2
           ++ "% - verify data accuracy"]%string
      else [] in
    let warnings2 :=
      if Js.ltb diffPercentage (3 # 10) then
        (warnings1 ++ ["Low price difference: " ++ toFixed diffPercentage 2
                         ++ "% - may not cover all fees"]%string)%list
      else warnings1 in
    Ok (accept warnings2).

Definition validateLiquidity (self : t) (opp : ArbitrageOpportunity)
    : ValidationResult :=
  if availableLiquidity opp <=? 0 then
    reject "Available liquidity must be positive"
  else
    let liquidityETH :=
      Js.parseFloat (BigNumber.formatEther (availableLiquidity opp)) in
    let estimatedUSD := Js.mul liquidityETH 2000 in
    if Js.ltb estimatedUSD (Js.double (minLiquidityUSD self)) then
      reject ("Insufficient liquidity: $" ++ toFixed estimatedUSD 0 ++ " < $"
                ++ numberToString (minLiquidityUSD self))%string
    else if Js.ltb estimatedUSD (Js.mul (minLiquidityUSD self) (15 # 10)) then
      accept ["Low liquidity: $" ++ toFixed estimatedUSD 0
                ++ " - expect high slippage"]%string
    else accept [].

Definition validateProfitPotential (self : t) (opp : ArbitrageOpportunity)
    : ValidationResult :=
  match estimatedProfit opp with
  | Some profit =>
      if profit <=? 0 then reject "Estimated profit must be positive"
      else
        let profitETH := Js.parseFloat (BigNumber.formatEther profit) in
        let profitUSD := Js.mul profitETH 2000 in
        let minProfit := minProfitUSD (execution (config self)) in
        if Js.ltb profitUSD (Js.double minProfit) then
          reject ("Estimated profit $" ++ toFixed profitUSD 2 ++ " below minimum $"
                    ++ numberToString minProfit)%string
        else if Js.ltb profitUSD (Js.mul minProfit (12 # 10)) then
          accept ["Marginal profit: $" ++ toFixed profitUSD 2
                    ++ " - vulnerable to price changes"]%string
        else accept []
  | None => accept ["No estimated profit provided - validation limited"]
  end.

(** [now] is the reading of [Date.now()] the stage takes. *)
Definition validateFreshness (self : t) (now : Z) (opp : ArbitrageOpportunity)
    : ValidationResult :=
  let ageMs := now - timestamp opp in
  let ageSeconds := (inject_Z ageMs / 1000)%Q in
  let maxAgeSeconds := 60%Q in
  if Js.gtb ageSeconds maxAgeSeconds then
    reject ("Opportunity is stale: " ++ toFixed ageSeconds 0 ++ "s old (max: "
              ++ numberToString maxAgeSeconds ++ "s)")%string
  else if Js.gtb ageSeconds (maxAgeSeconds / 2)%Q then
    accept ["Opportunity aging: " ++ toFixed ageSeconds 0
              ++ "s old - execute quickly"]%string
  else accept [].

Definition warningsOf (r : ValidationResult) : list string :=
  match warnings r with Some ws => ws | None => [] end.

(** The six stages in order; [now] is read by the last one only. *)
Definition validate (self : t) (now : Z) (opp : ArbitrageOpportunity)
    : result ValidationResult :=
  let warnings0 : list string := [] in
  let tokenValidation := validateTokens self opp in
  if negb (isValid tokenValidation) then Ok tokenValidation
  else
  let warnings1 := (warnings0 ++ warningsOf tokenValidation)%list in
  let dexValidation := validateDexes self opp in
  if negb (isValid dexValidation) then Ok dexValidation
  else
  let warnings2 := (warnings1 ++ warningsOf dexValidation)%list in
  priceValidation <- validatePrices self opp ;;
  if negb (isValid priceValidation) then Ok priceValidation
  else
  let warnings3 := (warnings2 ++ warningsOf priceValidation)%list in
  let liquidityValidation := validateLiquidity self opp in
  if negb (isValid liquidityValidation) then Ok liquidityValidation
  else
  let warnings4 := (warnings3 ++ warningsOf liquidityValidation)%list in
  let profitValidation := validateProfitPotential self opp in
  if negb (isValid profitValidation) then Ok profitValidation
  else
  let warnings5 := (warnings4 ++ warningsOf profitValidation)%list in
  let freshnessValidation := validateFreshness self now opp in
  if negb (isValid freshnessValidation) then Ok freshnessValidation
  else
  let warnings6 := (warnings5 ++ warningsOf freshnessValidation)%list in
  Ok (accept warnings6).

End Platform.

Definition addToBlacklist (self : t) (token : string) : t :=
  {| config := config self;
     blacklistedTokens := JsSet.add (Js.toLowerCase token) (blacklistedTokens self);
     whitelistedTokens := whitelistedTokens self;
     blacklistedDexes := blacklistedDexes self;
     minLiquidityUSD := minLiquidityUSD self;
     useWhitelist := useWhitelist self |}.

Definition removeFromBlacklist (self : t) (token : string) : t :=
  {| config := config self;
     blacklistedTokens := JsSet.delete (Js.toLowerCase token) (blacklistedTokens self);
     whitelistedTokens := whitelistedTokens self;
     blacklistedDexes := blacklistedDexes self;
     minLiquidityUSD := minLiquidityUSD self;
     useWhitelist := useWhitelist self |}.

Definition addToWhitelist (self : t) (token : string) : t :=
  {| config := config self;
     blacklistedTokens := blacklistedTokens self;
     whitelistedTokens := JsSet.add (Js.toLowerCase token) (whitelistedTokens self);
     blacklistedDexes := blacklistedDexes self;
     minLiquidityUSD := minLiquidityUSD self;
     useWhitelist := useWhitelist self |}.

Definition removeFromWhitelist (self : t) (token : string) : t :=
  {| config := config self;
     blacklistedTokens := blacklistedTokens self;
     whitelistedTokens := JsSet.delete (Js.toLowerCase token) (whitelistedTokens self);
     blacklistedDexes := blacklistedDexes self;
     minLiquidityUSD := minLiquidityUSD self;
     useWhitelist := useWhitelist self |}.

Definition addDexToBlacklist (self : t) (dex : string) : t :=
  {| config := config self;
     blacklistedTokens := blacklistedTokens self;
     whitelistedTokens := whitelistedTokens self;
     blacklistedDexes := JsSet.add dex (blacklistedDexes self);
     minLiquidityUSD := minLiquidityUSD self;
     useWhitelist := useWhitelist self |}.

Definition removeDexFromBlacklist (self : t) (dex : string) : t :=
  {| config := config self;
     blacklistedTokens := blacklistedTokens self;
     whitelistedTokens := whitelistedTokens self;
     blacklistedDexes := JsSet.delete dex (blacklistedDexes self);
     minLiquidityUSD := minLiquidityUSD self;
     useWhitelist := useWhitelist self |}.

Definition enableWhitelist (self : t) : t :=
  {| config := config self;
     blacklistedTokens := blacklistedTokens self;
     whitelistedTokens := whitelistedTokens self;
     blacklistedDexes := blacklistedDexes self;
     minLiquidityUSD := minLiquidityUSD self;
     useWhitelist := true |}.

Definition disableWhitelist (self : t) : t :=
  {| config := config self;
     blacklistedTokens := blacklistedTokens self;
     whitelistedTokens := whitelistedTokens self;
     blacklistedDexes := blacklistedDexes self;
     minLiquidityUSD := minLiquidityUSD self;
     useWhitelist := false |}.

Definition setMinLiquidityUSD (self : t) (amount : Q) : t :=
  {| config := config self;
     blacklistedTokens := blacklistedTokens self;
     whitelistedTokens := whitelistedTokens self;
     blacklistedDexes := blacklistedDexes self;
     minLiquidityUSD := amount;
     useWhitelist := useWhitelist self |}.

End OpportunityValidator.

(* ================================================================== *)
(** ** The opportunity handler of the monitoring loop (index.ts) *)

Module Bot.

Record Counters : Type := {
  opportunitiesDetected : Z;
  opportunitiesExecuted : Z;
  opportunitiesSkipped : Z
}.

Record FlashLoanParams : Type := {
  provider : string;
  token : string;
  amount : Z;
  paramsBuyDex : string;
  paramsSellDex : string
}.

Record ExecutionResult : Type := {
  success : bool;
  profit : option Z
}.

(** The executor the handler calls: [simulateExecution] gives the
    simulation's [success] flag, [executeAaveArbitrage] the execution
    result; either may throw. *)
Record ContractInteractor : Type := {
  simulateExecution : FlashLoanParams -> result bool;
  executeAaveArbitrage : ArbitrageOpportunity -> Z -> result ExecutionResult
}.

Inductive Call : Type :=
| SimulateExecution (params : FlashLoanParams)
| ExecuteAaveArbitrage (opp : ArbitrageOpportunity) (amount : Z).

(** The counters of [monitorOpportunities] and the calls made to the
    executor, latest last. *)
Record State : Type := {
  counters : Counters;
  calls : list Call
}.

Definition detected (st : State) : State :=
  {| counters :=
       {| opportunitiesDetected := opportunitiesDetected (counters st) + 1;
          opportunitiesExecuted := opportunitiesExecuted (counters st);
          opportunitiesSkipped := opportunitiesSkipped (counters st) |};
     calls := calls st |}.

Definition executed (st : State) : State :=
  {| counters :=
       {| opportunitiesDetected := opportunitiesDetected (counters st);
          opportunitiesExecuted := opportunitiesExecuted (counters st) + 1;
          opportunitiesSkipped := opportunitiesSkipped (counters st) |};
     calls := calls st |}.

Definition skipped (st : State) : State :=
  {| counters :=
       {| opportunitiesDetected := opportunitiesDetected (counters st);
          opportunitiesExecuted := opportunitiesExecuted (counters st);
          opportunitiesSkipped := opportunitiesSkipped (counters st) + 1 |};
     calls := calls st |}.

Definition called (c : Call) (st : State) : State :=
  {| counters := counters st; calls := (calls st ++ [c])%list |}.

Section Handler.

Variable toFixed : Q -> nat -> string.
Variable numberToString : Q -> string.
Variable getChecksumAddress : string -> string.
Variable icapValid : string -> bool.

(** [handleOpportunity]; [dryRun] is [config.network.execution.dryRun] and
    [now] the clock reading of the validator.  Every early [return] and the
    [catch] clause count the opportunity as skipped; the log line after a
    successful execution formats [result.profit], which throws when the
    result carries none. *)
Definition handleOpportunity (validator : OpportunityValidator.t)
    (calculator : ProfitCalculator.t) (interactor : ContractInteractor)
    (dryRun : bool) (now : Z) (opp : ArbitrageOpportunity) (st : State) : State :=
  let st1 := detected st in
  match OpportunityValidator.validate toFixed numberToString getChecksumAddress
          icapValid validator now opp with
  | Throw _ => skipped st1
  | Ok validation =>
    if negb (isValid validation) then skipped st1
    else
      match ProfitCalculator.calculateProfit calculator opp with
      | Throw _ => skipped st1
      | Ok analysis =>
        if negb (isExecutable analysis) then skipped st1
        else if negb dryRun then
          let params := {| provider := "aave";
                           token := tokenIn opp;
                           amount := recommendedAmount analysis;
                           paramsBuyDex := buyDex opp;
                           paramsSellDex := sellDex opp |} in
          let st2 := called (SimulateExecution params) st1 in
          match simulateExecution interactor params with
          | Throw _ => skipped st2
          | Ok simulationSuccess =>
            if negb simulationSuccess then skipped st2
            else
              let st3 :=
                called (ExecuteAaveArbitrage opp (recommendedAmount analysis)) st2 in
              match executeAaveArbitrage interactor opp (recommendedAmount analysis) with
              | Throw _ => skipped st3
              | Ok result =>
                if success result then
                  let st4 := executed st3 in
                  match profit result with
                  | Some _ => st4
                  | None => skipped st4
                  end
                else skipped st3
              end
          end
        else skipped st1
      end
  end.

End Handler.

End Bot.

(* ================================================================== *)
(** ** Sample configurations and inputs *)

Module Sample.

Definition WETH : string := "0xc02aaa39b223fe8d0a0e5c4f27ead9083c756cc2".
Definition USDC : string := "0xa0b86991c6218b36c1d19d4a2e9eb0ce3606eb48".
Definition poolA : string := "0xb4e16d0168e52d35cacd2c6185b44281ec28c9dc".
Definition poolB : string := "0x397ff1542f962076d0bfe58ea045ffa2d347aca0".

(** The defaults of [loadNetworkConfig] (config/index.ts). *)
Definition defaultExecution : ExecutionConfig :=
  {| minProfitUSD := 50;
     minProfitPercentage := 5 # 10;
     maxGasPrice := "100";
     maxSlippage := 50;
     maxTradeSize := "10" |}.

Definition defaultConfig : NetworkConfig :=
  {| flashLoanProviders :=
       {| aave := Some {| providerContract := "0x87870Bca3F3fD6335C3F4ce8392D69350B4fA4E2";
                          providerFeePercentage := 9 # 100 |};
          balancer := Some {| providerContract := "0xBA12222222228d8Ba445958a75a0704d566BF2C8";
                              providerFeePercentage := 0 |} |};
     dexes := [ Some {| dexName := "Uniswap V2"; dexFeePercentage := 30 |};
                Some {| dexName := "SushiSwap"; dexFeePercentage := 30 |};
                Some {| dexName := "Uniswap V3"; dexFeePercentage := 30 |} ];
     execution := defaultExecution |}.

(** The default configuration with the Aave fee set to zero. *)
Definition zeroAaveFeeConfig : NetworkConfig :=
  {| flashLoanProviders :=
       {| aave := Some {| providerContract := "0x87870Bca3F3fD6335C3F4ce8392D69350B4fA4E2";
                          providerFeePercentage := 0 |};
          balancer := balancer (flashLoanProviders defaultConfig) |};
     dexes := dexes defaultConfig;
     execution := defaultExecution |}.

(** A configuration under which every deduction vanishes: an Aave fee
    that rounds to zero basis points, venue fees that cancel, a zero gas
    price ceiling. *)
Definition noDeductionConfig : NetworkConfig :=
  {| flashLoanProviders :=
       {| aave := Some {| providerContract := "0x87870Bca3F3fD6335C3F4ce8392D69350B4fA4E2";
                          providerFeePercentage := 4 # 1000 |};
          balancer := None |};
     dexes := [ Some {| dexName := "Uniswap V2"; dexFeePercentage := 30 |};
                Some {| dexName := "Rebate"; dexFeePercentage := -30 |} ];
     execution :=
       {| minProfitUSD := 50;
          minProfitPercentage := 5 # 10;
          maxGasPrice := "0";
          maxSlippage := 100;
          maxTradeSize := "10" |} |}.


(** An opportunity buying at 100 and selling at 105 (18-decimal scale),
    with the liquidity the aggregator attaches. *)
Definition opp_100_105 (bd sd : string) (ts : Z) : ArbitrageOpportunity :=
  {| id := "";
     tokenIn := WETH;
     tokenOut := USDC;
     buyDex := bd;
     sellDex := sd;
     buyPrice := 100 * 10 ^ 18;
     sellPrice := 105 * 10 ^ 18;
     buyPoolAddress := poolA;
     sellPoolAddress := poolB;
     availableLiquidity := 10 * 10 ^ 18;
     timestamp := ts;
     blockNumber := 18000000;
     estimatedProfit := Some (5 * 10 ^ 18) |}.


(** Reference renderers for the examples: [x.toFixed(d)] and [`${x}`] on
    rationals with a finite decimal expansion (halves round away from
    zero); [numberToString] is meant for integral values. *)
Fixpoint zeros (n : nat) : string :=
  match n with
  | O => EmptyString
  | S n' => String "0" (zeros n')
  end.

Definition toFixed (x : Q) (d : nat) : string :=
  let scaled := Qfloor (Qabs x * inject_Z (10 ^ Z.of_nat d) + (1 # 2)) in
  let digits := Js.intToString scaled in
  let padded := (zeros (S d - String.length digits) ++ digits)%string in
  let cut := (String.length padded - d)%nat in
  ((if Qle_bool 0 x then "" else "-")
     ++ substring 0 cut padded
     ++ (if (d =? 0)%nat then "" else String "." (substring cut d padded)))%string.

Definition numberToString (x : Q) : string :=
  if Qeq_bool (inject_Z (Qfloor x)) x then Js.intToString (Qfloor x)
  else toFixed x 6.

(** The sample addresses are lower-case, so [isAddress] never consults the
    EIP-55 checksum (Keccak-256 is not modelled) nor the ICAP check. *)
Definition checksumNotConsulted (address : string) : string := address.
Definition icapNotConsulted (address : string) : bool := false.

(** The validator as index.ts builds it. *)
Definition validator : OpportunityValidator.t :=
  OpportunityValidator.new defaultConfig
    (Some {| OpportunityValidator.optBlacklistedTokens := None;
             OpportunityValidator.optWhitelistedTokens := None;
             OpportunityValidator.optBlacklistedDexes := None;
             OpportunityValidator.optMinLiquidityUSD := Some 10000%Q;
             OpportunityValidator.optUseWhitelist := Some false |}).


(** Detection time of the sample opportunity, in milliseconds. *)
Definition detectedAt : Z := 1700000000000.

Definition freshOpportunity : ArbitrageOpportunity :=
  opp_100_105 "Uniswap V2" "SushiSwap" detectedAt.

(** The sample opportunity with a liquidity of 5 ether less one wei. *)
Definition marginalOpportunity : ArbitrageOpportunity :=
  {| id := id freshOpportunity;
     tokenIn := tokenIn freshOpportunity;
     tokenOut := tokenOut freshOpportunity;
     buyDex := buyDex freshOpportunity;
     sellDex := sellDex freshOpportunity;
     buyPrice := buyPrice freshOpportunity;
     sellPrice := sellPrice freshOpportunity;
     buyPoolAddress := buyPoolAddress freshOpportunity;
     sellPoolAddress := sellPoolAddress freshOpportunity;
     availableLiquidity := 5 * 10 ^ 18 - 1;
     timestamp := timestamp freshOpportunity;
     blockNumber := blockNumber freshOpportunity;
     estimatedProfit := estimatedProfit freshOpportunity |}.

(** A quote of venue [name] at price [p]. *)
Definition quote (name pool : string) (p : Z) : Price :=
  {| price := p;
     inversePrice := Z.quot (10 ^ 36) p;
     priceBlockNumber := 18000000;
     priceTimestamp := 1700000000000;
     source := name;
     poolAddress := Some pool |}.

(** A scanner that is ready and quotes a fixed price for every pair. *)
Definition fixedScanner (name pool : string) (p : Z) : PriceAggregator.DexScanner :=
  {| PriceAggregator.getName := name;
     PriceAggregator.isReady := true;
     PriceAggregator.getPrice := fun _ _ => Ok (quote name pool p) |}.

Definition WETH_checksummed : string := "0xC02aaA39b223FE8D0A0e5C4F27eAD9083C756Cc2".
Definition USDC_checksummed : string := "0xA0b86991c6218b36c1d19D4a2e9Eb0cE3606eB48".

(** Two venues quoting 100 and 105. *)
Definition twoVenues : PriceAggregator.t :=
  PriceAggregator.new [ fixedScanner "Uniswap V2" poolA (100 * 10 ^ 18);
                        fixedScanner "SushiSwap" poolB (105 * 10 ^ 18) ].

(** Two venues quoting the same price. *)
Definition twoVenuesSamePrice : PriceAggregator.t :=
  PriceAggregator.new [ fixedScanner "Uniswap V2" poolA (100 * 10 ^ 18);
                        fixedScanner "SushiSwap" poolB (100 * 10 ^ 18) ].

(** The clock: one millisecond per reading. *)
Definition clock (n : nat) : Z := 1700000000000 + Z.of_nat n.

(** Three venues, the first quoting a price that rounds to zero. *)
Definition threeVenuesOneZero : PriceAggregator.t :=
  PriceAggregator.new [ fixedScanner "Thin" poolA 0;
                        fixedScanner "Uniswap V2" poolA (100 * 10 ^ 18);
                        fixedScanner "SushiSwap" poolB (105 * 10 ^ 18) ].

(** The default configuration with the Uniswap V2 venue fee set to zero
    and a slippage bound of 100 basis points. *)
Definition zeroVenueFeeConfig : NetworkConfig :=
  {| flashLoanProviders := flashLoanProviders defaultConfig;
     dexes := [ Some {| dexName := "Uniswap V2"; dexFeePercentage := 0 |};
                Some {| dexName := "SushiSwap"; dexFeePercentage := 30 |} ];
     execution :=
       {| minProfitUSD := 50;
          minProfitPercentage := 5 # 10;
          maxGasPrice := "100";
          maxSlippage := 100;
          maxTradeSize := "10" |} |}.

(** The counters of [monitorOpportunities] at start-up. *)
Definition initialState : Bot.State :=
  {| Bot.counters := {| Bot.opportunitiesDetected := 0;
                        Bot.opportunitiesExecuted := 0;
                        Bot.opportunitiesSkipped := 0 |};
     Bot.calls := [] |}.

(** An executor whose simulation passes and whose execution reports
    [success] with the given profit. *)
Definition successfulInteractor (reported : option Z) : Bot.ContractInteractor :=
  {| Bot.simulateExecution := fun _ => Ok true;
     Bot.executeAaveArbitrage := fun _ _ =>
       Ok {| Bot.success := true; Bot.profit := reported |} |}.

(** The sample opportunity between the two venues of [noDeductionConfig]. *)
Definition executableOpportunity : ArbitrageOpportunity :=
  opp_100_105 "Uniswap V2" "Rebate" detectedAt.

End Sample.

(* ================================================================== *)
(** ** What the synthesis guarantees of an opportunity *)

(** An opportunity synthesized for the pair [(tokenA, tokenB)]. *)
Definition synthesized (tokenA tokenB : string) (o : ArbitrageOpportunity) : Prop :=
  tokenIn o = tokenA
  /\ tokenOut o = tokenB
  /\ buyDex o <> sellDex o
  /\ buyPrice o < sellPrice o
  /\ 0 < buyPrice o
  /\ 50 <= Z.quot ((sellPrice o - buyPrice o) * 10000) (buyPrice o)
  /\ availableLiquidity o = 10 * 10 ^ 18
  /\ estimatedProfit o = Some (sellPrice o - buyPrice o).

(** The percentage difference of two prices, as an exact rational. *)
Definition percentageDifference (buy sell : Z) : Q :=
  (inject_Z (sell - buy) / inject_Z buy * 100)%Q.

(** A string without the separator of pair keys. *)
Definition dashFree (s : string) : bool :=
  Js.forallb_string (fun c => negb (Ascii.eqb c "-")) s.

(** A pair key as [addPair] builds it from two dash-free tokens. *)
Definition builtKey (key : string) : Prop :=
  exists tokenA tokenB : string,
    dashFree tokenA = true /\ dashFree tokenB = true
    /\ key = PriceAggregator.getPairKey tokenA tokenB.

(** The quote a venue contributes to a scan of [(tokenA, tokenB)]: the one
    its scanner returns, when the scanner is ready and does not throw. *)
Definition quoteOf (self : PriceAggregator.t) (tokenA tokenB dex : string)
    : option Price :=
  match PriceAggregator.getScanner self dex with
  | Some scanner =>
      if PriceAggregator.isReady scanner then
        match PriceAggregator.getPrice scanner tokenA tokenB with
        | Ok p => Some p
        | Throw _ => None
        end
      else None
  | None => None
  end.

(** A clocked computation that ends in a thrown error. *)
Definition throws {A : Type} (x : result A * nat) : Prop :=
  exists e m, x = (Throw e, m).

(** The two shapes of a verdict. *)
Definition wellFormedVerdict (v : ValidationResult) : Prop :=
  (exists ws, v = OpportunityValidator.accept ws)
  \/ (exists why, v = OpportunityValidator.reject why).

(* ================================================================== *)
(** * Properties *)

(** ** Platform primitives on sample inputs *)

Example parseEther_tenth : BigNumber.parseEther "0.1" = Ok (10 ^ 17).
Proof. reflexivity. Qed.

Example parseEther_ten : BigNumber.parseEther "10" = Ok (10 * 10 ^ 18).
Proof. reflexivity. Qed.

Example parseEther_bad : BigNumber.parseEther "1.2.3" = Throw InvalidArgument.
Proof. reflexivity. Qed.

Example parseGwei_hundred : BigNumber.parseGwei "100" = Ok (100 * 10 ^ 9).
Proof. reflexivity. Qed.

Example split_dash : Js.split "-" "ab-cd-e" = ["ab"; "cd"; "e"].
Proof. reflexivity. Qed.

Example toLowerCase_addr : Js.toLowerCase "0xC02aaA39" = "0xc02aaa39".
Proof. reflexivity. Qed.

Lemma bind_Ok_inv {A B : Type} (r : result A) (k : A -> result B) (b : B) :
  bind r k = Ok b -> exists a, r = Ok a /\ k a = Ok b.
Proof.
  destruct r as [a|e]; simpl; intros H; [now exists a | discriminate].
Qed.

(* ================================================================== *)
(** ** Doubles: rounding to nearest is monotone *)

Lemma roundHalfEven_range (x : Q) :
  Qfloor x <= Js.roundHalfEven x <= Qfloor x + 1.
Proof.
  unfold Js.roundHalfEven. cbv zeta.
  destruct (Qcompare _ _); [destruct (Z.even _) |..]; lia.
Qed.

Lemma roundHalfEven_mono (x y : Q) :
  (x <= y)%Q -> Js.roundHalfEven x <= Js.roundHalfEven y.
Proof.
  intros Hxy.
  pose proof (Qfloor_resp_le x y Hxy) as Hfloor.
  pose proof (roundHalfEven_range x) as Hx.
  pose proof (roundHalfEven_range y) as Hy.
  destruct (Z.eq_dec (Qfloor x) (Qfloor y)) as [Heq | Hne]; [| lia].
  unfold Js.roundHalfEven in *. cbv zeta in *. rewrite <- Heq in *.
  assert (Hr : (x - inject_Z (Qfloor x) <= y - inject_Z (Qfloor x))%Q).
  { apply Qplus_le_l with (z := inject_Z (Qfloor x)). ring_simplify. exact Hxy. }
  destruct (Qcompare_spec (x - inject_Z (Qfloor x)) (1 # 2)) as [Hcx | Hcx | Hcx];
    destruct (Qcompare_spec (y - inject_Z (Qfloor x)) (1 # 2)) as [Hcy | Hcy | Hcy];
    try (destruct (Z.even (Qfloor x))); try lia; exfalso; lra.
Qed.

Lemma roundHalfEven_Z (k : Z) : Js.roundHalfEven (inject_Z k) = k.
Proof.
  unfold Js.roundHalfEven. cbv zeta. rewrite Qfloor_Z.
  assert (H : (inject_Z k - inject_Z k == 0)%Q) by ring.
  destruct (Qcompare_spec (inject_Z k - inject_Z k) (1 # 2)) as [Hc | Hc | Hc];
    [| reflexivity |]; rewrite H in Hc; discriminate Hc.
Qed.

Lemma pow2_pos (e : Z) : (0 < 2 ^ e)%Q.
Proof. apply Qpower_0_lt. reflexivity. Qed.

Lemma pow2_plus (a b : Z) : (2 ^ (a + b) == 2 ^ a * 2 ^ b)%Q.
Proof. apply Qpower_plus. discriminate. Qed.

Lemma pow2_le (a b : Z) : a <= b -> (2 ^ a <= 2 ^ b)%Q.
Proof. intros H. apply Qpower_le_compat_l; [exact H | discriminate]. Qed.

Lemma pow2_Z (n : Z) : 0 <= n -> (inject_Z (2 ^ n) == 2 ^ n)%Q.
Proof. intros H. apply (Zpower_Qpower 2 n H). Qed.

Lemma exponent_min (q : Q) : -1074 <= Js.exponent q.
Proof. unfold Js.exponent. lia. Qed.

(** A positive number lies below the top of the binade [exponent] selects,
    and, unless the exponent is the least one, at or above its bottom. *)
Lemma exponent_bounds (q : Q) :
  (0 < q)%Q ->
  (q < 2 ^ (Js.exponent q + 53))%Q
  /\ (-1074 < Js.exponent q -> (2 ^ (Js.exponent q + 52) <= q)%Q).
Proof.
  intros Hq. unfold Js.exponent.
  set (s := (q * 2 ^ 1200)%Q).
  assert (Hqs : (q == s * 2 ^ (-1200))%Q).
  { unfold s. rewrite <- Qmult_assoc, <- pow2_plus. change (1200 + -1200) with 0.
    change (2 ^ 0)%Q with 1%Q. ring. }
  pose proof (Qfloor_le s) as Hlo. pose proof (Qlt_floor s) as Hhi.
  pose proof (pow2_pos (-1200)) as Hp.
  destruct (Z_lt_le_dec 0 (Qfloor s)) as [Hpos | Hnonpos].
  - destruct (Z.log2_spec _ Hpos) as [Hl Hu].
    pose proof (Z.log2_nonneg (Qfloor s)) as Hl0.
    set (l := Z.log2 (Qfloor s)) in *.
    assert (Hs_lo : (2 ^ l <= s)%Q).
    { rewrite <- pow2_Z by exact Hl0. eapply Qle_trans; [| exact Hlo].
      rewrite <- Zle_Qle. exact Hl. }
    assert (Hs_hi : (s < 2 ^ (l + 1))%Q).
    { rewrite <- pow2_Z by lia. eapply Qlt_le_trans; [exact Hhi |].
      rewrite <- Zle_Qle. change (Z.succ l) with (l + 1) in Hu. lia. }
    assert (Hq_lo : (2 ^ (l - 1200) <= q)%Q).
    { rewrite Hqs. replace (l - 1200) with (l + -1200) by lia. rewrite pow2_plus.
      apply Qmult_le_compat_r; [exact Hs_lo | apply Qlt_le_weak; exact Hp]. }
    assert (Hq_hi : (q < 2 ^ (l - 1199))%Q).
    { rewrite Hqs. replace (l - 1199) with (l + 1 + -1200) by lia. rewrite pow2_plus.
      apply Qmult_lt_compat_r; [exact Hp | exact Hs_hi]. }
    split.
    + eapply Qlt_le_trans; [exact Hq_hi |]. apply pow2_le. lia.
    + intros Hnormal. eapply Qle_trans; [| exact Hq_lo]. apply pow2_le. lia.
  - assert (Hlog : Z.log2 (Qfloor s) = 0) by (apply Z.log2_nonpos; exact Hnonpos).
    rewrite Hlog. change (Z.max (-1074) (0 - 1252)) with (-1074).
    split; [| intros H; lia].
    assert (Hs1 : (s < 1)%Q).
    { eapply Qlt_le_trans; [exact Hhi |]. change 1%Q with (inject_Z 1).
      rewrite <- Zle_Qle. lia. }
    rewrite Hqs. apply Qlt_le_trans with (y := (1 * 2 ^ (-1200))%Q).
    + apply Qmult_lt_compat_r; [exact Hp | exact Hs1].
    + rewrite Qmult_1_l. apply pow2_le. lia.
Qed.

Lemma scaled_le (q1 q2 : Q) (e : Z) :
  (q1 <= q2)%Q -> (q1 / 2 ^ e <= q2 / 2 ^ e)%Q.
Proof.
  intros H. apply Qle_shift_div_l; [apply pow2_pos |].
  unfold Qdiv. rewrite <- Qmult_assoc, (Qmult_comm (/ 2 ^ e)), Qmult_inv_r, Qmult_1_r.
  - exact H.
  - intros Hz. pose proof (pow2_pos e) as Hp. rewrite Hz in Hp. discriminate Hp.
Qed.

Lemma roundPositive_mono (q1 q2 : Q) :
  (0 < q1)%Q -> (q1 <= q2)%Q -> (Js.roundPositive q1 <= Js.roundPositive q2)%Q.
Proof.
  intros Hpos Hle.
  assert (Hpos2 : (0 < q2)%Q) by (eapply Qlt_le_trans; eassumption).
  destruct (exponent_bounds q1 Hpos) as [Hhi1 Hlo1].
  destruct (exponent_bounds q2 Hpos2) as [Hhi2 Hlo2].
  pose proof (exponent_min q1) as Hmin1.
  pose proof (exponent_min q2) as Hmin2.
  unfold Js.roundPositive. cbv zeta.
  set (e1 := Js.exponent q1) in *. set (e2 := Js.exponent q2) in *.
  destruct (Z.lt_trichotomy e1 e2) as [Hlt | [Heq | Hgt]].
  - (* the smaller number is rounded within a lower binade *)
    apply Qle_trans with (y := (2 ^ (e2 + 52))%Q).
    + apply Qle_trans with (y := (inject_Z (2 ^ 53) * 2 ^ e1)%Q).
      * apply Qmult_le_compat_r; [| apply Qlt_le_weak, pow2_pos].
        rewrite <- Zle_Qle. rewrite <- (roundHalfEven_Z (2 ^ 53)).
        apply roundHalfEven_mono. apply Qle_shift_div_r; [apply pow2_pos |].
        rewrite pow2_Z by lia. rewrite <- pow2_plus. rewrite Z.add_comm.
        apply Qlt_le_weak. exact Hhi1.
      * rewrite pow2_Z by lia. rewrite <- pow2_plus. apply pow2_le. lia.
    + apply Qle_trans with (y := (inject_Z (2 ^ 52) * 2 ^ e2)%Q).
      * rewrite pow2_Z by lia. rewrite <- pow2_plus. apply pow2_le. lia.
      * apply Qmult_le_compat_r; [| apply Qlt_le_weak, pow2_pos].
        rewrite <- Zle_Qle. rewrite <- (roundHalfEven_Z (2 ^ 52)).
        apply roundHalfEven_mono. apply Qle_shift_div_l; [apply pow2_pos |].
        rewrite pow2_Z by lia. rewrite <- pow2_plus. rewrite Z.add_comm.
        apply Hlo2. lia.
  - rewrite <- Heq.
    apply Qmult_le_compat_r; [| apply Qlt_le_weak, pow2_pos].
    rewrite <- Zle_Qle. apply roundHalfEven_mono. apply scaled_le. exact Hle.
  - exfalso. apply (Qlt_not_le _ _ Hhi2).
    eapply Qle_trans; [| exact Hle].
    eapply Qle_trans; [| apply Hlo1; lia]. apply pow2_le. lia.
Qed.

Lemma roundPositive_nonneg (q : Q) : (0 < q)%Q -> (0 <= Js.roundPositive q)%Q.
Proof.
  intros Hq. unfold Js.roundPositive. cbv zeta.
  apply Qmult_le_0_compat; [| apply Qlt_le_weak, pow2_pos].
  change 0%Q with (inject_Z 0). rewrite <- Zle_Qle.
  rewrite <- (roundHalfEven_Z 0). apply roundHalfEven_mono.
  apply Qle_shift_div_l; [apply pow2_pos |]. rewrite Qmult_0_l.
  apply Qlt_le_weak. exact Hq.
Qed.

(** Rounding to the nearest double is monotone. *)
Lemma double_mono (x y : Q) : (x <= y)%Q -> (Js.double x <= Js.double y)%Q.
Proof.
  intros Hxy. unfold Js.double.
  destruct (Qcompare_spec x 0) as [Hx | Hx | Hx];
    destruct (Qcompare_spec y 0) as [Hy | Hy | Hy].
  - apply Qle_refl.
  - exfalso. rewrite Hx in Hxy. exact (Qlt_not_le _ _ Hy Hxy).
  - apply roundPositive_nonneg. exact Hy.
  - assert (H : (0 <= Js.roundPositive (- x))%Q).
    { apply roundPositive_nonneg. apply (Qopp_lt_compat x 0). exact Hx. }
    apply (Qopp_le_compat 0) in H. exact H.
  - apply Qopp_le_compat. apply roundPositive_mono.
    + apply (Qopp_lt_compat y 0). exact Hy.
    + apply Qopp_le_compat. exact Hxy.
  - apply Qle_trans with (y := 0%Q).
    + assert (H : (0 <= Js.roundPositive (- x))%Q).
      { apply roundPositive_nonneg. apply (Qopp_lt_compat x 0). exact Hx. }
      apply (Qopp_le_compat 0) in H. exact H.
    + apply roundPositive_nonneg. exact Hy.
  - exfalso. rewrite Hy in Hxy. exact (Qlt_not_le _ _ Hx Hxy).
  - exfalso. apply (Qlt_not_le _ _ Hx). eapply Qle_trans; [exact Hxy |].
    apply Qlt_le_weak. exact Hy.
  - apply roundPositive_mono; assumption.
Qed.

Lemma double_nonneg (x : Q) : (0 <= x)%Q -> (0 <= Js.double x)%Q.
Proof. intros H. apply (double_mono 0 x H). Qed.

(** Both roundings at work: 5 ether less one wei parses to the double 5,
    and is worth 10000 at 2000 dollars; 0.1 is not the rational 1/10. *)
Example five_ether_less_one_wei_is_worth_10000 :
  (Js.parseFloat (BigNumber.formatEther (5 * 10 ^ 18 - 1)) == 5)%Q
  /\ (Js.mul (Js.parseFloat (BigNumber.formatEther (5 * 10 ^ 18 - 1))) 2000 == 10000)%Q
  /\ (Js.double (1 # 10) == 3602879701896397 # 36028797018963968)%Q.
Proof.
  split; [| split]; vm_compute; reflexivity.
Qed.

Lemma mul_mono_r (x y y' : Q) :
  (0 <= x)%Q -> (y <= y')%Q -> (Js.mul x y <= Js.mul x y')%Q.
Proof.
  intros Hx Hy. unfold Js.mul. apply double_mono.
  rewrite (Qmult_comm (Js.double x) (Js.double y)).
  rewrite (Qmult_comm (Js.double x) (Js.double y')).
  apply Qmult_le_compat_r; [apply double_mono; exact Hy | apply double_nonneg; exact Hx].
Qed.



(* ================================================================== *)
(** ** ProfitCalculator *)

Lemma div_Ok (a b : Z) : b <> 0 -> BigNumber.div a b = Ok (Z.quot a b).
Proof.
  intros Hb. unfold BigNumber.div.
  destruct (Z.eqb_spec b 0); [contradiction | reflexivity].
Qed.


(** C1 (as amended).  With recommended amount 1.0, buy price 100 and sell
    price 105 at the 18-decimal scale, and the flash-loan fee, the venue
    fees and the gas cost all zero, the analysis has gross and net profit 5
    (5 * 10^18) and profit percentage 500: the percentage is
    netProfit * 10000 / amount, truncated, over 100, that is
    netProfit / amount * 100 on the fixed-point values. *)
Theorem C1_profit_percentage (self : ProfitCalculator.t) (opp : ArbitrageOpportunity) :
  buyPrice opp = 100 * 10 ^ 18 ->
  sellPrice opp = 105 * 10 ^ 18 ->
  ProfitCalculator.calculateOptimalAmount self (buyPrice opp) (sellPrice opp)
    (availableLiquidity opp) = Ok (10 ^ 18) ->
  ProfitCalculator.calculateFlashLoanFee self (10 ^ 18) = Ok 0 ->
  ProfitCalculator.calculateDexFees self (10 ^ 18) (buyDex opp) (sellDex opp) = Ok 0 ->
  ProfitCalculator.estimateGasCost self = Ok 0 ->
  exists a : ProfitAnalysis,
    ProfitCalculator.calculateProfit self opp = Ok a
    /\ recommendedAmount a = 10 ^ 18
    /\ grossProfit a = 5 * 10 ^ 18
    /\ netProfit a = 5 * 10 ^ 18
    /\ (profitPercentage a == 500)%Q
    /\ (profitPercentage a
        == inject_Z (netProfit a) / inject_Z (recommendedAmount a) * 100)%Q.
Proof.
  intros Hbuy Hsell Hamount Hloan Hdex Hgas.
  unfold ProfitCalculator.calculateProfit.
  rewrite Hamount; cbn [bind].
  rewrite Hbuy, Hsell.
  replace (ProfitCalculator.calculateGrossProfit (10 ^ 18) (100 * 10 ^ 18) (105 * 10 ^ 18))
    with (@Ok Z (5 * 10 ^ 18)) by reflexivity.
  cbn [bind]. rewrite Hloan; cbn [bind]. rewrite Hdex; cbn [bind].
  rewrite Hgas; cbn [bind].
  replace (5 * 10 ^ 18 - 0 - 0 - 0) with (5 * 10 ^ 18) by reflexivity.
  replace (ProfitCalculator.calculateProfitPercentage (5 * 10 ^ 18) (10 ^ 18))
    with (@Ok Q (inject_Z 50000 / 100)%Q) by reflexivity.
  cbn [bind].
  replace (ProfitCalculator.calculatePriceImpactPercent (10 ^ 18) (100 * 10 ^ 18))
    with (@Ok Q (inject_Z 100 / 100)%Q) by reflexivity.
  replace (ProfitCalculator.calculatePriceImpactPercent (10 ^ 18) (105 * 10 ^ 18))
    with (@Ok Q (inject_Z 100 / 100)%Q) by reflexivity.
  cbn [bind].
  eexists; split; [reflexivity |].
  cbn [recommendedAmount grossProfit netProfit profitPercentage].
  repeat split; reflexivity.
Qed.

(** The hypotheses of C1 hold under [Sample.noDeductionConfig]. *)
Lemma C1_profit_percentage_witness :
  exists a : ProfitAnalysis,
    ProfitCalculator.calculateProfit
      (ProfitCalculator.new Sample.noDeductionConfig)
      (Sample.opp_100_105 "Uniswap V2" "Rebate" 0) = Ok a
    /\ recommendedAmount a = 10 ^ 18
    /\ grossProfit a = 5 * 10 ^ 18
    /\ netProfit a = 5 * 10 ^ 18
    /\ (profitPercentage a == 500)%Q
    /\ (profitPercentage a
        == inject_Z (netProfit a) / inject_Z (recommendedAmount a) * 100)%Q.
Proof.
  apply (C1_profit_percentage
           (ProfitCalculator.new Sample.noDeductionConfig)
           (Sample.opp_100_105 "Uniswap V2" "Rebate" 0));
    vm_compute; reflexivity.
Defined.

(** C1 as stated fails: on the same inputs the profit percentage is 500,
    not 5. *)
Lemma C1_percentage_is_not_5 :
  exists a : ProfitAnalysis,
    ProfitCalculator.calculateProfit
      (ProfitCalculator.new Sample.noDeductionConfig)
      (Sample.opp_100_105 "Uniswap V2" "Rebate" 0) = Ok a
    /\ recommendedAmount a = 10 ^ 18
    /\ flashLoanFee a = 0 /\ dexFees a = 0 /\ gasCost a = 0
    /\ netProfit a = 5 * 10 ^ 18
    /\ Qeq_bool (profitPercentage a) 500 = true
    /\ Qeq_bool (profitPercentage a) 5 = false.
Proof.
  eexists; split; [vm_compute; reflexivity |].
  repeat split; vm_compute; reflexivity.
Qed.

Ltac inv_bind H :=
  let x := fresh "x" in
  let Hx := fresh "Hx" in
  apply bind_Ok_inv in H; destruct H as [x [Hx H]].

Lemma Ok_inj {A : Type} (a b : A) : Ok a = Ok b -> a = b.
Proof. intros H; now injection H. Qed.

(** The flash-loan fee for a configured, non-zero Aave fee: the fee in
    basis points is the configured percentage times 100, the product
    rounded to a double and then to an integer. *)
Lemma calculateFlashLoanFee_configured (self : ProfitCalculator.t)
    (p : FlashLoanProvider) (amount : Z) :
  aave (flashLoanProviders (ProfitCalculator.config self)) = Some p ->
  Qeq_bool (providerFeePercentage p) 0 = false ->
  Z.abs (Js.round (Js.mul (providerFeePercentage p) 100)) < 2 ^ 53 - 1 ->
  ProfitCalculator.calculateFlashLoanFee self amount
  = Ok (Z.quot (amount * Js.round (Js.mul (providerFeePercentage p) 100)) 10000).
Proof.
  intros Haave Hnz Hsafe. unfold ProfitCalculator.calculateFlashLoanFee.
  rewrite Haave; cbn [option_map Js.orNumber]. rewrite Hnz.
  set (bps := Js.round (Js.mul (providerFeePercentage p) 100)) in *.
  unfold BigNumber.fromNumber.
  assert (Hfloor : Qfloor (inject_Z bps) = bps) by apply Qfloor_Z.
  rewrite Hfloor.
  assert (Heq : Qeq_bool (inject_Z bps) (inject_Z bps) = true)
    by (apply Qeq_bool_iff; reflexivity).
  rewrite Heq.
  destruct (Z.ltb_spec (Z.abs bps) (2 ^ 53 - 1)); [| lia].
  cbn [bind]. apply div_Ok. discriminate.
Qed.

(** A configured fee of 0.145 percent is charged 14 basis points: the
    double product 0.145 * 100 is 14.499999999999998, below the half. *)
Example flash_loan_fee_rounds_the_double_product (amount : Z) :
  ProfitCalculator.calculateFlashLoanFee
    (ProfitCalculator.new
       {| flashLoanProviders :=
            {| aave := Some {| providerContract := "";
                               providerFeePercentage := 145 # 1000 |};
               balancer := None |};
          dexes := [];
          execution := Sample.defaultExecution |}) amount
  = Ok (Z.quot (amount * 14) 10000).
Proof.
  unfold ProfitCalculator.calculateFlashLoanFee.
  replace (Js.round _) with 14 by (vm_compute; reflexivity).
  change (BigNumber.fromNumber (inject_Z 14)) with (@Ok Z 14).
  cbn [bind]. apply div_Ok. discriminate.
Qed.

(** C3.  With the Aave provider configured with fee zero, the configured
    fee is replaced by the 0.09% default: the flash-loan fee computed is
    amount * 9 / 10000, and 9 * 10^14 on an amount of 1.0, where the
    specification has zero. *)
Theorem C3_zero_fee_falls_back_to_default (amount : Z) :
  ProfitCalculator.calculateFlashLoanFee
    (ProfitCalculator.new Sample.zeroAaveFeeConfig) amount
  = Ok (Z.quot (amount * 9) 10000)
  /\ ProfitCalculator.calculateFlashLoanFee
       (ProfitCalculator.new Sample.zeroAaveFeeConfig) (10 ^ 18)
     = Ok (9 * 10 ^ 14).
Proof.
  split; [| reflexivity].
  unfold ProfitCalculator.calculateFlashLoanFee.
  replace (Js.round _) with 9 by (vm_compute; reflexivity).
  change (BigNumber.fromNumber (inject_Z 9)) with (@Ok Z 9).
  cbn [bind]. apply div_Ok. discriminate.
Qed.

Lemma calculateOptimalAmount_eq (self : ProfitCalculator.t)
    (buyPrice sellPrice availableLiquidity m : Z) :
  BigNumber.parseEther (maxTradeSize (execution (ProfitCalculator.config self))) = Ok m ->
  ProfitCalculator.calculateOptimalAmount self buyPrice sellPrice availableLiquidity
  = Ok (let r := Z.min m (Z.quot availableLiquidity 10) in
        if r <? 10 ^ 17 then 10 ^ 17 else r).
Proof.
  intros Hm. unfold ProfitCalculator.calculateOptimalAmount.
  rewrite Hm; cbn [bind].
  rewrite div_Ok by discriminate. cbn [bind].
  change (BigNumber.parseEther "0.1") with (@Ok Z (10 ^ 17)). cbn [bind].
  f_equal. cbv zeta.
  destruct (Z.ltb_spec (Z.quot availableLiquidity 10) m).
  - rewrite Z.min_r by lia. reflexivity.
  - rewrite Z.min_l by lia. reflexivity.
Qed.

Lemma calculateOptimalAmount_positive (self : ProfitCalculator.t)
    (buyPrice sellPrice availableLiquidity r : Z) :
  ProfitCalculator.calculateOptimalAmount self buyPrice sellPrice availableLiquidity = Ok r ->
  10 ^ 17 <= r.
Proof.
  intros H.
  destruct (BigNumber.parseEther (maxTradeSize (execution (ProfitCalculator.config self))))
    as [m | e] eqn:Hm.
  - rewrite (calculateOptimalAmount_eq _ _ _ _ m Hm) in H.
    apply Ok_inj in H. subst r. cbv zeta.
    destruct (Z.ltb_spec (Z.min m (Z.quot availableLiquidity 10)) (10 ^ 17)); lia.
  - unfold ProfitCalculator.calculateOptimalAmount in H. rewrite Hm in H. discriminate.
Qed.

Lemma calculatePriceImpactPercent_eq (amount price : Z) :
  amount <> 0 ->
  ProfitCalculator.calculatePriceImpactPercent amount price = Ok (100 # 100)%Q.
Proof.
  intros Hpos. unfold ProfitCalculator.calculatePriceImpactPercent.
  rewrite div_Ok by lia. cbn [bind].
  replace (amount * 10000) with (100 * (amount * 100)) by lia.
  rewrite Z.quot_mul by lia.
  reflexivity.
Qed.

(** C7.  For every strictly positive amount and every price the price
    impact estimate is 1, and both price-impact fields of every analysis
    [calculateProfit] returns are 1. *)
Theorem C7_price_impact_is_one (self : ProfitCalculator.t)
    (opp : ArbitrageOpportunity) (a : ProfitAnalysis) (amount price : Z) :
  (0 < amount ->
   exists q : Q,
     ProfitCalculator.calculatePriceImpactPercent amount price = Ok q /\ (q == 1)%Q)
  /\ (ProfitCalculator.calculateProfit self opp = Ok a ->
      (buy (priceImpact a) == 1)%Q /\ (sell (priceImpact a) == 1)%Q).
Proof.
  split.
  - intros Hpos. exists (100 # 100)%Q. split; [| reflexivity].
    apply calculatePriceImpactPercent_eq. lia.
  - intros H. unfold ProfitCalculator.calculateProfit in H.
    inv_bind H. apply calculateOptimalAmount_positive in Hx.
    do 7 (let x := fresh "y" in let Hx := fresh "Hy" in
          apply bind_Ok_inv in H; destruct H as [x [Hx H]]).
    apply Ok_inj in H. subst a. cbn [priceImpact buy sell].
    rewrite calculatePriceImpactPercent_eq in Hy4, Hy5 by lia.
    apply Ok_inj in Hy4, Hy5. subst. split; reflexivity.
Qed.

(** C7 on the default configuration. *)
Lemma C7_price_impact_is_one_witness :
  (exists q : Q,
     ProfitCalculator.calculatePriceImpactPercent (10 ^ 18) (100 * 10 ^ 18) = Ok q
     /\ (q == 1)%Q)
  /\ exists a : ProfitAnalysis,
       ProfitCalculator.calculateProfit
         (ProfitCalculator.new Sample.defaultConfig)
         (Sample.opp_100_105 "Uniswap V2" "SushiSwap" 0) = Ok a
       /\ (buy (priceImpact a) == 1)%Q /\ (sell (priceImpact a) == 1)%Q.
Proof.
  split.
  - apply (C7_price_impact_is_one
             (ProfitCalculator.new Sample.defaultConfig)
             (Sample.opp_100_105 "Uniswap V2" "SushiSwap" 0)
             {| opportunity := Sample.opp_100_105 "Uniswap V2" "SushiSwap" 0;
                grossProfit := 0; flashLoanFee := 0; gasCost := 0; dexFees := 0;
                netProfit := 0; profitPercentage := 0; recommendedAmount := 0;
                isExecutable := false;
                priceImpact := {| buy := 0; sell := 0 |} |}
             (10 ^ 18) (100 * 10 ^ 18)).
    reflexivity.
  - destruct (ProfitCalculator.calculateProfit
                (ProfitCalculator.new Sample.defaultConfig)
                (Sample.opp_100_105 "Uniswap V2" "SushiSwap" 0)) as [a | e] eqn:Ha.
    + exists a. split; [reflexivity |].
      apply (C7_price_impact_is_one
               (ProfitCalculator.new Sample.defaultConfig)
               (Sample.opp_100_105 "Uniswap V2" "SushiSwap" 0) a 1 1).
      exact Ha.
    + vm_compute in Ha. discriminate Ha.
Defined.

(** C8.  The recommended amount is min(maxTradeSize, availableLiquidity / 10)
    with the division truncated, or 0.1 (10^17) when that minimum is below
    0.1. *)
Theorem C8_recommended_amount (self : ProfitCalculator.t)
    (buyPrice sellPrice availableLiquidity maxTrade : Z) :
  BigNumber.parseEther (maxTradeSize (execution (ProfitCalculator.config self)))
  = Ok maxTrade ->
  ProfitCalculator.calculateOptimalAmount self buyPrice sellPrice availableLiquidity
  = Ok (let r := Z.min maxTrade (Z.quot availableLiquidity 10) in
        if r <? 10 ^ 17 then 10 ^ 17 else r).
Proof.
  apply calculateOptimalAmount_eq.
Qed.

(** C8 on the default configuration: liquidity 10 gives 1.0, liquidity 0.5
    gives the floor 0.1, liquidity 1000 gives the maximum trade size 10. *)
Lemma C8_recommended_amount_witness :
  ProfitCalculator.calculateOptimalAmount
    (ProfitCalculator.new Sample.defaultConfig) 0 0 (10 * 10 ^ 18) = Ok (10 ^ 18)
  /\ ProfitCalculator.calculateOptimalAmount
       (ProfitCalculator.new Sample.defaultConfig) 0 0 (5 * 10 ^ 17) = Ok (10 ^ 17)
  /\ ProfitCalculator.calculateOptimalAmount
       (ProfitCalculator.new Sample.defaultConfig) 0 0 (1000 * 10 ^ 18) = Ok (10 * 10 ^ 18).
Proof.
  split; [| split];
    (rewrite (C8_recommended_amount (ProfitCalculator.new Sample.defaultConfig)
                _ _ _ (10 * 10 ^ 18)); reflexivity).
Defined.

(* ================================================================== *)
(** ** Numbers *)

Lemma ltb_hundredths (n : Z) (a : Z) (b : positive) :
  Js.ltb (inject_Z n / 100) (a # b) = (n * Z.pos b <? a * 100).
Proof.
  unfold Js.ltb, Qle_bool. cbn.
  destruct (Z.leb_spec (a * 100) (n * 1 * Z.pos b));
    destruct (Z.ltb_spec (n * Z.pos b) (a * 100)); try reflexivity; lia.
Qed.

Lemma quot_threshold (d b : Z) :
  0 < d -> b <> 0 -> 50 <= Z.quot (d * 10000) b -> 0 < b /\ 50 * b <= d * 10000.
Proof.
  intros Hd Hb Hq.
  destruct (Z.lt_trichotomy b 0) as [Hneg | [Hz | Hpos]]; [| contradiction |].
  - exfalso.
    assert (H : Z.quot (d * 10000) b <= 0).
    { replace b with (- - b) by lia. rewrite Z.quot_opp_r by lia.
      assert (0 <= Z.quot (d * 10000) (- b)) by (apply Z.quot_pos; lia). lia. }
    lia.
  - split; [assumption |].
    rewrite Z.quot_div_nonneg in Hq by lia.
    pose proof (Z.mul_div_le (d * 10000) b Hpos). nia.
Qed.

Lemma percentageDifference_threshold (buy sell : Z) :
  0 < buy -> 50 * buy <= (sell - buy) * 10000 ->
  (5 # 10 <= percentageDifference buy sell)%Q.
Proof.
  intros Hb H. unfold percentageDifference.
  unfold Qle, Qdiv, Qmult, Qinv, inject_Z. cbn.
  destruct buy as [| pb | pb]; try lia. cbn. nia.
Qed.

(* ================================================================== *)
(** ** PriceAggregator: synthesis *)

Lemma clocked_Some_inj {A : Type} (a b : A) (n m : nat) :
  (Ok (Some a), n) = (Ok (Some b), m) -> a = b.
Proof. intros H. now inversion H. Qed.

Section Synthesis.

Variable clock : nat -> Z.

(** No candidate when the sell price is not above the buy price. *)
Lemma createOpportunityIfProfitable_not_above
    (tokenA tokenB bd sd : string) (bp sp : Price) (n : nat) :
  price sp <= price bp ->
  PriceAggregator.createOpportunityIfProfitable clock tokenA tokenB bd sd bp sp n
  = (Ok None, n).
Proof.
  intros Hle. unfold PriceAggregator.createOpportunityIfProfitable.
  destruct (Z.leb_spec (price sp) (price bp)); [reflexivity | lia].
Qed.

(** What a created candidate looks like. *)
Lemma createOpportunityIfProfitable_Some
    (tokenA tokenB bd sd : string) (bp sp : Price) (n n' : nat)
    (o : ArbitrageOpportunity) :
  PriceAggregator.createOpportunityIfProfitable clock tokenA tokenB bd sd bp sp n
  = (Ok (Some o), n') ->
  tokenIn o = tokenA /\ tokenOut o = tokenB
  /\ buyDex o = bd /\ sellDex o = sd
  /\ buyPrice o = price bp /\ sellPrice o = price sp
  /\ price bp < price sp
  /\ 0 < price bp
  /\ 50 <= Z.quot ((price sp - price bp) * 10000) (price bp)
  /\ availableLiquidity o = 10 * 10 ^ 18
  /\ estimatedProfit o = Some (price sp - price bp).
Proof.
  unfold PriceAggregator.createOpportunityIfProfitable.
  destruct (Z.leb_spec (price sp) (price bp)) as [Hle | Hlt];
    [unfold ret; intros H; discriminate H |].
  unfold cbind at 1. unfold lift at 1.
  unfold BigNumber.div.
  destruct (Z.eqb_spec (price bp) 0) as [Hz | Hnz]; [intros H; discriminate H |].
  unfold cbind at 1. unfold lift at 1.
  unfold BigNumber.toNumber.
  destruct (Z.abs _ <? 2 ^ 53); [| intros H; discriminate H].
  cbv zeta. rewrite ltb_hundredths.
  destruct (Z.ltb_spec (Z.quot ((price sp - price bp) * 10000) (price bp) * 10) (5 * 100))
    as [Hsmall | Hbig]; [unfold ret; intros H; discriminate H |].
  change (BigNumber.parseEther "10") with (@Ok Z (10 * 10 ^ 18)).
  unfold cbind, lift, ret, PriceAggregator.generateOpportunityId, Date_now.
  intros H. apply clocked_Some_inj in H. subst o. cbn [tokenIn tokenOut buyDex sellDex
    buyPrice sellPrice availableLiquidity estimatedProfit].
  assert (H50 : 50 <= Z.quot ((price sp - price bp) * 10000) (price bp)) by lia.
  destruct (quot_threshold (price sp - price bp) (price bp)) as [Hpos _]; try lia.
  repeat split; try reflexivity; lia.
Qed.

Lemma createOpportunityIfProfitable_synthesized
    (tokenA tokenB bd sd : string) (bp sp : Price) (n n' : nat)
    (o : ArbitrageOpportunity) :
  bd <> sd ->
  PriceAggregator.createOpportunityIfProfitable clock tokenA tokenB bd sd bp sp n
  = (Ok (Some o), n') ->
  synthesized tokenA tokenB o.
Proof.
  intros Hne H. apply createOpportunityIfProfitable_Some in H.
  destruct H as (Hin & Hout & Hbd & Hsd & Hbp & Hsp & Hlt & Hpos & Hq & Hliq & Hest).
  unfold synthesized. rewrite Hin, Hout, Hbd, Hsd, Hbp, Hsp, Hliq, Hest.
  repeat split; assumption.
Qed.

End Synthesis.

(* ================================================================== *)
(** ** Clocked computations, maps and sets *)

Lemma cbind_Ok_inv {A B : Type} (c : Clocked A) (k : A -> Clocked B)
    (n n' : nat) (b : B) :
  cbind c k n = (Ok b, n') ->
  exists a m, c n = (Ok a, m) /\ k a m = (Ok b, n').
Proof.
  unfold cbind. destruct (c n) as [[a | e] m]; intros H.
  - now exists a, m.
  - discriminate H.
Qed.

Lemma catch_Ok_inv {A : Type} (c h : Clocked A) (n n' : nat) (a : A) :
  catch c h n = (Ok a, n') ->
  c n = (Ok a, n') \/ exists e m, c n = (Throw e, m) /\ h m = (Ok a, n').
Proof.
  unfold catch. destruct (c n) as [[a' | e] m]; intros H.
  - left. exact H.
  - right. now exists e, m.
Qed.

Lemma JsMap_keys_set {V : Type} (k : string) (v : V) (m : list (string * V)) (x : string) :
  In x (JsMap.keys (JsMap.set k v m)) <-> x = k \/ In x (JsMap.keys m).
Proof.
  induction m as [| [k' v'] m IH]; cbn.
  - intuition.
  - destruct (String.eqb_spec k' k) as [-> | Hne]; cbn.
    + intuition.
    + rewrite IH. intuition.
Qed.

Lemma JsMap_set_NoDup {V : Type} (k : string) (v : V) (m : list (string * V)) :
  NoDup (JsMap.keys m) -> NoDup (JsMap.keys (JsMap.set k v m)).
Proof.
  induction m as [| [k' v'] m IH]; cbn; intros Hnd.
  - constructor; [intros [] | constructor].
  - inversion Hnd as [| ? ? Hnotin Hnd']; subst.
    destruct (String.eqb_spec k' k) as [-> | Hne]; cbn.
    + constructor; assumption.
    + constructor; [| apply IH; assumption].
      intros Hin. apply JsMap_keys_set in Hin. destruct Hin as [-> | Hin]; auto.
Qed.

Lemma JsMap_get_In_keys {V : Type} (m : list (string * V)) (k : string) :
  In k (JsMap.keys m) -> exists v, JsMap.get m k = Some v.
Proof.
  induction m as [| [k' v'] m IH]; cbn; intros Hin; [contradiction |].
  destruct (String.eqb_spec k' k) as [-> | Hne].
  - now exists v'.
  - destruct Hin as [Heq | Hin]; [contradiction | auto].
Qed.

Lemma JsSet_has_true (s : list string) (k : string) :
  JsSet.has s k = true <-> In k s.
Proof.
  unfold JsSet.has. rewrite existsb_exists. split.
  - intros [x [Hin Heq]]. apply String.eqb_eq in Heq. now subst.
  - intros Hin. exists k. split; [assumption | apply String.eqb_refl].
Qed.

Lemma JsSet_add_In (s : list string) (k : string) : In k (JsSet.add k s).
Proof.
  unfold JsSet.add. destruct (JsSet.has s k) eqn:Hhas.
  - now apply JsSet_has_true.
  - apply in_or_app. right. now left.
Qed.

Lemma JsSet_add_idempotent (s : list string) (k : string) :
  JsSet.add k (JsSet.add k s) = JsSet.add k s.
Proof.
  unfold JsSet.add at 1.
  assert (H : JsSet.has (JsSet.add k s) k = true)
    by (apply JsSet_has_true, JsSet_add_In).
  now rewrite H.
Qed.

Lemma JsSet_add_NoDup (s : list string) (k : string) :
  NoDup s -> NoDup (JsSet.add k s).
Proof.
  intros Hnd. unfold JsSet.add. destruct (JsSet.has s k) eqn:Hhas; [assumption |].
  apply NoDup_app; [assumption | constructor; [intros [] | constructor] |].
  intros x Hin [<- | []].
  apply JsSet_has_true in Hin. congruence.
Qed.

(* ================================================================== *)
(** ** PriceAggregator: the comparison loops *)

Section Loops.

Variable clock : nat -> Z.

Lemma getPriceOf_Ok (prices : list (string * Price)) (dex : string)
    (n m : nat) (p : Price) :
  PriceAggregator.getPriceOf prices dex n = (Ok p, m) ->
  JsMap.get prices dex = Some p /\ m = n.
Proof.
  unfold PriceAggregator.getPriceOf, ret, lift.
  destruct (JsMap.get prices dex); intros H; inversion H; auto.
Qed.

Lemma push_Forall (P : ArbitrageOpportunity -> Prop)
    (opps : list ArbitrageOpportunity) (o : option ArbitrageOpportunity) :
  Forall P opps -> (forall o', o = Some o' -> P o') ->
  Forall P (PriceAggregator.push opps o).
Proof.
  intros Hall Ho. destruct o as [o' |]; cbn; [| assumption].
  apply Forall_app. split; [assumption | constructor; auto].
Qed.

Lemma compareWith_synthesized (prices : list (string * Price))
    (tokenA tokenB dex1 : string) (later : list string) :
  ~ In dex1 later ->
  forall (opps r : list ArbitrageOpportunity) (n n' : nat),
    Forall (synthesized tokenA tokenB) opps ->
    PriceAggregator.compareWith clock prices tokenA tokenB dex1 later opps n
    = (Ok r, n') ->
    Forall (synthesized tokenA tokenB) r.
Proof.
  induction later as [| dex2 later IH]; intros Hnotin opps r n n' Hall H.
  - cbn in H. unfold ret in H. inversion H; subst. assumption.
  - cbn [PriceAggregator.compareWith] in H.
    apply cbind_Ok_inv in H. destruct H as (p1 & m1 & _ & H).
    apply cbind_Ok_inv in H. destruct H as (p2 & m2 & _ & H).
    apply cbind_Ok_inv in H. destruct H as (o1 & m3 & Ho1 & H).
    apply cbind_Ok_inv in H. destruct H as (o2 & m4 & Ho2 & H).
    assert (Hne : dex1 <> dex2) by (intros ->; apply Hnotin; now left).
    apply IH in H; [assumption | intros Hin; apply Hnotin; now right |].
    apply push_Forall; [apply push_Forall; [assumption |] |].
    + intros o' ->.
      eapply createOpportunityIfProfitable_synthesized; [exact Hne | exact Ho1].
    + intros o' ->.
      eapply createOpportunityIfProfitable_synthesized;
        [intros Heq; apply Hne; symmetry; exact Heq | exact Ho2].
Qed.

Lemma compareAll_synthesized (prices : list (string * Price))
    (tokenA tokenB : string) (dexNames : list string) :
  NoDup dexNames ->
  forall (opps r : list ArbitrageOpportunity) (n n' : nat),
    Forall (synthesized tokenA tokenB) opps ->
    PriceAggregator.compareAll clock prices tokenA tokenB dexNames opps n
    = (Ok r, n') ->
    Forall (synthesized tokenA tokenB) r.
Proof.
  induction dexNames as [| dex1 later IH]; intros Hnd opps r n n' Hall H.
  - cbn in H. unfold ret in H. inversion H; subst. assumption.
  - inversion Hnd as [| ? ? Hnotin Hnd']; subst.
    cbn [PriceAggregator.compareAll] in H.
    apply cbind_Ok_inv in H. destruct H as (opps' & m & Hinner & H).
    apply (IH Hnd' opps' r m n'); [| exact H].
    eapply compareWith_synthesized; [exact Hnotin | exact Hall | exact Hinner].
Qed.

Lemma fetchPrices_NoDup (self : PriceAggregator.t) (tokenA tokenB : string) :
  NoDup (JsMap.keys (PriceAggregator.fetchPrices self tokenA tokenB)).
Proof.
  unfold PriceAggregator.fetchPrices.
  assert (Hgen : forall (scs : list (string * PriceAggregator.DexScanner))
                        (acc : list (string * Price)),
             NoDup (JsMap.keys acc) ->
             NoDup (JsMap.keys
                      (fold_left
                         (fun prices entry =>
                            let '(dexName, scanner) := entry in
                            if negb (PriceAggregator.isReady scanner) then prices
                            else match PriceAggregator.getPrice scanner tokenA tokenB with
                                 | Ok p => JsMap.set dexName p prices
                                 | Throw _ => prices
                                 end) scs acc))).
  { induction scs as [| [name sc] scs IH]; intros acc Hacc; cbn [fold_left].
    - assumption.
    - apply IH. destruct (negb (PriceAggregator.isReady sc)); [assumption |].
      destruct (PriceAggregator.getPrice sc tokenA tokenB); [| assumption].
      now apply JsMap_set_NoDup. }
  apply Hgen. constructor.
Qed.

(** Every opportunity a scan of one pair returns is [synthesized] for it. *)
Lemma detectOpportunitiesForPair_synthesized (self : PriceAggregator.t)
    (tokenA tokenB : string) (n n' : nat) (r : list ArbitrageOpportunity) :
  PriceAggregator.detectOpportunitiesForPair clock self tokenA tokenB n = (Ok r, n') ->
  Forall (synthesized tokenA tokenB) r.
Proof.
  unfold PriceAggregator.detectOpportunitiesForPair.
  destruct (List.length _ <? 2)%nat.
  - unfold ret. intros H. inversion H; subst. constructor.
  - intros H. eapply compareAll_synthesized; [| | exact H].
    + apply fetchPrices_NoDup.
    + constructor.
Qed.

(** Every opportunity a full scan returns is [synthesized] for the two
    components of a monitored key. *)
Lemma scanPairs_synthesized (self : PriceAggregator.t) (allKeys : list string)
    (pairKeys : list string) :
  incl pairKeys allKeys ->
  forall (opps r : list ArbitrageOpportunity) (n n' : nat),
    Forall (fun o => exists key, In key allKeys
                     /\ synthesized (fst (PriceAggregator.parsePairKey key))
                                    (snd (PriceAggregator.parsePairKey key)) o) opps ->
    PriceAggregator.scanPairs clock self pairKeys opps n = (Ok r, n') ->
    Forall (fun o => exists key, In key allKeys
                     /\ synthesized (fst (PriceAggregator.parsePairKey key))
                                    (snd (PriceAggregator.parsePairKey key)) o) r.
Proof.
  induction pairKeys as [| pairKey rest IH]; intros Hincl opps r n n' Hall H.
  - cbn in H. unfold ret in H. inversion H; subst. assumption.
  - cbn [PriceAggregator.scanPairs] in H.
    destruct (PriceAggregator.parsePairKey pairKey) as [tokenA tokenB] eqn:Hparse.
    apply cbind_Ok_inv in H. destruct H as (opps' & m & Hscan & H).
    apply (IH (fun k Hk => Hincl k (or_intror Hk)) opps' r m n'); [| exact H].
    apply catch_Ok_inv in Hscan. destruct Hscan as [Hok | (e & m' & _ & Hret)].
    + apply cbind_Ok_inv in Hok. destruct Hok as (found & m' & Hpair & Hret).
      unfold ret in Hret. inversion Hret; subst.
      apply Forall_app. split; [assumption |].
      apply detectOpportunitiesForPair_synthesized in Hpair.
      eapply Forall_impl; [| exact Hpair].
      intros o Ho. exists pairKey. split; [apply Hincl; now left |].
      rewrite Hparse. exact Ho.
    + unfold ret in Hret. inversion Hret; subst. assumption.
Qed.

Lemma detectOpportunities_synthesized (self : PriceAggregator.t)
    (n n' : nat) (r : list ArbitrageOpportunity) :
  PriceAggregator.detectOpportunities clock self n = (Ok r, n') ->
  Forall (fun o => exists key, In key (PriceAggregator.monitoredPairs self)
                   /\ synthesized (fst (PriceAggregator.parsePairKey key))
                                  (snd (PriceAggregator.parsePairKey key)) o) r.
Proof.
  unfold PriceAggregator.detectOpportunities. intros H.
  apply catch_Ok_inv in H. destruct H as [H | (e & m & _ & H)].
  - eapply scanPairs_synthesized; [apply incl_refl | constructor | exact H].
  - unfold ret in H. inversion H; subst. constructor.
Qed.

End Loops.

Section NoCandidate.

Variable clock : nat -> Z.

Lemma compareWith_no_candidate (prices : list (string * Price))
    (tokenA tokenB dex1 : string) (later : list string) :
  (forall d, In d (dex1 :: later) -> exists p, JsMap.get prices d = Some p) ->
  (forall d d' p p', JsMap.get prices d = Some p -> JsMap.get prices d' = Some p' ->
                     price p' <= price p) ->
  forall (opps : list ArbitrageOpportunity) (n : nat),
    PriceAggregator.compareWith clock prices tokenA tokenB dex1 later opps n
    = (Ok opps, n).
Proof.
  intros Hget Hle. induction later as [| dex2 later IH]; intros opps n.
  - reflexivity.
  - destruct (Hget dex1 (or_introl eq_refl)) as [p1 Hp1].
    destruct (Hget dex2 (or_intror (or_introl eq_refl))) as [p2 Hp2].
    cbn [PriceAggregator.compareWith].
    unfold cbind at 1. unfold PriceAggregator.getPriceOf at 1. rewrite Hp1. unfold ret at 1.
    unfold cbind at 1. unfold PriceAggregator.getPriceOf at 1. rewrite Hp2. unfold ret at 1.
    unfold cbind at 1.
    rewrite createOpportunityIfProfitable_not_above by (eapply Hle; eassumption).
    unfold cbind at 1.
    rewrite createOpportunityIfProfitable_not_above by (eapply Hle; eassumption).
    cbn [PriceAggregator.push].
    apply IH. intros d [<- | Hin]; apply Hget; [now left | right; now right].
Qed.

Lemma compareAll_no_candidate (prices : list (string * Price))
    (tokenA tokenB : string) (dexNames : list string) :
  (forall d, In d dexNames -> exists p, JsMap.get prices d = Some p) ->
  (forall d d' p p', JsMap.get prices d = Some p -> JsMap.get prices d' = Some p' ->
                     price p' <= price p) ->
  forall (opps : list ArbitrageOpportunity) (n : nat),
    PriceAggregator.compareAll clock prices tokenA tokenB dexNames opps n
    = (Ok opps, n).
Proof.
  intros Hget Hle. induction dexNames as [| dex1 later IH]; intros opps n.
  - reflexivity.
  - cbn [PriceAggregator.compareAll]. unfold cbind.
    rewrite compareWith_no_candidate by assumption.
    apply IH. intros d Hin. apply Hget. now right.
Qed.

Lemma detectOpportunitiesForPair_no_candidate (self : PriceAggregator.t)
    (tokenA tokenB : string) (n : nat) :
  (forall d d' p p',
      JsMap.get (PriceAggregator.fetchPrices self tokenA tokenB) d = Some p ->
      JsMap.get (PriceAggregator.fetchPrices self tokenA tokenB) d' = Some p' ->
      price p' <= price p) ->
  PriceAggregator.detectOpportunitiesForPair clock self tokenA tokenB n = (Ok [], n).
Proof.
  intros Hle. unfold PriceAggregator.detectOpportunitiesForPair.
  destruct (List.length _ <? 2)%nat; [reflexivity |].
  apply compareAll_no_candidate; [| exact Hle].
  intros d Hin. now apply JsMap_get_In_keys.
Qed.

End NoCandidate.

(* ================================================================== *)
(** ** PriceAggregator: what every synthesized opportunity satisfies *)

(** C4 (as amended).  Every opportunity returned by a scan has
    sellPrice > buyPrice and buyDex <> sellDex, and its tokenIn and tokenOut
    are the two tokens scanned (for a full scan, the two components of a
    monitored key); so tokenIn <> tokenOut holds whenever the scanned
    tokens differ, and is not checked by the synthesis. *)
Theorem C4_synthesis_invariants (clock : nat -> Z) (self : PriceAggregator.t)
    (tokenA tokenB : string) (n n' : nat) (r : list ArbitrageOpportunity)
    (o : ArbitrageOpportunity) :
  In o r ->
  (PriceAggregator.detectOpportunitiesForPair clock self tokenA tokenB n = (Ok r, n') ->
   buyPrice o < sellPrice o /\ buyDex o <> sellDex o
   /\ tokenIn o = tokenA /\ tokenOut o = tokenB
   /\ (tokenA <> tokenB -> tokenIn o <> tokenOut o))
  /\ (PriceAggregator.detectOpportunities clock self n = (Ok r, n') ->
      buyPrice o < sellPrice o /\ buyDex o <> sellDex o
      /\ exists key, In key (PriceAggregator.monitoredPairs self)
                     /\ PriceAggregator.parsePairKey key = (tokenIn o, tokenOut o)).
Proof.
  intros Hin. split; intros H.
  - apply detectOpportunitiesForPair_synthesized in H.
    rewrite Forall_forall in H. specialize (H o Hin).
    destruct H as (Hti & Hto & Hdex & Hlt & _).
    repeat split; try assumption. intros Hne. now rewrite Hti, Hto.
  - apply detectOpportunities_synthesized in H.
    rewrite Forall_forall in H. specialize (H o Hin).
    destruct H as (key & Hkey & Hti & Hto & Hdex & Hlt & _).
    repeat split; try assumption.
    exists key. split; [assumption |].
    destruct (PriceAggregator.parsePairKey key) as [a b]. cbn in Hti, Hto. now subst.
Qed.

(** C4 on two venues quoting 100 and 105 for WETH/USDC. *)
Lemma C4_synthesis_invariants_witness :
  exists o : ArbitrageOpportunity,
    fst (PriceAggregator.detectOpportunitiesForPair Sample.clock Sample.twoVenues
           Sample.WETH Sample.USDC 0%nat) = Ok [o]
    /\ buyPrice o < sellPrice o /\ buyDex o <> sellDex o
    /\ tokenIn o = Sample.WETH /\ tokenOut o = Sample.USDC
    /\ (Sample.WETH <> Sample.USDC -> tokenIn o <> tokenOut o).
Proof.
  destruct (PriceAggregator.detectOpportunitiesForPair Sample.clock Sample.twoVenues
              Sample.WETH Sample.USDC 0%nat) as [res n'] eqn:Hrun.
  destruct res as [[| o [| o' r]] | e]; try (vm_compute in Hrun; discriminate Hrun).
  exists o. split; [reflexivity |].
  apply (C4_synthesis_invariants Sample.clock Sample.twoVenues
           Sample.WETH Sample.USDC 0%nat n' [o] o (or_introl eq_refl)).
  exact Hrun.
Defined.

(** C4 as stated fails: monitoring the pair (WETH, WETH) makes the scan
    return an opportunity whose tokenIn and tokenOut are the same. *)
Lemma C4_same_token_opportunity :
  exists o : ArbitrageOpportunity,
    fst (PriceAggregator.detectOpportunities Sample.clock
           (PriceAggregator.addPair Sample.twoVenues
              Sample.WETH_checksummed Sample.WETH_checksummed) 0%nat) = Ok [o]
    /\ tokenIn o = tokenOut o
    /\ tokenIn o = Sample.WETH.
Proof.
  eexists. split; [vm_compute; reflexivity |]. split; reflexivity.
Qed.

(** C5.  A direction yields a candidate only if the sell price is above
    the buy price and the percentage difference is at least 0.5; a direction
    whose sell price is not above its buy price yields none; and when no
    quote is above another, the scan of the pair returns no opportunity. *)
Theorem C5_synthesis_threshold (clock : nat -> Z) (self : PriceAggregator.t)
    (tokenA tokenB bd sd : string) (bp sp : Price) (n n' : nat)
    (o : ArbitrageOpportunity) :
  (PriceAggregator.createOpportunityIfProfitable clock tokenA tokenB bd sd bp sp n
   = (Ok (Some o), n') ->
   price bp < price sp
   /\ (5 # 10 <= percentageDifference (price bp) (price sp))%Q)
  /\ (price sp <= price bp ->
      PriceAggregator.createOpportunityIfProfitable clock tokenA tokenB bd sd bp sp n
      = (Ok None, n))
  /\ ((forall d d' p p',
          JsMap.get (PriceAggregator.fetchPrices self tokenA tokenB) d = Some p ->
          JsMap.get (PriceAggregator.fetchPrices self tokenA tokenB) d' = Some p' ->
          price p' <= price p) ->
      PriceAggregator.detectOpportunitiesForPair clock self tokenA tokenB n = (Ok [], n)).
Proof.
  split; [| split].
  - intros H. apply createOpportunityIfProfitable_Some in H.
    destruct H as (_ & _ & _ & _ & _ & _ & Hlt & Hpos & Hq & _).
    split; [assumption |].
    apply percentageDifference_threshold; [assumption |].
    apply quot_threshold; lia.
  - apply createOpportunityIfProfitable_not_above.
  - apply detectOpportunitiesForPair_no_candidate.
Qed.

(** C5 on two venues: quotes 100 and 105 give a candidate with a 5%
    difference; two equal quotes give none. *)
Lemma C5_synthesis_threshold_witness :
  (exists (o : ArbitrageOpportunity) (n' : nat),
      PriceAggregator.createOpportunityIfProfitable Sample.clock
        Sample.WETH Sample.USDC "Uniswap V2" "SushiSwap"
        (Sample.quote "Uniswap V2" Sample.poolA (100 * 10 ^ 18))
        (Sample.quote "SushiSwap" Sample.poolB (105 * 10 ^ 18)) 0%nat
      = (Ok (Some o), n')
      /\ 100 * 10 ^ 18 < 105 * 10 ^ 18
      /\ (5 # 10 <= percentageDifference (100 * 10 ^ 18) (105 * 10 ^ 18))%Q)
  /\ PriceAggregator.createOpportunityIfProfitable Sample.clock
       Sample.WETH Sample.USDC "SushiSwap" "Uniswap V2"
       (Sample.quote "SushiSwap" Sample.poolB (105 * 10 ^ 18))
       (Sample.quote "Uniswap V2" Sample.poolA (100 * 10 ^ 18)) 0%nat
     = (Ok None, 0%nat)
  /\ PriceAggregator.detectOpportunitiesForPair Sample.clock Sample.twoVenuesSamePrice
       Sample.WETH Sample.USDC 0%nat = (Ok [], 0%nat).
Proof.
  split; [| split].
  - destruct (PriceAggregator.createOpportunityIfProfitable Sample.clock
                Sample.WETH Sample.USDC "Uniswap V2" "SushiSwap"
                (Sample.quote "Uniswap V2" Sample.poolA (100 * 10 ^ 18))
                (Sample.quote "SushiSwap" Sample.poolB (105 * 10 ^ 18)) 0%nat)
      as [[[o |] | e] n'] eqn:Hrun; try (vm_compute in Hrun; discriminate Hrun).
    exists o, n'. split; [reflexivity |].
    exact (proj1 (C5_synthesis_threshold Sample.clock Sample.twoVenues
                    Sample.WETH Sample.USDC "Uniswap V2" "SushiSwap"
                    (Sample.quote "Uniswap V2" Sample.poolA (100 * 10 ^ 18))
                    (Sample.quote "SushiSwap" Sample.poolB (105 * 10 ^ 18))
                    0%nat n' o) Hrun).
  - apply (C5_synthesis_threshold Sample.clock Sample.twoVenues
             Sample.WETH Sample.USDC "SushiSwap" "Uniswap V2"
             (Sample.quote "SushiSwap" Sample.poolB (105 * 10 ^ 18))
             (Sample.quote "Uniswap V2" Sample.poolA (100 * 10 ^ 18))
             0%nat 0%nat (Sample.opp_100_105 "" "" 0)).
    vm_compute. discriminate.
  - apply (C5_synthesis_threshold Sample.clock Sample.twoVenuesSamePrice
             Sample.WETH Sample.USDC "" ""
             (Sample.quote "" "" 0) (Sample.quote "" "" 0)
             0%nat 0%nat (Sample.opp_100_105 "" "" 0)).
    set (prices := PriceAggregator.fetchPrices Sample.twoVenuesSamePrice
                     Sample.WETH Sample.USDC).
    vm_compute in prices. subst prices.
    intros d d' p p' Hp Hp'. cbn [JsMap.get] in Hp, Hp'.
    destruct (String.eqb "Uniswap V2" d); [injection Hp as <- |];
      (destruct (String.eqb "Uniswap V2" d'); [injection Hp' as <- |]);
      try (destruct (String.eqb "SushiSwap" d); [injection Hp as <- | discriminate Hp]);
      try (destruct (String.eqb "SushiSwap" d'); [injection Hp' as <- | discriminate Hp']);
      cbn; lia.
Defined.

Lemma sort2_comm (a b : string) : Js.sort2 a b = Js.sort2 b a.
Proof.
  unfold Js.sort2, String.ltb.
  rewrite (String.compare_antisym a b).
  destruct (String.compare b a) eqn:Hcmp; cbn; try reflexivity.
  apply String.compare_eq_iff in Hcmp. now subst.
Qed.

Lemma sort2_ordered (a b : string) :
  String.leb (fst (Js.sort2 a b)) (snd (Js.sort2 a b)) = true.
Proof.
  unfold Js.sort2, String.ltb, String.leb.
  destruct (String.compare b a) eqn:Hcmp; cbn.
  - rewrite String.compare_antisym, Hcmp. reflexivity.
  - rewrite Hcmp. reflexivity.
  - rewrite String.compare_antisym, Hcmp. reflexivity.
Qed.

Lemma getPairKey_comm (tokenA tokenB : string) :
  PriceAggregator.getPairKey tokenA tokenB = PriceAggregator.getPairKey tokenB tokenA.
Proof.
  unfold PriceAggregator.getPairKey. now rewrite sort2_comm.
Qed.

(* ================================================================== *)
(** ** Lower-casing and splitting *)

Lemma lowerChar_idempotent (c : ascii) : Js.lowerChar (Js.lowerChar c) = Js.lowerChar c.
Proof.
  destruct c as [b0 b1 b2 b3 b4 b5 b6 b7].
  destruct b0, b1, b2, b3, b4, b5, b6, b7; reflexivity.
Qed.

Lemma lowerChar_dash (c : ascii) :
  Ascii.eqb (Js.lowerChar c) "-" = Ascii.eqb c "-".
Proof.
  destruct c as [b0 b1 b2 b3 b4 b5 b6 b7].
  destruct b0, b1, b2, b3, b4, b5, b6, b7; reflexivity.
Qed.

Lemma toLowerCase_idempotent (s : string) :
  Js.toLowerCase (Js.toLowerCase s) = Js.toLowerCase s.
Proof.
  induction s as [| c s IH]; cbn; [reflexivity |].
  now rewrite lowerChar_idempotent, IH.
Qed.

Lemma toLowerCase_dashFree (s : string) :
  dashFree (Js.toLowerCase s) = dashFree s.
Proof.
  unfold dashFree. induction s as [| c s IH]; cbn; [reflexivity |].
  now rewrite lowerChar_dash, IH.
Qed.

Lemma split_dashFree (s : string) :
  dashFree s = true -> Js.split "-" s = [s].
Proof.
  unfold dashFree. induction s as [| c s IH]; cbn; intros H; [reflexivity |].
  apply andb_prop in H. destruct H as [Hc Hs].
  destruct (Ascii.eqb c "-"); [discriminate Hc |].
  now rewrite (IH Hs).
Qed.

Lemma split_key (x y : string) :
  dashFree x = true ->
  Js.split "-" (x ++ "-" ++ y)%string = x :: Js.split "-" y.
Proof.
  unfold dashFree. induction x as [| c x IH]; cbn; intros H; [reflexivity |].
  apply andb_prop in H. destruct H as [Hc Hx].
  destruct (Ascii.eqb c "-"); [discriminate Hc |].
  cbn in IH. now rewrite (IH Hx).
Qed.


Lemma sort2_cases (a b : string) :
  Js.sort2 a b = (a, b) \/ Js.sort2 a b = (b, a).
Proof. unfold Js.sort2. destruct (String.ltb b a); auto. Qed.

Lemma parsePairKey_getPairKey (tokenA tokenB : string) :
  dashFree tokenA = true -> dashFree tokenB = true ->
  PriceAggregator.parsePairKey (PriceAggregator.getPairKey tokenA tokenB)
  = Js.sort2 (Js.toLowerCase tokenA) (Js.toLowerCase tokenB).
Proof.
  intros Ha Hb. rewrite <- toLowerCase_dashFree in Ha, Hb.
  unfold PriceAggregator.parsePairKey, PriceAggregator.getPairKey.
  destruct (sort2_cases (Js.toLowerCase tokenA) (Js.toLowerCase tokenB)) as [-> | ->];
    cbn [fst snd]; rewrite split_key, split_dashFree by assumption; reflexivity.
Qed.

(** C9.  The pair key is the two lower-cased addresses in lexicographic
    order joined by a dash; it does not depend on the order of the
    arguments, so [addPair] in either order gives the same aggregator and
    adding the pair a second time in the other order changes nothing.
    Querying the monitored pairs after either call reports the entry read
    back from that key; on a fresh aggregator it is the only entry, also
    after both calls; and for addresses (which hold no dash) the entry
    reported is the two lower-cased addresses in lexicographic order. *)
Theorem C9_pair_key_order_independent (self : PriceAggregator.t)
    (scs : list PriceAggregator.DexScanner) (tokenA tokenB : string) :
  PriceAggregator.getPairKey tokenA tokenB = PriceAggregator.getPairKey tokenB tokenA
  /\ (exists x y : string,
         PriceAggregator.getPairKey tokenA tokenB = (x ++ "-" ++ y)%string
         /\ String.leb x y = true
         /\ ((x = Js.toLowerCase tokenA /\ y = Js.toLowerCase tokenB)
             \/ (x = Js.toLowerCase tokenB /\ y = Js.toLowerCase tokenA)))
  /\ PriceAggregator.addPair self tokenA tokenB = PriceAggregator.addPair self tokenB tokenA
  /\ PriceAggregator.addPair (PriceAggregator.addPair self tokenA tokenB) tokenB tokenA
     = PriceAggregator.addPair self tokenA tokenB
  /\ PriceAggregator.getMonitoredPairs (PriceAggregator.addPair self tokenA tokenB)
     = PriceAggregator.getMonitoredPairs (PriceAggregator.addPair self tokenB tokenA)
  /\ PriceAggregator.monitoredPairs
       (PriceAggregator.addPair
          (PriceAggregator.addPair (PriceAggregator.new scs) tokenA tokenB) tokenB tokenA)
     = [PriceAggregator.getPairKey tokenA tokenB]
  /\ In (PriceAggregator.parsePairKey (PriceAggregator.getPairKey tokenA tokenB))
        (PriceAggregator.getMonitoredPairs (PriceAggregator.addPair self tokenA tokenB))
  /\ In (PriceAggregator.parsePairKey (PriceAggregator.getPairKey tokenA tokenB))
        (PriceAggregator.getMonitoredPairs (PriceAggregator.addPair self tokenB tokenA))
  /\ PriceAggregator.getMonitoredPairs
       (PriceAggregator.addPair (PriceAggregator.new scs) tokenA tokenB)
     = [PriceAggregator.parsePairKey (PriceAggregator.getPairKey tokenA tokenB)]
  /\ PriceAggregator.getMonitoredPairs
       (PriceAggregator.addPair (PriceAggregator.new scs) tokenB tokenA)
     = [PriceAggregator.parsePairKey (PriceAggregator.getPairKey tokenA tokenB)]
  /\ PriceAggregator.getMonitoredPairs
       (PriceAggregator.addPair
          (PriceAggregator.addPair (PriceAggregator.new scs) tokenA tokenB) tokenB tokenA)
     = [PriceAggregator.parsePairKey (PriceAggregator.getPairKey tokenA tokenB)]
  /\ (dashFree tokenA = true -> dashFree tokenB = true ->
      PriceAggregator.parsePairKey (PriceAggregator.getPairKey tokenA tokenB)
      = Js.sort2 (Js.toLowerCase tokenA) (Js.toLowerCase tokenB)
      /\ PriceAggregator.parsePairKey (PriceAggregator.getPairKey tokenB tokenA)
         = Js.sort2 (Js.toLowerCase tokenA) (Js.toLowerCase tokenB)).
Proof.
  split; [apply getPairKey_comm |].
  split.
  { exists (fst (Js.sort2 (Js.toLowerCase tokenA) (Js.toLowerCase tokenB))),
           (snd (Js.sort2 (Js.toLowerCase tokenA) (Js.toLowerCase tokenB))).
    split; [reflexivity |]. split; [apply sort2_ordered |].
    unfold Js.sort2. destruct (String.ltb _ _); cbn; auto. }
  split.
  { unfold PriceAggregator.addPair. now rewrite getPairKey_comm. }
  split.
  { unfold PriceAggregator.addPair. cbn [PriceAggregator.monitoredPairs PriceAggregator.scanners].
    rewrite (getPairKey_comm tokenB tokenA). now rewrite JsSet_add_idempotent. }
  split.
  { unfold PriceAggregator.addPair. now rewrite getPairKey_comm. }
  split.
  { unfold PriceAggregator.addPair.
    cbn [PriceAggregator.monitoredPairs PriceAggregator.scanners].
    rewrite (getPairKey_comm tokenB tokenA). rewrite JsSet_add_idempotent.
    reflexivity. }
  split.
  { unfold PriceAggregator.getMonitoredPairs, PriceAggregator.addPair.
    cbn [PriceAggregator.monitoredPairs]. apply in_map. apply JsSet_add_In. }
  split.
  { unfold PriceAggregator.getMonitoredPairs, PriceAggregator.addPair.
    cbn [PriceAggregator.monitoredPairs]. rewrite (getPairKey_comm tokenB tokenA).
    apply in_map. apply JsSet_add_In. }
  split; [reflexivity |].
  split.
  { unfold PriceAggregator.getMonitoredPairs, PriceAggregator.addPair.
    cbn [PriceAggregator.monitoredPairs]. rewrite (getPairKey_comm tokenB tokenA).
    reflexivity. }
  split.
  { unfold PriceAggregator.getMonitoredPairs, PriceAggregator.addPair.
    cbn [PriceAggregator.monitoredPairs PriceAggregator.scanners].
    rewrite (getPairKey_comm tokenB tokenA). rewrite JsSet_add_idempotent.
    reflexivity. }
  intros Ha Hb. rewrite (getPairKey_comm tokenB tokenA).
  split; apply parsePairKey_getPairKey; assumption.
Qed.

(** C9 on WETH, given with checksum capitals, and USDC: whichever order the
    pair is added in, and after adding it in both, the one entry reported
    is (usdc, weth) in lower case. *)
Lemma C9_pair_key_order_independent_witness :
  PriceAggregator.getMonitoredPairs
    (PriceAggregator.addPair (PriceAggregator.new []) Sample.WETH_checksummed Sample.USDC)
  = [(Sample.USDC, Sample.WETH)]
  /\ PriceAggregator.getMonitoredPairs
       (PriceAggregator.addPair (PriceAggregator.new []) Sample.USDC Sample.WETH_checksummed)
     = [(Sample.USDC, Sample.WETH)]
  /\ PriceAggregator.getMonitoredPairs
       (PriceAggregator.addPair
          (PriceAggregator.addPair (PriceAggregator.new [])
             Sample.WETH_checksummed Sample.USDC)
          Sample.USDC Sample.WETH_checksummed)
     = [(Sample.USDC, Sample.WETH)].
Proof.
  destruct (C9_pair_key_order_independent (PriceAggregator.new []) []
              Sample.WETH_checksummed Sample.USDC)
    as (_ & _ & _ & _ & _ & _ & _ & _ & Hfirst & Hsecond & Hboth & Hentry).
  destruct (Hentry eq_refl eq_refl) as [Hread _].
  rewrite Hfirst, Hsecond, Hboth, Hread.
  split; [| split]; reflexivity.
Defined.

(** C10.  A synthesized opportunity carries availableLiquidity = 10 * 10^18
    and estimatedProfit = sellPrice - buyPrice: as created, and in the
    result of a scan of one pair and of a full scan. *)
Theorem C10_placeholder_liquidity_and_profit (clock : nat -> Z)
    (self : PriceAggregator.t) (tokenA tokenB bd sd : string) (bp sp : Price)
    (n n' : nat) (r : list ArbitrageOpportunity) (o : ArbitrageOpportunity) :
  (PriceAggregator.createOpportunityIfProfitable clock tokenA tokenB bd sd bp sp n
   = (Ok (Some o), n') ->
   availableLiquidity o = 10 * 10 ^ 18
   /\ estimatedProfit o = Some (sellPrice o - buyPrice o))
  /\ (PriceAggregator.detectOpportunitiesForPair clock self tokenA tokenB n = (Ok r, n') ->
      In o r ->
      availableLiquidity o = 10 * 10 ^ 18
      /\ estimatedProfit o = Some (sellPrice o - buyPrice o))
  /\ (PriceAggregator.detectOpportunities clock self n = (Ok r, n') ->
      In o r ->
      availableLiquidity o = 10 * 10 ^ 18
      /\ estimatedProfit o = Some (sellPrice o - buyPrice o)).
Proof.
  split; [| split].
  - intros H. apply createOpportunityIfProfitable_Some in H.
    destruct H as (_ & _ & _ & _ & Hbp & Hsp & _ & _ & _ & Hliq & Hest).
    rewrite Hbp, Hsp. auto.
  - intros H Hin. apply detectOpportunitiesForPair_synthesized in H.
    rewrite Forall_forall in H. specialize (H o Hin).
    destruct H as (_ & _ & _ & _ & _ & _ & Hliq & Hest). auto.
  - intros H Hin. apply detectOpportunities_synthesized in H.
    rewrite Forall_forall in H. specialize (H o Hin).
    destruct H as (key & _ & _ & _ & _ & _ & _ & _ & Hliq & Hest). auto.
Qed.

(** C10 on two venues quoting 100 and 105 for a monitored WETH/USDC pair. *)
Lemma C10_placeholder_liquidity_and_profit_witness :
  exists o : ArbitrageOpportunity,
    fst (PriceAggregator.detectOpportunities Sample.clock
           (PriceAggregator.addPair Sample.twoVenues
              Sample.WETH_checksummed Sample.USDC_checksummed) 0%nat) = Ok [o]
    /\ availableLiquidity o = 10 * 10 ^ 18
    /\ estimatedProfit o = Some (sellPrice o - buyPrice o)
    /\ sellPrice o - buyPrice o = 5 * 10 ^ 18.
Proof.
  destruct (PriceAggregator.detectOpportunities Sample.clock
              (PriceAggregator.addPair Sample.twoVenues
                 Sample.WETH_checksummed Sample.USDC_checksummed) 0%nat)
    as [res n'] eqn:Hrun.
  destruct res as [[| o [| o' r]] | e]; try (vm_compute in Hrun; discriminate Hrun).
  exists o. split; [reflexivity |].
  destruct (C10_placeholder_liquidity_and_profit Sample.clock
              (PriceAggregator.addPair Sample.twoVenues
                 Sample.WETH_checksummed Sample.USDC_checksummed)
              "" "" "" "" (Sample.quote "" "" 0) (Sample.quote "" "" 0)
              0%nat n' [o] o) as (_ & _ & Hfull).
  destruct (Hfull Hrun (or_introl eq_refl)) as [Hliq Hest].
  split; [exact Hliq |]. split; [exact Hest |].
  vm_compute in Hrun. injection Hrun as Ho _. subst o. reflexivity.
Defined.

(* ================================================================== *)
(** ** OpportunityValidator *)

Section Validator.

Variable toFixed : Q -> nat -> string.
Variable numberToString : Q -> string.
Variable getChecksumAddress : string -> string.
Variable icapValid : string -> bool.

Lemma gtb_thousandths (a c : Z) (d : positive) :
  Js.gtb (inject_Z a / 1000) (c # d) = (c * 1000 <? a * Z.pos d).
Proof.
  unfold Js.gtb, Js.ltb, Qle_bool. cbn.
  destruct (Z.leb_spec (a * 1 * Z.pos d) (c * 1000));
    destruct (Z.ltb_spec (c * 1000) (a * Z.pos d)); try reflexivity; lia.
Qed.

(** The three outcomes of the freshness stage, by age in milliseconds. *)
Lemma validateFreshness_cases (self : OpportunityValidator.t) (now : Z)
    (opp : ArbitrageOpportunity) :
  let ageSeconds := (inject_Z (now - timestamp opp) / 1000)%Q in
  OpportunityValidator.validateFreshness toFixed numberToString self now opp
  = if 60000 <? now - timestamp opp then
      OpportunityValidator.reject
        ("Opportunity is stale: " ++ toFixed ageSeconds 0 ++ "s old (max: "
           ++ numberToString 60%Q ++ "s)")%string
    else if 30000 <? now - timestamp opp then
      OpportunityValidator.accept
        ["Opportunity aging: " ++ toFixed ageSeconds 0 ++ "s old - execute quickly"]%string
    else OpportunityValidator.accept [].
Proof.
  cbv zeta. unfold OpportunityValidator.validateFreshness. cbv zeta.
  change (60 / 2)%Q with (60 # 2)%Q.
  rewrite !gtb_thousandths.
  replace (60 * 1000 <? (now - timestamp opp) * 1)
    with (60000 <? now - timestamp opp) by (f_equal; lia).
  replace (60 * 1000 <? (now - timestamp opp) * 2)
    with (30000 <? now - timestamp opp).
  - reflexivity.
  - destruct (Z.ltb_spec 30000 (now - timestamp opp));
      destruct (Z.ltb_spec (60 * 1000) ((now - timestamp opp) * 2));
      try reflexivity; lia.
Qed.

End Validator.

(** C6.  The freshness stage rejects, with the staleness reason, an
    opportunity older than 60 seconds, and accepts one whose age is within
    the window: with the ageing warning when the age is above 30 seconds,
    without a warning otherwise. *)
Theorem C6_freshness_window (toFixed : Q -> nat -> string)
    (numberToString : Q -> string) (self : OpportunityValidator.t) (now : Z)
    (opp : ArbitrageOpportunity) :
  (60000 < now - timestamp opp ->
   OpportunityValidator.validateFreshness toFixed numberToString self now opp
   = {| isValid := false;
        reason := Some ("Opportunity is stale: "
                          ++ toFixed (inject_Z (now - timestamp opp) / 1000)%Q 0%nat
                          ++ "s old (max: " ++ numberToString 60%Q ++ "s)")%string;
        warnings := None |})
  /\ (now - timestamp opp <= 60000 ->
      isValid (OpportunityValidator.validateFreshness toFixed numberToString self now opp)
      = true
      /\ reason (OpportunityValidator.validateFreshness toFixed numberToString self now opp)
         = None)
  /\ (30000 < now - timestamp opp <= 60000 ->
      warnings (OpportunityValidator.validateFreshness toFixed numberToString self now opp)
      = Some ["Opportunity aging: "
                ++ toFixed (inject_Z (now - timestamp opp) / 1000)%Q 0%nat
                ++ "s old - execute quickly"]%string)
  /\ (now - timestamp opp <= 30000 ->
      warnings (OpportunityValidator.validateFreshness toFixed numberToString self now opp)
      = None).
Proof.
  rewrite validateFreshness_cases. cbv zeta.
  destruct (Z.ltb_spec 60000 (now - timestamp opp));
    destruct (Z.ltb_spec 30000 (now - timestamp opp));
    repeat split; intros; try lia; reflexivity.
Qed.

(** C6 on the sample opportunity: rejected as stale 61 seconds after
    detection, accepted with the ageing warning after 59 seconds, accepted
    without a warning after 10 seconds. *)
Lemma C6_freshness_window_witness :
  OpportunityValidator.validateFreshness Sample.toFixed Sample.numberToString
    Sample.validator (Sample.detectedAt + 61000) Sample.freshOpportunity
  = {| isValid := false;
       reason := Some "Opportunity is stale: 61s old (max: 60s)";
       warnings := None |}
  /\ isValid (OpportunityValidator.validateFreshness Sample.toFixed Sample.numberToString
                Sample.validator (Sample.detectedAt + 59000) Sample.freshOpportunity)
     = true
  /\ warnings (OpportunityValidator.validateFreshness Sample.toFixed Sample.numberToString
                 Sample.validator (Sample.detectedAt + 59000) Sample.freshOpportunity)
     = Some ["Opportunity aging: 59s old - execute quickly"]
  /\ warnings (OpportunityValidator.validateFreshness Sample.toFixed Sample.numberToString
                 Sample.validator (Sample.detectedAt + 10000) Sample.freshOpportunity)
     = None.
Proof.
  split; [| split; [| split]].
  - rewrite (proj1 (C6_freshness_window Sample.toFixed Sample.numberToString
                      Sample.validator (Sample.detectedAt + 61000)
                      Sample.freshOpportunity)); [reflexivity | vm_compute; reflexivity].
  - apply (C6_freshness_window Sample.toFixed Sample.numberToString
             Sample.validator (Sample.detectedAt + 59000) Sample.freshOpportunity).
    vm_compute. discriminate.
  - rewrite (proj1 (proj2 (proj2 (C6_freshness_window Sample.toFixed Sample.numberToString
                      Sample.validator (Sample.detectedAt + 59000)
                      Sample.freshOpportunity))));
      [reflexivity | split; vm_compute; [reflexivity | discriminate]].
  - apply (C6_freshness_window Sample.toFixed Sample.numberToString
             Sample.validator (Sample.detectedAt + 10000) Sample.freshOpportunity).
    vm_compute. discriminate.
Defined.

Section Determinism.

Variable toFixed : Q -> nat -> string.
Variable numberToString : Q -> string.
Variable getChecksumAddress : string -> string.
Variable icapValid : string -> bool.

(** The clock reaches the verdict through the freshness stage only. *)
Lemma validate_freshness_only (self : OpportunityValidator.t) (now1 now2 : Z)
    (opp : ArbitrageOpportunity) :
  OpportunityValidator.validateFreshness toFixed numberToString self now1 opp
  = OpportunityValidator.validateFreshness toFixed numberToString self now2 opp ->
  OpportunityValidator.validate toFixed numberToString getChecksumAddress icapValid
    self now1 opp
  = OpportunityValidator.validate toFixed numberToString getChecksumAddress icapValid
      self now2 opp.
Proof.
  intros H. unfold OpportunityValidator.validate. rewrite H. reflexivity.
Qed.

Ltac stage H :=
  match type of H with
  | context [if negb (isValid ?v) then _ else _] =>
      destruct (negb (isValid v)) eqn:?
  end.

(** A thrown error does not depend on the clock. *)
Lemma validate_Throw_any_clock (self : OpportunityValidator.t) (now1 now2 : Z)
    (opp : ArbitrageOpportunity) (e : error) :
  OpportunityValidator.validate toFixed numberToString getChecksumAddress icapValid
    self now1 opp = Throw e ->
  OpportunityValidator.validate toFixed numberToString getChecksumAddress icapValid
    self now2 opp = Throw e.
Proof.
  unfold OpportunityValidator.validate. intros H.
  stage H; [discriminate H |].
  stage H; [discriminate H |].
  destruct (OpportunityValidator.validatePrices toFixed self opp) as [pv | e'];
    cbn [bind] in *; [| exact H].
  stage H; [discriminate H |].
  stage H; [discriminate H |].
  stage H; [discriminate H |].
  stage H; discriminate H.
Qed.

(** A rejection at a reading where the freshness stage accepts is the
    verdict at every reading. *)
Lemma validate_early_rejection_any_clock (self : OpportunityValidator.t)
    (now1 now2 : Z) (opp : ArbitrageOpportunity) (v : ValidationResult) :
  OpportunityValidator.validate toFixed numberToString getChecksumAddress icapValid
    self now1 opp = Ok v ->
  isValid v = false ->
  isValid (OpportunityValidator.validateFreshness toFixed numberToString self now1 opp)
  = true ->
  OpportunityValidator.validate toFixed numberToString getChecksumAddress icapValid
    self now2 opp = Ok v.
Proof.
  unfold OpportunityValidator.validate.
  intros H Hrej Hfresh.
  stage H; [exact H |].
  stage H; [exact H |].
  destruct (OpportunityValidator.validatePrices toFixed self opp) as [pv | e'];
    cbn [bind] in *; [| discriminate H].
  stage H; [exact H |].
  stage H; [exact H |].
  stage H; [exact H |].
  rewrite Hfresh in H. cbn [negb] in H.
  apply Ok_inj in H. subst v. discriminate Hrej.
Qed.

End Determinism.

(** C2 (as amended).  The verdict of [validate] is determined by the
    validator's configuration, the opportunity's fields and the clock
    reading of the freshness stage, and by the clock through that stage
    only: two calls whose freshness stage gives the same result return the
    same verdict, in particular two calls made while the opportunity is at
    most 30 seconds old; a thrown error, and a rejection by one of the
    first five stages, are the same at every clock reading. *)
Theorem C2_clock_only_through_freshness (toFixed : Q -> nat -> string)
    (numberToString : Q -> string) (getChecksumAddress : string -> string)
    (icapValid : string -> bool) (self : OpportunityValidator.t)
    (now1 now2 : Z) (opp : ArbitrageOpportunity) :
  (OpportunityValidator.validateFreshness toFixed numberToString self now1 opp
   = OpportunityValidator.validateFreshness toFixed numberToString self now2 opp ->
   OpportunityValidator.validate toFixed numberToString getChecksumAddress icapValid
     self now1 opp
   = OpportunityValidator.validate toFixed numberToString getChecksumAddress icapValid
       self now2 opp)
  /\ (now1 - timestamp opp <= 30000 -> now2 - timestamp opp <= 30000 ->
      OpportunityValidator.validate toFixed numberToString getChecksumAddress icapValid
        self now1 opp
      = OpportunityValidator.validate toFixed numberToString getChecksumAddress icapValid
          self now2 opp)
  /\ (forall e : error,
         OpportunityValidator.validate toFixed numberToString getChecksumAddress icapValid
           self now1 opp = Throw e ->
         OpportunityValidator.validate toFixed numberToString getChecksumAddress icapValid
           self now2 opp = Throw e)
  /\ (forall v : ValidationResult,
         OpportunityValidator.validate toFixed numberToString getChecksumAddress icapValid
           self now1 opp = Ok v ->
         isValid v = false ->
         isValid (OpportunityValidator.validateFreshness toFixed numberToString
                    self now1 opp) = true ->
         OpportunityValidator.validate toFixed numberToString getChecksumAddress icapValid
           self now2 opp = Ok v).
Proof.
  split; [apply validate_freshness_only |].
  split.
  { intros H1 H2. apply validate_freshness_only.
    rewrite !validateFreshness_cases. cbv zeta.
    destruct (Z.ltb_spec 60000 (now1 - timestamp opp)); [lia |].
    destruct (Z.ltb_spec 30000 (now1 - timestamp opp)); [lia |].
    destruct (Z.ltb_spec 60000 (now2 - timestamp opp)); [lia |].
    destruct (Z.ltb_spec 30000 (now2 - timestamp opp)); [lia |].
    reflexivity. }
  split.
  { intros e. apply validate_Throw_any_clock. }
  intros v. apply validate_early_rejection_any_clock.
Qed.

(** C2 on the sample opportunity: 10 and 20 seconds after detection the
    verdict is the same acceptance. *)
Lemma C2_clock_only_through_freshness_witness :
  OpportunityValidator.validate Sample.toFixed Sample.numberToString
    Sample.checksumNotConsulted Sample.icapNotConsulted
    Sample.validator (Sample.detectedAt + 10000) Sample.freshOpportunity
  = OpportunityValidator.validate Sample.toFixed Sample.numberToString
      Sample.checksumNotConsulted Sample.icapNotConsulted
      Sample.validator (Sample.detectedAt + 20000) Sample.freshOpportunity
  /\ OpportunityValidator.validate Sample.toFixed Sample.numberToString
       Sample.checksumNotConsulted Sample.icapNotConsulted
       Sample.validator (Sample.detectedAt + 10000) Sample.freshOpportunity
     = Ok {| isValid := true; reason := None; warnings := None |}.
Proof.
  split; [| vm_compute; reflexivity].
  refine (proj1 (proj2 (C2_clock_only_through_freshness
                          Sample.toFixed Sample.numberToString
                          Sample.checksumNotConsulted Sample.icapNotConsulted
                          Sample.validator
                          (Sample.detectedAt + 10000) (Sample.detectedAt + 20000)
                          Sample.freshOpportunity)) _ _);
    vm_compute; discriminate.
Defined.

(** C2 as stated fails: the same validator on the same opportunity accepts
    59 seconds after detection and rejects 61 seconds after it, whatever the
    number formatting and the checksum functions are. *)
Lemma C2_verdict_changes_with_clock :
  (forall (toFixed : Q -> nat -> string) (numberToString : Q -> string)
          (getChecksumAddress : string -> string) (icapValid : string -> bool),
      OpportunityValidator.validate toFixed numberToString getChecksumAddress icapValid
        Sample.validator (Sample.detectedAt + 59000) Sample.freshOpportunity
      = Ok {| isValid := true;
              reason := None;
              warnings := Some ["Opportunity aging: "
                                  ++ toFixed (inject_Z 59000 / 1000)%Q 0%nat
                                  ++ "s old - execute quickly"]%string |})
  /\ (forall (toFixed : Q -> nat -> string) (numberToString : Q -> string)
             (getChecksumAddress : string -> string) (icapValid : string -> bool),
         OpportunityValidator.validate toFixed numberToString getChecksumAddress icapValid
           Sample.validator (Sample.detectedAt + 61000) Sample.freshOpportunity
         = Ok {| isValid := false;
                 reason := Some ("Opportunity is stale: "
                                   ++ toFixed (inject_Z 61000 / 1000)%Q 0%nat
                                   ++ "s old (max: " ++ numberToString 60%Q ++ "s)")%string;
                 warnings := None |})
  /\ OpportunityValidator.validate Sample.toFixed Sample.numberToString
       Sample.checksumNotConsulted Sample.icapNotConsulted
       Sample.validator (Sample.detectedAt + 59000) Sample.freshOpportunity
     = Ok {| isValid := true;
             reason := None;
             warnings := Some ["Opportunity aging: 59s old - execute quickly"] |}
  /\ OpportunityValidator.validate Sample.toFixed Sample.numberToString
       Sample.checksumNotConsulted Sample.icapNotConsulted
       Sample.validator (Sample.detectedAt + 61000) Sample.freshOpportunity
     = Ok {| isValid := false;
             reason := Some "Opportunity is stale: 61s old (max: 60s)";
             warnings := None |}.
Proof.
  split; [| split; [| split]]; intros; vm_compute; reflexivity.
Qed.

(* ================================================================== *)
(** * Further properties of the code *)

(** ** ProfitCalculator: the analysis and its verdict *)

(** The steps of [calculateProfit], read back from a returned analysis. *)
Lemma calculateProfit_inv (self : ProfitCalculator.t) (opp : ArbitrageOpportunity)
    (a : ProfitAnalysis) :
  ProfitCalculator.calculateProfit self opp = Ok a ->
  exists amount gross loanFee venueFees gas percentage impactBuy impactSell,
    ProfitCalculator.calculateOptimalAmount self (buyPrice opp) (sellPrice opp)
      (availableLiquidity opp) = Ok amount
    /\ ProfitCalculator.calculateGrossProfit amount (buyPrice opp) (sellPrice opp) = Ok gross
    /\ ProfitCalculator.calculateFlashLoanFee self amount = Ok loanFee
    /\ ProfitCalculator.calculateDexFees self amount (buyDex opp) (sellDex opp)
       = Ok venueFees
    /\ ProfitCalculator.estimateGasCost self = Ok gas
    /\ ProfitCalculator.calculateProfitPercentage (gross - loanFee - venueFees - gas) amount
       = Ok percentage
    /\ ProfitCalculator.calculatePriceImpactPercent amount (buyPrice opp) = Ok impactBuy
    /\ ProfitCalculator.calculatePriceImpactPercent amount (sellPrice opp) = Ok impactSell
    /\ a = {| opportunity := opp;
              grossProfit := gross;
              flashLoanFee := loanFee;
              gasCost := gas;
              dexFees := venueFees;
              netProfit := gross - loanFee - venueFees - gas;
              profitPercentage := percentage;
              recommendedAmount := amount;
              isExecutable :=
                ProfitCalculator.isOpportunityExecutable self
                  (gross - loanFee - venueFees - gas) percentage impactBuy impactSell;
              priceImpact := {| buy := impactBuy; sell := impactSell |} |}.
Proof.
  unfold ProfitCalculator.calculateProfit. intros H.
  apply bind_Ok_inv in H. destruct H as (amount & Hamount & H).
  apply bind_Ok_inv in H. destruct H as (gross & Hgross & H).
  apply bind_Ok_inv in H. destruct H as (loanFee & Hloan & H).
  apply bind_Ok_inv in H. destruct H as (venueFees & Hvenue & H).
  apply bind_Ok_inv in H. destruct H as (gas & Hgas & H).
  apply bind_Ok_inv in H. destruct H as (percentage & Hpct & H).
  apply bind_Ok_inv in H. destruct H as (impactBuy & Hbuy & H).
  apply bind_Ok_inv in H. destruct H as (impactSell & Hsell & H).
  apply Ok_inj in H.
  exists amount, gross, loanFee, venueFees, gas, percentage, impactBuy, impactSell.
  repeat (split; [assumption |]). symmetry. exact H.
Qed.

Lemma ltb_false_le (x y : Q) : Js.ltb x y = false -> (y <= x)%Q.
Proof.
  unfold Js.ltb. intros H. apply Qle_bool_iff.
  destruct (Qle_bool y x); [reflexivity | discriminate H].
Qed.

Lemma ltb_true_lt (x y : Q) : Js.ltb x y = true -> (x < y)%Q.
Proof.
  unfold Js.ltb. intros H. apply Qnot_le_lt. intros Hle.
  apply Qle_bool_iff in Hle. rewrite Hle in H. discriminate H.
Qed.

Lemma ltb_lt_true (x y : Q) : (x < y)%Q -> Js.ltb x y = true.
Proof.
  intros Hlt. unfold Js.ltb. destruct (Qle_bool y x) eqn:Hle; [| reflexivity].
  apply Qle_bool_iff in Hle. exfalso. exact (Qlt_not_le _ _ Hlt Hle).
Qed.

(** The estimate 1 is within the slippage bound only from 100 basis points. *)
Lemma impact_within_slippage (maxSlippageBps : Q) :
  Js.gtb (100 # 100) (maxSlippageBps / 100) = false -> (100 <= maxSlippageBps)%Q.
Proof.
  unfold Js.gtb. intros H. apply ltb_false_le in H.
  destruct maxSlippageBps as [num den].
  unfold Qle, Qdiv, Qmult, Qinv in *. cbn in *. lia.
Qed.

(** The accounting of a returned analysis and what its verdict implies. *)
Lemma calculateProfit_facts (self : ProfitCalculator.t)
    (opp : ArbitrageOpportunity) (a : ProfitAnalysis) :
  ProfitCalculator.calculateProfit self opp = Ok a ->
  opportunity a = opp
  /\ 10 ^ 17 <= recommendedAmount a
  /\ grossProfit a
     = Z.quot ((sellPrice opp - buyPrice opp) * recommendedAmount a) (10 ^ 18)
  /\ netProfit a = grossProfit a - flashLoanFee a - dexFees a - gasCost a
  /\ (isExecutable a = true ->
      0 < netProfit a
      /\ (Js.double (minProfitUSD (execution (ProfitCalculator.config self)))
          <= ProfitCalculator.convertToUSD self (netProfit a))%Q
      /\ (minProfitPercentage (execution (ProfitCalculator.config self))
          <= profitPercentage a)%Q
      /\ (100 <= maxSlippage (execution (ProfitCalculator.config self)))%Q).
Proof.
  intros H. apply calculateProfit_inv in H.
  destruct H as (amount & gross & loanFee & venueFees & gas & percentage
                 & impactBuy & impactSell
                 & Hamount & Hgross & _ & _ & _ & _ & Hbuy & _ & ->).
  cbn [opportunity recommendedAmount grossProfit netProfit flashLoanFee dexFees
       gasCost isExecutable profitPercentage].
  pose proof (calculateOptimalAmount_positive _ _ _ _ _ Hamount) as Hpos.
  split; [reflexivity |]. split; [assumption |].
  split.
  { unfold ProfitCalculator.calculateGrossProfit in Hgross.
    rewrite div_Ok in Hgross by discriminate. apply Ok_inj in Hgross.
    symmetry. exact Hgross. }
  split; [reflexivity |].
  rewrite calculatePriceImpactPercent_eq in Hbuy by lia. apply Ok_inj in Hbuy.
  subst impactBuy.
  unfold ProfitCalculator.isOpportunityExecutable.
  destruct (Z.leb_spec (gross - loanFee - venueFees - gas) 0) as [Hle | Hgt];
    [intros Hx; discriminate Hx |].
  destruct (Js.ltb (ProfitCalculator.convertToUSD self _) _) eqn:Husd;
    [intros Hx; discriminate Hx |].
  destruct (Js.ltb percentage _) eqn:Hpct; [intros Hx; discriminate Hx |].
  destruct (Js.gtb (100 # 100) _) eqn:Hslip; [intros Hx; discriminate Hx |].
  intros _. split; [assumption |].
  split; [apply ltb_false_le; assumption |].
  split; [apply ltb_false_le; assumption |].
  apply impact_within_slippage. assumption.
Qed.



(** X2.  Under a slippage bound below 100 basis points no analysis is
    executable: both price-impact estimates are the constant 1 (percent),
    which exceeds maxSlippage / 100. *)
Theorem X2_low_slippage_bound_never_executable (self : ProfitCalculator.t)
    (opp : ArbitrageOpportunity) (a : ProfitAnalysis) :
  (maxSlippage (execution (ProfitCalculator.config self)) < 100)%Q ->
  ProfitCalculator.calculateProfit self opp = Ok a ->
  isExecutable a = false.
Proof.
  intros Hslip H. destruct (isExecutable a) eqn:Hexec; [| reflexivity].
  exfalso.
  destruct (calculateProfit_facts self opp a H) as (_ & _ & _ & _ & Hverdict).
  destruct (Hverdict Hexec) as (_ & _ & _ & Hle).
  exact (Qlt_not_le _ _ Hslip Hle).
Qed.

(** X2 on the default configuration (slippage bound 50 basis points). *)
Lemma X2_low_slippage_bound_never_executable_witness :
  exists a : ProfitAnalysis,
    ProfitCalculator.calculateProfit
      (ProfitCalculator.new Sample.defaultConfig)
      (Sample.opp_100_105 "Uniswap V2" "SushiSwap" 0) = Ok a
    /\ isExecutable a = false.
Proof.
  destruct (ProfitCalculator.calculateProfit
              (ProfitCalculator.new Sample.defaultConfig)
              (Sample.opp_100_105 "Uniswap V2" "SushiSwap" 0)) as [a | e] eqn:Hrun;
    [| vm_compute in Hrun; discriminate Hrun].
  exists a. split; [reflexivity |].
  refine (X2_low_slippage_bound_never_executable
            (ProfitCalculator.new Sample.defaultConfig)
            (Sample.opp_100_105 "Uniswap V2" "SushiSwap" 0) a _ Hrun).
  vm_compute. reflexivity.
Defined.

Lemma orNumber_nonzero (x : option Q) (d : Q) :
  Qeq_bool d 0 = false -> Qeq_bool (Js.orNumber x d) 0 = false.
Proof.
  intros Hd. unfold Js.orNumber. destruct x as [q |]; [| assumption].
  destruct (Qeq_bool q 0) eqn:Hq; assumption.
Qed.

Lemma getDexFee_default (self : ProfitCalculator.t) (name : string) :
  (forall d, ProfitCalculator.findDex self name = Some d ->
             Qeq_bool (dexFeePercentage d) 0 = true) ->
  ProfitCalculator.getDexFee self name = 30%Q.
Proof.
  intros H. unfold ProfitCalculator.getDexFee.
  destruct (ProfitCalculator.findDex self name) as [d |]; [| reflexivity].
  cbn [option_map Js.orNumber]. now rewrite (H d eq_refl).
Qed.

(** X3.  The fee of a venue is never zero: a venue that is not configured,
    or is configured with fee 0, is charged the default 30 basis points; for
    two such venues the fees on a trade are amount * 60 / 10000. *)
Theorem X3_venue_fee_never_zero (self : ProfitCalculator.t)
    (amount : Z) (buyVenue sellVenue : string) :
  Qeq_bool (ProfitCalculator.getDexFee self buyVenue) 0 = false
  /\ ((forall d, ProfitCalculator.findDex self buyVenue = Some d ->
                 Qeq_bool (dexFeePercentage d) 0 = true) ->
      ProfitCalculator.getDexFee self buyVenue = 30%Q)
  /\ ((forall d, ProfitCalculator.findDex self buyVenue = Some d ->
                 Qeq_bool (dexFeePercentage d) 0 = true) ->
      (forall d, ProfitCalculator.findDex self sellVenue = Some d ->
                 Qeq_bool (dexFeePercentage d) 0 = true) ->
      ProfitCalculator.calculateDexFees self amount buyVenue sellVenue
      = Ok (Z.quot (amount * 60) 10000)).
Proof.
  split; [apply orNumber_nonzero; reflexivity |].
  split; [apply getDexFee_default |].
  intros Hbuy Hsell. unfold ProfitCalculator.calculateDexFees.
  rewrite (getDexFee_default self buyVenue Hbuy).
  rewrite (getDexFee_default self sellVenue Hsell).
  change (BigNumber.fromNumber (30 + 30)%Q) with (@Ok Z 60).
  cbn [bind]. apply div_Ok. discriminate.
Qed.

(** X3 on a configuration whose Uniswap V2 fee is 0, with an unknown
    second venue: 60 basis points on an amount of 1.0. *)
Lemma X3_venue_fee_never_zero_witness :
  ProfitCalculator.getDexFee (ProfitCalculator.new Sample.zeroVenueFeeConfig)
    "Uniswap V2" = 30%Q
  /\ ProfitCalculator.calculateDexFees (ProfitCalculator.new Sample.zeroVenueFeeConfig)
       (10 ^ 18) "Uniswap V2" "PancakeSwap" = Ok (6 * 10 ^ 15).
Proof.
  assert (Hbuy : forall d,
             ProfitCalculator.findDex (ProfitCalculator.new Sample.zeroVenueFeeConfig)
               "Uniswap V2" = Some d ->
             Qeq_bool (dexFeePercentage d) 0 = true).
  { intros d Hd. vm_compute in Hd. injection Hd as <-. reflexivity. }
  assert (Hsell : forall d,
             ProfitCalculator.findDex (ProfitCalculator.new Sample.zeroVenueFeeConfig)
               "PancakeSwap" = Some d ->
             Qeq_bool (dexFeePercentage d) 0 = true).
  { intros d Hd. vm_compute in Hd. discriminate Hd. }
  split.
  - exact (proj1 (proj2 (X3_venue_fee_never_zero
                           (ProfitCalculator.new Sample.zeroVenueFeeConfig)
                           0 "Uniswap V2" "PancakeSwap")) Hbuy).
  - rewrite (proj2 (proj2 (X3_venue_fee_never_zero
                             (ProfitCalculator.new Sample.zeroVenueFeeConfig)
                             (10 ^ 18) "Uniswap V2" "PancakeSwap")) Hbuy Hsell).
    reflexivity.
Defined.

(* ================================================================== *)
(** ** PriceAggregator: the registry and the monitored pairs *)

Lemma JsMap_get_set {V : Type} (k k' : string) (v : V) (m : list (string * V)) :
  JsMap.get (JsMap.set k v m) k' = if String.eqb k k' then Some v else JsMap.get m k'.
Proof.
  induction m as [| [k0 v0] m IH]; cbn.
  - destruct (String.eqb k k'); reflexivity.
  - destruct (String.eqb_spec k0 k) as [-> | Hne]; cbn.
    + destruct (String.eqb k k'); reflexivity.
    + destruct (String.eqb_spec k0 k') as [-> | Hne'].
      * destruct (String.eqb_spec k k') as [-> | _]; [contradiction | reflexivity].
      * exact IH.
Qed.

Lemma JsMap_get_None {V : Type} (m : list (string * V)) (k : string) :
  ~ In k (JsMap.keys m) -> JsMap.get m k = None.
Proof.
  induction m as [| [k0 v0] m IH]; cbn; intros Hnotin; [reflexivity |].
  destruct (String.eqb_spec k0 k) as [-> | Hne]; [exfalso; auto | auto].
Qed.

Lemma new_scanners_app (scs : list PriceAggregator.DexScanner)
    (sc : PriceAggregator.DexScanner) :
  PriceAggregator.scanners (PriceAggregator.new (scs ++ [sc]))
  = JsMap.set (PriceAggregator.getName sc) sc
      (PriceAggregator.scanners (PriceAggregator.new scs)).
Proof.
  unfold PriceAggregator.new. cbn [PriceAggregator.scanners].
  rewrite fold_left_app. reflexivity.
Qed.

Lemma new_scanners_NoDup (scs : list PriceAggregator.DexScanner) :
  NoDup (JsMap.keys (PriceAggregator.scanners (PriceAggregator.new scs))).
Proof.
  induction scs as [| sc scs IH] using rev_ind.
  - constructor.
  - rewrite new_scanners_app. now apply JsMap_set_NoDup.
Qed.

(** X4.  The registry holds one scanner per name: registering a second
    scanner under a name already taken replaces the first, so a lookup by
    name finds the scanner registered last under it; adding and removing
    pairs leave the registry as it is. *)
Theorem X4_registry_last_registration_wins (scs : list PriceAggregator.DexScanner)
    (name tokenA tokenB : string) :
  NoDup (JsMap.keys (PriceAggregator.scanners (PriceAggregator.new scs)))
  /\ PriceAggregator.getScanner (PriceAggregator.new scs) name
     = find (fun sc => String.eqb (PriceAggregator.getName sc) name) (rev scs)
  /\ PriceAggregator.getScanner
       (PriceAggregator.addPair (PriceAggregator.new scs) tokenA tokenB) name
     = PriceAggregator.getScanner (PriceAggregator.new scs) name
  /\ PriceAggregator.getScanner
       (PriceAggregator.removePair (PriceAggregator.new scs) tokenA tokenB) name
     = PriceAggregator.getScanner (PriceAggregator.new scs) name.
Proof.
  split; [apply new_scanners_NoDup |].
  split; [| split; reflexivity].
  unfold PriceAggregator.getScanner.
  induction scs as [| sc scs IH] using rev_ind.
  - reflexivity.
  - rewrite new_scanners_app, JsMap_get_set, rev_unit. cbn [find].
    destruct (String.eqb (PriceAggregator.getName sc) name); [reflexivity | exact IH].
Qed.

Lemma JsSet_delete_NoDup (s : list string) (k : string) :
  NoDup s -> NoDup (JsSet.delete k s).
Proof. intros H. unfold JsSet.delete. now apply NoDup_filter. Qed.

Lemma JsSet_has_delete (s : list string) (k : string) :
  JsSet.has (JsSet.delete k s) k = false.
Proof.
  destruct (JsSet.has (JsSet.delete k s) k) eqn:H; [| reflexivity].
  apply JsSet_has_true in H. unfold JsSet.delete in H.
  apply filter_In in H. destruct H as [_ H].
  rewrite String.eqb_refl in H. discriminate H.
Qed.

Lemma JsSet_delete_absent (s : list string) (k : string) :
  ~ In k s -> JsSet.delete k s = s.
Proof.
  unfold JsSet.delete. induction s as [| x s IH]; cbn; intros Hnotin; [reflexivity |].
  destruct (String.eqb_spec x k) as [-> | Hne]; cbn.
  - exfalso. apply Hnotin. now left.
  - f_equal. apply IH. intros Hin. apply Hnotin. now right.
Qed.

Lemma JsSet_delete_add_absent (s : list string) (k : string) :
  ~ In k s -> JsSet.delete k (JsSet.add k s) = s.
Proof.
  intros Hnotin. unfold JsSet.add.
  destruct (JsSet.has s k) eqn:Hhas.
  - apply JsSet_has_true in Hhas. contradiction.
  - unfold JsSet.delete. rewrite filter_app. cbn. rewrite String.eqb_refl. cbn.
    rewrite app_nil_r. now apply JsSet_delete_absent.
Qed.

Lemma addPairs_NoDup (pairs : list (string * string)) :
  forall self : PriceAggregator.t,
    NoDup (PriceAggregator.monitoredPairs self) ->
    NoDup (PriceAggregator.monitoredPairs (PriceAggregator.addPairs self pairs)).
Proof.
  unfold PriceAggregator.addPairs.
  induction pairs as [| [a b] pairs IH]; intros self Hnd; cbn [fold_left].
  - assumption.
  - apply IH. cbn. now apply JsSet_add_NoDup.
Qed.

(** X5.  The monitored pairs never hold a key twice: a fresh aggregator
    monitors nothing, and [addPair], [addPairs] and [removePair] keep the
    keys distinct; after [addPair] the pair is monitored, in either order
    of its tokens. *)
Theorem X5_monitored_pairs_distinct (self : PriceAggregator.t)
    (scs : list PriceAggregator.DexScanner) (pairs : list (string * string))
    (tokenA tokenB : string) :
  PriceAggregator.monitoredPairs (PriceAggregator.new scs) = []
  /\ NoDup (PriceAggregator.monitoredPairs
              (PriceAggregator.addPairs (PriceAggregator.new scs) pairs))
  /\ (NoDup (PriceAggregator.monitoredPairs self) ->
      NoDup (PriceAggregator.monitoredPairs (PriceAggregator.addPair self tokenA tokenB))
      /\ NoDup (PriceAggregator.monitoredPairs
                  (PriceAggregator.removePair self tokenA tokenB))
      /\ NoDup (PriceAggregator.monitoredPairs (PriceAggregator.addPairs self pairs)))
  /\ JsSet.has (PriceAggregator.monitoredPairs (PriceAggregator.addPair self tokenA tokenB))
       (PriceAggregator.getPairKey tokenB tokenA) = true.
Proof.
  split; [reflexivity |].
  split; [apply addPairs_NoDup; constructor |].
  split.
  - intros Hnd. split; [| split].
    + cbn. now apply JsSet_add_NoDup.
    + cbn. now apply JsSet_delete_NoDup.
    + now apply addPairs_NoDup.
  - cbn. rewrite (getPairKey_comm tokenB tokenA).
    apply JsSet_has_true, JsSet_add_In.
Qed.

(** X5 on the pairs (WETH, USDC), (USDC, WETH), (WETH, WETH): two keys. *)
Lemma X5_monitored_pairs_distinct_witness :
  NoDup (PriceAggregator.monitoredPairs
           (PriceAggregator.addPairs
              (PriceAggregator.addPair Sample.twoVenues Sample.WETH Sample.USDC)
              [(Sample.USDC_checksummed, Sample.WETH_checksummed);
               (Sample.WETH, Sample.WETH)]))
  /\ PriceAggregator.monitoredPairCount
       (PriceAggregator.addPairs
          (PriceAggregator.addPair Sample.twoVenues Sample.WETH Sample.USDC)
          [(Sample.USDC_checksummed, Sample.WETH_checksummed);
           (Sample.WETH, Sample.WETH)]) = 2%nat.
Proof.
  split; [| reflexivity].
  refine (proj2 (proj2 (proj1 (proj2 (proj2
            (X5_monitored_pairs_distinct
               (PriceAggregator.addPair Sample.twoVenues Sample.WETH Sample.USDC)
               [] [(Sample.USDC_checksummed, Sample.WETH_checksummed);
                   (Sample.WETH, Sample.WETH)]
               Sample.WETH Sample.USDC))) _))).
  cbn. constructor; [intros [] | constructor].
Defined.



(** A token with a dash is accepted and read back at the first two dashes
    of the key. *)
Example pair_with_dash_read_back :
  PriceAggregator.getMonitoredPairs (PriceAggregator.addPair (PriceAggregator.new []) "b-a" "c")
  = [("b", "a")].
Proof. reflexivity. Qed.

(** X7.  For tokens without a dash, reading a pair key back gives the two
    lower-cased tokens in lexicographic order, and that is what
    [getMonitoredPairs] reports for the pair, not the tokens as they were
    given to [addPair]. *)
Theorem X7_pair_key_round_trip (scs : list PriceAggregator.DexScanner)
    (tokenA tokenB : string) :
  dashFree tokenA = true -> dashFree tokenB = true ->
  PriceAggregator.parsePairKey (PriceAggregator.getPairKey tokenA tokenB)
  = Js.sort2 (Js.toLowerCase tokenA) (Js.toLowerCase tokenB)
  /\ PriceAggregator.getMonitoredPairs
       (PriceAggregator.addPair (PriceAggregator.new scs) tokenA tokenB)
     = [Js.sort2 (Js.toLowerCase tokenA) (Js.toLowerCase tokenB)]
  /\ String.leb (fst (Js.sort2 (Js.toLowerCase tokenA) (Js.toLowerCase tokenB)))
                (snd (Js.sort2 (Js.toLowerCase tokenA) (Js.toLowerCase tokenB))) = true.
Proof.
  intros Ha Hb. split; [now apply parsePairKey_getPairKey |].
  split; [| apply sort2_ordered].
  unfold PriceAggregator.getMonitoredPairs. cbn.
  now rewrite parsePairKey_getPairKey.
Qed.

(** X7 on the pair (WETH, USDC) given with checksum capitals: reported as
    (usdc, weth) in lower case. *)
Lemma X7_pair_key_round_trip_witness :
  PriceAggregator.getMonitoredPairs
    (PriceAggregator.addPair (PriceAggregator.new [])
       Sample.WETH_checksummed Sample.USDC_checksummed)
  = [(Sample.USDC, Sample.WETH)].
Proof.
  rewrite (proj1 (proj2 (X7_pair_key_round_trip []
                           Sample.WETH_checksummed Sample.USDC_checksummed
                           eq_refl eq_refl))).
  reflexivity.
Defined.

(** X8.  When every monitored pair was added with tokens that hold no dash
    (as every address does), the tokens of every opportunity of a full scan
    are the lower-cased, lexicographically ordered tokens of a monitored
    pair: tokenIn is never after tokenOut, whatever order and letter case
    the pair was added with.  (A token with a dash is accepted by [addPair]
    and breaks this: the key is read back at its first two dashes.) *)
Theorem X8_full_scan_tokens_are_canonical (clock : nat -> Z)
    (self : PriceAggregator.t) (n n' : nat) (r : list ArbitrageOpportunity)
    (o : ArbitrageOpportunity) :
  Forall builtKey (PriceAggregator.monitoredPairs self) ->
  PriceAggregator.detectOpportunities clock self n = (Ok r, n') ->
  In o r ->
  String.leb (tokenIn o) (tokenOut o) = true
  /\ Js.toLowerCase (tokenIn o) = tokenIn o
  /\ Js.toLowerCase (tokenOut o) = tokenOut o.
Proof.
  intros Hkeys Hrun Hin.
  apply detectOpportunities_synthesized in Hrun.
  rewrite Forall_forall in Hrun. destruct (Hrun o Hin) as (key & Hkey & Hti & Hto & _).
  rewrite Forall_forall in Hkeys. destruct (Hkeys key Hkey) as (a & b & Ha & Hb & ->).
  rewrite parsePairKey_getPairKey in Hti, Hto by assumption.
  rewrite Hti, Hto. split; [apply sort2_ordered |].
  destruct (sort2_cases (Js.toLowerCase a) (Js.toLowerCase b)) as [-> | ->];
    cbn [fst snd]; split; apply toLowerCase_idempotent.
Qed.

(** X8 on the pair added as (WETH, USDC): the opportunity found trades
    usdc for weth. *)
Lemma X8_full_scan_tokens_are_canonical_witness :
  exists o : ArbitrageOpportunity,
    fst (PriceAggregator.detectOpportunities Sample.clock
           (PriceAggregator.addPair Sample.twoVenues
              Sample.WETH_checksummed Sample.USDC_checksummed) 0%nat) = Ok [o]
    /\ String.leb (tokenIn o) (tokenOut o) = true
    /\ Js.toLowerCase (tokenIn o) = tokenIn o
    /\ Js.toLowerCase (tokenOut o) = tokenOut o.
Proof.
  destruct (PriceAggregator.detectOpportunities Sample.clock
              (PriceAggregator.addPair Sample.twoVenues
                 Sample.WETH_checksummed Sample.USDC_checksummed) 0%nat)
    as [res n'] eqn:Hrun.
  destruct res as [[| o [| o' r]] | e]; try (vm_compute in Hrun; discriminate Hrun).
  exists o. split; [reflexivity |].
  refine (X8_full_scan_tokens_are_canonical Sample.clock
            (PriceAggregator.addPair Sample.twoVenues
               Sample.WETH_checksummed Sample.USDC_checksummed)
            0%nat n' [o] o _ Hrun (or_introl eq_refl)).
  constructor; [| constructor].
  exists Sample.WETH_checksummed, Sample.USDC_checksummed.
  split; [reflexivity |]. split; reflexivity.
Defined.

Lemma JsMap_set_length {V : Type} (k : string) (v : V) (m : list (string * V)) :
  (List.length (JsMap.set k v m) <= S (List.length m))%nat.
Proof.
  induction m as [| [k0 v0] m IH]; cbn; [lia |].
  destruct (String.eqb k0 k); cbn; lia.
Qed.

Lemma fetchPrices_length (self : PriceAggregator.t) (tokenA tokenB : string) :
  (List.length (PriceAggregator.fetchPrices self tokenA tokenB)
   <= List.length (filter (fun entry => PriceAggregator.isReady (snd entry))
                          (PriceAggregator.scanners self)))%nat.
Proof.
  unfold PriceAggregator.fetchPrices.
  assert (Hgen : forall (scs : list (string * PriceAggregator.DexScanner))
                        (acc : list (string * Price)),
             (List.length
                (fold_left
                   (fun prices entry =>
                      let '(dexName, scanner) := entry in
                      if negb (PriceAggregator.isReady scanner) then prices
                      else match PriceAggregator.getPrice scanner tokenA tokenB with
                           | Ok p => JsMap.set dexName p prices
                           | Throw _ => prices
                           end) scs acc)
              <= List.length acc
                 + List.length (filter (fun entry => PriceAggregator.isReady (snd entry))
                                       scs))%nat).
  { induction scs as [| [name sc] scs IH]; intros acc; cbn [fold_left filter snd].
    - cbn. lia.
    - destruct (PriceAggregator.isReady sc); cbn [negb List.length].
      + destruct (PriceAggregator.getPrice sc tokenA tokenB) as [p | e].
        * specialize (IH (JsMap.set name p acc)).
          pose proof (JsMap_set_length name p acc). lia.
        * specialize (IH acc). lia.
      + apply IH. }
  specialize (Hgen (PriceAggregator.scanners self) []). cbn in Hgen. exact Hgen.
Qed.

(** X9.  With fewer than two ready scanners the scan of a pair returns no
    opportunity and does not read the clock, whatever the scanners quote. *)
Theorem X9_fewer_than_two_ready_scanners (clock : nat -> Z)
    (self : PriceAggregator.t) (tokenA tokenB : string) (n : nat) :
  (List.length (filter (fun entry => PriceAggregator.isReady (snd entry))
                       (PriceAggregator.scanners self)) < 2)%nat ->
  PriceAggregator.detectOpportunitiesForPair clock self tokenA tokenB n = (Ok [], n).
Proof.
  intros Hfew. unfold PriceAggregator.detectOpportunitiesForPair.
  pose proof (fetchPrices_length self tokenA tokenB) as Hlen.
  destruct (Nat.ltb_spec (List.length (PriceAggregator.fetchPrices self tokenA tokenB)) 2);
    [reflexivity | lia].
Qed.

(** X9 on an aggregator with one scanner. *)
Lemma X9_fewer_than_two_ready_scanners_witness :
  PriceAggregator.detectOpportunitiesForPair Sample.clock
    (PriceAggregator.new [Sample.fixedScanner "Uniswap V2" Sample.poolA (100 * 10 ^ 18)])
    Sample.WETH Sample.USDC 0%nat = (Ok [], 0%nat).
Proof.
  apply (X9_fewer_than_two_ready_scanners Sample.clock
           (PriceAggregator.new
              [Sample.fixedScanner "Uniswap V2" Sample.poolA (100 * 10 ^ 18)])
           Sample.WETH Sample.USDC 0%nat).
  cbn. lia.
Defined.

(* ================================================================== *)
(** ** PriceAggregator: where the prices of an opportunity come from *)

Lemma fetchPrices_get (self : PriceAggregator.t) (tokenA tokenB dex : string) :
  NoDup (JsMap.keys (PriceAggregator.scanners self)) ->
  JsMap.get (PriceAggregator.fetchPrices self tokenA tokenB) dex
  = quoteOf self tokenA tokenB dex.
Proof.
  unfold quoteOf, PriceAggregator.getScanner, PriceAggregator.fetchPrices.
  assert (Hgen : forall (scs : list (string * PriceAggregator.DexScanner))
                        (acc : list (string * Price)),
             NoDup (JsMap.keys scs) ->
             JsMap.get
               (fold_left
                  (fun prices entry =>
                     let '(dexName, scanner) := entry in
                     if negb (PriceAggregator.isReady scanner) then prices
                     else match PriceAggregator.getPrice scanner tokenA tokenB with
                          | Ok p => JsMap.set dexName p prices
                          | Throw _ => prices
                          end) scs acc) dex
             = match JsMap.get scs dex with
               | Some scanner =>
                   if PriceAggregator.isReady scanner then
                     match PriceAggregator.getPrice scanner tokenA tokenB with
                     | Ok p => Some p
                     | Throw _ => JsMap.get acc dex
                     end
                   else JsMap.get acc dex
               | None => JsMap.get acc dex
               end).
  { induction scs as [| [name sc] scs IH]; intros acc Hnd; cbn [fold_left JsMap.get].
    - reflexivity.
    - inversion Hnd as [| ? ? Hnotin Hnd']; subst.
      rewrite (IH _ Hnd').
      destruct (String.eqb_spec name dex) as [-> | Hne].
      + rewrite (JsMap_get_None scs dex Hnotin).
        destruct (PriceAggregator.isReady sc); cbn [negb]; [| reflexivity].
        destruct (PriceAggregator.getPrice sc tokenA tokenB); [| reflexivity].
        rewrite JsMap_get_set, String.eqb_refl. reflexivity.
      + assert (Hacc : JsMap.get
                         (if negb (PriceAggregator.isReady sc) then acc
                          else match PriceAggregator.getPrice sc tokenA tokenB with
                               | Ok p => JsMap.set name p acc
                               | Throw _ => acc
                               end) dex = JsMap.get acc dex).
        { destruct (PriceAggregator.isReady sc); cbn [negb]; [| reflexivity].
          destruct (PriceAggregator.getPrice sc tokenA tokenB); [| reflexivity].
          rewrite JsMap_get_set.
          destruct (String.eqb_spec name dex); [contradiction | reflexivity]. }
        rewrite Hacc. reflexivity. }
  intros Hnd. rewrite (Hgen _ [] Hnd). cbn [JsMap.get].
  destruct (JsMap.get (PriceAggregator.scanners self) dex) as [sc |]; [| reflexivity].
  destruct (PriceAggregator.isReady sc); [| reflexivity].
  destruct (PriceAggregator.getPrice sc tokenA tokenB); reflexivity.
Qed.

Section Provenance.

Variable clock : nat -> Z.

Lemma compareWith_invariant (P : ArbitrageOpportunity -> Prop)
    (prices : list (string * Price)) (tokenA tokenB dex1 : string)
    (later : list string) :
  (forall bd sd bp sp m m' o,
      JsMap.get prices bd = Some bp -> JsMap.get prices sd = Some sp ->
      PriceAggregator.createOpportunityIfProfitable clock tokenA tokenB bd sd bp sp m
      = (Ok (Some o), m') -> P o) ->
  forall (opps r : list ArbitrageOpportunity) (n n' : nat),
    Forall P opps ->
    PriceAggregator.compareWith clock prices tokenA tokenB dex1 later opps n
    = (Ok r, n') ->
    Forall P r.
Proof.
  intros Hcreate. induction later as [| dex2 later IH]; intros opps r n n' Hall H.
  - cbn in H. unfold ret in H. inversion H; subst. assumption.
  - cbn [PriceAggregator.compareWith] in H.
    apply cbind_Ok_inv in H. destruct H as (p1 & m1 & Hp1 & H).
    apply cbind_Ok_inv in H. destruct H as (p2 & m2 & Hp2 & H).
    apply cbind_Ok_inv in H. destruct H as (o1 & m3 & Ho1 & H).
    apply cbind_Ok_inv in H. destruct H as (o2 & m4 & Ho2 & H).
    apply getPriceOf_Ok in Hp1, Hp2. destruct Hp1 as [Hp1 _]. destruct Hp2 as [Hp2 _].
    apply IH in H; [assumption |].
    apply push_Forall; [apply push_Forall; [assumption |] |].
    + intros o' ->. exact (Hcreate _ _ _ _ _ _ _ Hp1 Hp2 Ho1).
    + intros o' ->. exact (Hcreate _ _ _ _ _ _ _ Hp2 Hp1 Ho2).
Qed.

Lemma compareAll_invariant (P : ArbitrageOpportunity -> Prop)
    (prices : list (string * Price)) (tokenA tokenB : string)
    (dexNames : list string) :
  (forall bd sd bp sp m m' o,
      JsMap.get prices bd = Some bp -> JsMap.get prices sd = Some sp ->
      PriceAggregator.createOpportunityIfProfitable clock tokenA tokenB bd sd bp sp m
      = (Ok (Some o), m') -> P o) ->
  forall (opps r : list ArbitrageOpportunity) (n n' : nat),
    Forall P opps ->
    PriceAggregator.compareAll clock prices tokenA tokenB dexNames opps n = (Ok r, n') ->
    Forall P r.
Proof.
  intros Hcreate. induction dexNames as [| dex1 later IH]; intros opps r n n' Hall H.
  - cbn in H. unfold ret in H. inversion H; subst. assumption.
  - cbn [PriceAggregator.compareAll] in H.
    apply cbind_Ok_inv in H. destruct H as (opps' & m & Hinner & H).
    apply (IH opps' r m n'); [| exact H].
    eapply compareWith_invariant; [exact Hcreate | exact Hall | exact Hinner].
Qed.

(** The prices of every opportunity of a pair scan are the quotes fetched
    for its two venues. *)
Lemma detectOpportunitiesForPair_quotes (self : PriceAggregator.t)
    (tokenA tokenB : string) (n n' : nat) (r : list ArbitrageOpportunity) :
  PriceAggregator.detectOpportunitiesForPair clock self tokenA tokenB n = (Ok r, n') ->
  Forall (fun o =>
            exists pb ps,
              JsMap.get (PriceAggregator.fetchPrices self tokenA tokenB) (buyDex o)
              = Some pb
              /\ JsMap.get (PriceAggregator.fetchPrices self tokenA tokenB) (sellDex o)
                 = Some ps
              /\ buyPrice o = price pb /\ sellPrice o = price ps
              /\ buyPoolAddress o
                 = Js.orString (poolAddress pb) PriceAggregator.AddressZero
              /\ sellPoolAddress o
                 = Js.orString (poolAddress ps) PriceAggregator.AddressZero) r.
Proof.
  unfold PriceAggregator.detectOpportunitiesForPair.
  destruct (List.length _ <? 2)%nat.
  - unfold ret. intros H. inversion H; subst. constructor.
  - intros H. eapply compareAll_invariant; [| | exact H]; [| constructor].
    intros bd sd bp sp m m' o Hbp Hsp Hcreate.
    exists bp, sp.
    unfold PriceAggregator.createOpportunityIfProfitable in Hcreate.
    destruct (price sp <=? price bp); [unfold ret in Hcreate; discriminate Hcreate |].
    unfold cbind at 1 in Hcreate. unfold lift at 1 in Hcreate.
    destruct (BigNumber.div _ _); [| discriminate Hcreate].
    unfold cbind at 1 in Hcreate. unfold lift at 1 in Hcreate.
    destruct (BigNumber.toNumber _); [| discriminate Hcreate].
    cbv zeta in Hcreate.
    destruct (Js.ltb _ _); [unfold ret in Hcreate; discriminate Hcreate |].
    change (BigNumber.parseEther "10") with (@Ok Z (10 * 10 ^ 18)) in Hcreate.
    unfold cbind, lift, ret, PriceAggregator.generateOpportunityId, Date_now in Hcreate.
    apply clocked_Some_inj in Hcreate. subst o.
    cbn [buyDex sellDex buyPrice sellPrice buyPoolAddress sellPoolAddress].
    repeat (split; [first [assumption | reflexivity] |]). reflexivity.
Qed.

End Provenance.

(** X10.  In the scan of a pair by an aggregator with one scanner per name,
    the buy and sell price and the two pool addresses of every opportunity
    are those of the quotes that the ready scanners named buyDex and sellDex
    returned for the pair (the zero address standing for a missing pool
    address); and the result never holds both directions of a venue pair. *)
Theorem X10_prices_are_the_venues_quotes (clock : nat -> Z)
    (self : PriceAggregator.t) (tokenA tokenB : string) (n n' : nat)
    (r : list ArbitrageOpportunity) (o : ArbitrageOpportunity) :
  NoDup (JsMap.keys (PriceAggregator.scanners self)) ->
  PriceAggregator.detectOpportunitiesForPair clock self tokenA tokenB n = (Ok r, n') ->
  In o r ->
  (exists pb ps : Price,
      quoteOf self tokenA tokenB (buyDex o) = Some pb
      /\ quoteOf self tokenA tokenB (sellDex o) = Some ps
      /\ buyPrice o = price pb /\ sellPrice o = price ps
      /\ buyPoolAddress o = Js.orString (poolAddress pb) PriceAggregator.AddressZero
      /\ sellPoolAddress o = Js.orString (poolAddress ps) PriceAggregator.AddressZero)
  /\ (forall o' : ArbitrageOpportunity,
         In o' r -> buyDex o' = sellDex o ->
         String.eqb (sellDex o') (buyDex o) = false).
Proof.
  intros Hnd Hrun Hin.
  pose proof (detectOpportunitiesForPair_quotes clock self tokenA tokenB n n' r Hrun)
    as Hquotes.
  pose proof (detectOpportunitiesForPair_synthesized clock self tokenA tokenB n n' r Hrun)
    as Hsynth.
  rewrite Forall_forall in Hquotes, Hsynth.
  destruct (Hquotes o Hin) as (pb & ps & Hpb & Hps & Hbuy & Hsell & Hpools).
  split.
  - exists pb, ps. rewrite <- !fetchPrices_get by assumption. auto.
  - intros o' Hin' Hbs.
    destruct (String.eqb_spec (sellDex o') (buyDex o)) as [Hsb | _]; [| reflexivity].
    exfalso.
    destruct (Hquotes o' Hin') as (pb' & ps' & Hpb' & Hps' & Hbuy' & Hsell' & _).
    destruct (Hsynth o Hin) as (_ & _ & _ & Hlt & _).
    destruct (Hsynth o' Hin') as (_ & _ & _ & Hlt' & _).
    rewrite Hbs in Hpb'. rewrite Hsb in Hps'.
    assert (pb' = ps) by congruence. assert (ps' = pb) by congruence. subst.
    lia.
Qed.

(** X10 on two venues quoting 100 and 105. *)
Lemma X10_prices_are_the_venues_quotes_witness :
  exists o : ArbitrageOpportunity,
    fst (PriceAggregator.detectOpportunitiesForPair Sample.clock Sample.twoVenues
           Sample.WETH Sample.USDC 0%nat) = Ok [o]
    /\ exists pb ps : Price,
         quoteOf Sample.twoVenues Sample.WETH Sample.USDC (buyDex o) = Some pb
         /\ quoteOf Sample.twoVenues Sample.WETH Sample.USDC (sellDex o) = Some ps
         /\ buyPrice o = price pb /\ sellPrice o = price ps
         /\ buyPoolAddress o = Js.orString (poolAddress pb) PriceAggregator.AddressZero
         /\ sellPoolAddress o = Js.orString (poolAddress ps) PriceAggregator.AddressZero.
Proof.
  destruct (PriceAggregator.detectOpportunitiesForPair Sample.clock Sample.twoVenues
              Sample.WETH Sample.USDC 0%nat) as [res n'] eqn:Hrun.
  destruct res as [[| o [| o' r]] | e]; try (vm_compute in Hrun; discriminate Hrun).
  exists o. split; [reflexivity |].
  refine (proj1 (X10_prices_are_the_venues_quotes Sample.clock Sample.twoVenues
                   Sample.WETH Sample.USDC 0%nat n' [o] o _ Hrun (or_introl eq_refl))).
  apply new_scanners_NoDup.
Defined.

(* ================================================================== *)
(** ** PriceAggregator: a quote of zero *)

Lemma JsMap_get_Some_In {V : Type} (m : list (string * V)) (k : string) (v : V) :
  JsMap.get m k = Some v -> In k (JsMap.keys m).
Proof.
  induction m as [| [k0 v0] m IH]; cbn; intros H; [discriminate H |].
  destruct (String.eqb_spec k0 k) as [-> | Hne]; [now left | right; auto].
Qed.

Lemma two_distinct_members {A : Type} (l : list A) (a b : A) :
  In a l -> In b l -> a <> b -> (2 <= List.length l)%nat.
Proof.
  intros Ha Hb Hne. destruct l as [| x [| y l]]; cbn in *.
  - contradiction.
  - destruct Ha as [<- | []]. destruct Hb as [<- | []]. contradiction.
  - lia.
Qed.

Section ZeroQuote.

Variable clock : nat -> Z.

Lemma cbind_throws {A B : Type} (c : Clocked A) (k : A -> Clocked B) (n : nat) :
  throws (c n) \/ (exists a m, c n = (Ok a, m) /\ throws (k a m)) ->
  throws (cbind c k n).
Proof.
  unfold throws, cbind. intros [(e & m & ->) | (a & m & -> & Hk)]; eauto.
Qed.

Lemma clocked_cases {A : Type} (x : result A * nat) :
  throws x \/ exists a m, x = (Ok a, m).
Proof.
  destruct x as [[a | e] m]; [right | left]; unfold throws; eauto.
Qed.

Lemma createOpportunityIfProfitable_zero_buy
    (tokenA tokenB bd sd : string) (bp sp : Price) (n : nat) :
  price bp = 0 -> 0 < price sp ->
  PriceAggregator.createOpportunityIfProfitable clock tokenA tokenB bd sd bp sp n
  = (Throw DivisionByZero, n).
Proof.
  intros Hzero Hpos. unfold PriceAggregator.createOpportunityIfProfitable.
  destruct (Z.leb_spec (price sp) (price bp)); [lia |].
  unfold cbind at 1. unfold lift at 1. unfold BigNumber.div.
  rewrite Hzero. reflexivity.
Qed.

Lemma compareWith_zero_quote (prices : list (string * Price))
    (tokenA tokenB zero other : string) (p0 p1 : Price) :
  JsMap.get prices zero = Some p0 -> price p0 = 0 ->
  JsMap.get prices other = Some p1 -> 0 < price p1 ->
  forall (later : list string) (dex1 : string) (opps : list ArbitrageOpportunity)
         (n : nat),
    (dex1 = zero /\ In other later) \/ (dex1 = other /\ In zero later) ->
    throws (PriceAggregator.compareWith clock prices tokenA tokenB dex1 later opps n).
Proof.
  intros Hp0 Hzero Hp1 Hpos.
  induction later as [| dex2 later IH]; intros dex1 opps n Hcase.
  - destruct Hcase as [[_ []] | [_ []]].
  - cbn [PriceAggregator.compareWith].
    assert (Hhere : (dex1 = zero /\ dex2 = other) \/ (dex1 = other /\ dex2 = zero)
                    \/ ((dex1 = zero /\ In other later)
                        \/ (dex1 = other /\ In zero later))).
    { destruct Hcase as [[-> [-> | Hin]] | [-> [-> | Hin]]]; auto. }
    clear Hcase. destruct Hhere as [[-> ->] | [[-> ->] | Hlater]].
    + apply cbind_throws. right. exists p0, n. split.
      { unfold PriceAggregator.getPriceOf. now rewrite Hp0. }
      apply cbind_throws. right. exists p1, n. split.
      { unfold PriceAggregator.getPriceOf. now rewrite Hp1. }
      apply cbind_throws. left.
      rewrite createOpportunityIfProfitable_zero_buy by assumption.
      unfold throws. eauto.
    + apply cbind_throws. right. exists p1, n. split.
      { unfold PriceAggregator.getPriceOf. now rewrite Hp1. }
      apply cbind_throws. right. exists p0, n. split.
      { unfold PriceAggregator.getPriceOf. now rewrite Hp0. }
      apply cbind_throws. right. exists None, n. split.
      { apply createOpportunityIfProfitable_not_above. lia. }
      apply cbind_throws. left.
      rewrite createOpportunityIfProfitable_zero_buy by assumption.
      unfold throws. eauto.
    + apply cbind_throws.
      destruct (clocked_cases (PriceAggregator.getPriceOf prices dex1 n))
        as [Ht | (q1 & m1 & Hq1)]; [now left | right].
      exists q1, m1. split; [assumption |].
      apply cbind_throws.
      destruct (clocked_cases (PriceAggregator.getPriceOf prices dex2 m1))
        as [Ht | (q2 & m2 & Hq2)]; [now left | right].
      exists q2, m2. split; [assumption |].
      apply cbind_throws.
      destruct (clocked_cases
                  (PriceAggregator.createOpportunityIfProfitable clock tokenA tokenB
                     dex1 dex2 q1 q2 m2)) as [Ht | (o1 & m3 & Ho1)]; [now left | right].
      exists o1, m3. split; [assumption |].
      apply cbind_throws.
      destruct (clocked_cases
                  (PriceAggregator.createOpportunityIfProfitable clock tokenA tokenB
                     dex2 dex1 q2 q1 m3)) as [Ht | (o2 & m4 & Ho2)]; [now left | right].
      exists o2, m4. split; [assumption |].
      apply IH. exact Hlater.
Qed.

Lemma compareAll_zero_quote (prices : list (string * Price))
    (tokenA tokenB zero other : string) (p0 p1 : Price) :
  JsMap.get prices zero = Some p0 -> price p0 = 0 ->
  JsMap.get prices other = Some p1 -> 0 < price p1 ->
  forall (dexNames : list string) (opps : list ArbitrageOpportunity) (n : nat),
    In zero dexNames -> In other dexNames ->
    throws (PriceAggregator.compareAll clock prices tokenA tokenB dexNames opps n).
Proof.
  intros Hp0 Hzero Hp1 Hpos.
  assert (Hne : zero <> other) by (intros ->; rewrite Hp0 in Hp1; injection Hp1 as ->; lia).
  induction dexNames as [| dex1 later IH]; intros opps n Hin0 Hin1; [destruct Hin0 |].
  cbn [PriceAggregator.compareAll]. apply cbind_throws.
  destruct Hin0 as [<- | Hin0]; destruct Hin1 as [Heq | Hin1];
    try (exfalso; apply Hne; now rewrite Heq).
  - left. apply (compareWith_zero_quote prices tokenA tokenB _ _ p0 p1
                   Hp0 Hzero Hp1 Hpos). auto.
  - subst dex1. left.
    apply (compareWith_zero_quote prices tokenA tokenB _ _ p0 p1
             Hp0 Hzero Hp1 Hpos). auto.
  - destruct (clocked_cases
                (PriceAggregator.compareWith clock prices tokenA tokenB dex1 later opps n))
      as [Ht | (opps' & m & Hrun)]; [now left | right].
    exists opps', m. split; [assumption |]. now apply IH.
Qed.

Lemma detectOpportunitiesForPair_zero_quote (self : PriceAggregator.t)
    (tokenA tokenB zero other : string) (p0 p1 : Price) (n : nat) :
  JsMap.get (PriceAggregator.fetchPrices self tokenA tokenB) zero = Some p0 ->
  price p0 = 0 ->
  JsMap.get (PriceAggregator.fetchPrices self tokenA tokenB) other = Some p1 ->
  0 < price p1 ->
  throws (PriceAggregator.detectOpportunitiesForPair clock self tokenA tokenB n).
Proof.
  intros Hp0 Hzero Hp1 Hpos. unfold PriceAggregator.detectOpportunitiesForPair.
  assert (Hne : zero <> other) by (intros ->; rewrite Hp0 in Hp1; injection Hp1 as ->; lia).
  pose proof (JsMap_get_Some_In _ _ _ Hp0) as Hin0.
  pose proof (JsMap_get_Some_In _ _ _ Hp1) as Hin1.
  pose proof (two_distinct_members _ _ _ Hin0 Hin1 Hne) as Hlen.
  unfold JsMap.keys in Hlen. rewrite length_map in Hlen.
  destruct (Nat.ltb_spec (List.length (PriceAggregator.fetchPrices self tokenA tokenB)) 2);
    [lia |].
  apply (compareAll_zero_quote (PriceAggregator.fetchPrices self tokenA tokenB)
           tokenA tokenB zero other p0 p1 Hp0 Hzero Hp1 Hpos); assumption.
Qed.

End ZeroQuote.

(** X11.  When one ready scanner quotes a price of zero for a pair and
    another a positive price, the scan of the pair throws (the percentage
    difference divides by the buy price), and a full scan, which catches the
    error, goes on to the next monitored pair with nothing added for this
    one: opportunities between the other venues of the pair are lost. *)
Theorem X11_zero_quote_aborts_pair_scan (clock : nat -> Z)
    (self : PriceAggregator.t) (tokenA tokenB zero other : string)
    (p0 p1 : Price) (n : nat) (key : string) (rest : list string)
    (opps : list ArbitrageOpportunity) :
  NoDup (JsMap.keys (PriceAggregator.scanners self)) ->
  quoteOf self tokenA tokenB zero = Some p0 -> price p0 = 0 ->
  quoteOf self tokenA tokenB other = Some p1 -> 0 < price p1 ->
  (exists e m,
      PriceAggregator.detectOpportunitiesForPair clock self tokenA tokenB n
      = (Throw e, m))
  /\ (PriceAggregator.parsePairKey key = (tokenA, tokenB) ->
      exists m,
        PriceAggregator.scanPairs clock self (key :: rest) opps n
        = PriceAggregator.scanPairs clock self rest opps m).
Proof.
  intros Hnd Hq0 Hzero Hq1 Hpos.
  rewrite <- fetchPrices_get in Hq0, Hq1 by assumption.
  pose proof (detectOpportunitiesForPair_zero_quote clock self tokenA tokenB
                zero other p0 p1 n Hq0 Hzero Hq1 Hpos) as (e & m & Hthrow).
  split; [exists e, m; exact Hthrow |].
  intros Hparse. exists m.
  cbn [PriceAggregator.scanPairs]. rewrite Hparse.
  unfold cbind at 1. unfold catch. unfold cbind at 1. rewrite Hthrow.
  reflexivity.
Qed.

(** X11 on three venues quoting 0, 100 and 105: the scan throws although
    the last two differ by 5%. *)
Lemma X11_zero_quote_aborts_pair_scan_witness :
  (exists e m,
      PriceAggregator.detectOpportunitiesForPair Sample.clock Sample.threeVenuesOneZero
        Sample.USDC Sample.WETH 0%nat = (Throw e, m))
  /\ fst (PriceAggregator.detectOpportunities Sample.clock
            (PriceAggregator.addPair Sample.threeVenuesOneZero Sample.WETH Sample.USDC)
            0%nat) = Ok [].
Proof.
  split; [| vm_compute; reflexivity].
  refine (proj1 (X11_zero_quote_aborts_pair_scan Sample.clock Sample.threeVenuesOneZero
                   Sample.USDC Sample.WETH "Thin" "SushiSwap"
                   (Sample.quote "Thin" Sample.poolA 0)
                   (Sample.quote "SushiSwap" Sample.poolB (105 * 10 ^ 18))
                   0%nat "" [] [] _ _ _ _ _)).
  - apply new_scanners_NoDup.
  - reflexivity.
  - reflexivity.
  - reflexivity.
  - reflexivity.
Defined.

(* ================================================================== *)
(** ** OpportunityValidator: what the stages check *)

Section Stages.

Variable toFixed : Q -> nat -> string.
Variable numberToString : Q -> string.
Variable getChecksumAddress : string -> string.
Variable icapValid : string -> bool.

Ltac split_ifs :=
  repeat match goal with
         | |- context [if ?c then _ else _] => destruct c eqn:?
         end.

Lemma validateTokens_wellFormed (self : OpportunityValidator.t)
    (opp : ArbitrageOpportunity) :
  wellFormedVerdict
    (OpportunityValidator.validateTokens getChecksumAddress icapValid self opp).
Proof.
  unfold OpportunityValidator.validateTokens, wellFormedVerdict. split_ifs; eauto.
Qed.

Lemma validateDexes_wellFormed (self : OpportunityValidator.t)
    (opp : ArbitrageOpportunity) :
  wellFormedVerdict
    (OpportunityValidator.validateDexes getChecksumAddress icapValid self opp).
Proof.
  unfold OpportunityValidator.validateDexes, wellFormedVerdict. split_ifs; eauto.
Qed.

Lemma validatePrices_wellFormed (self : OpportunityValidator.t)
    (opp : ArbitrageOpportunity) (v : ValidationResult) :
  OpportunityValidator.validatePrices toFixed self opp = Ok v -> wellFormedVerdict v.
Proof.
  unfold OpportunityValidator.validatePrices, wellFormedVerdict.
  destruct (buyPrice opp <=? 0); [intros H; apply Ok_inj in H; subst; eauto |].
  destruct (sellPrice opp <=? 0); [intros H; apply Ok_inj in H; subst; eauto |].
  destruct (sellPrice opp <=? buyPrice opp);
    [intros H; apply Ok_inj in H; subst; eauto |].
  intros H.
  apply bind_Ok_inv in H. destruct H as (q & _ & H).
  apply bind_Ok_inv in H. destruct H as (m & _ & H).
  apply Ok_inj in H. subst v. eauto.
Qed.

Lemma validateLiquidity_wellFormed (self : OpportunityValidator.t)
    (opp : ArbitrageOpportunity) :
  wellFormedVerdict
    (OpportunityValidator.validateLiquidity toFixed numberToString self opp).
Proof.
  unfold OpportunityValidator.validateLiquidity, wellFormedVerdict. split_ifs; eauto.
Qed.

Lemma validateProfitPotential_wellFormed (self : OpportunityValidator.t)
    (opp : ArbitrageOpportunity) :
  wellFormedVerdict
    (OpportunityValidator.validateProfitPotential toFixed numberToString self opp).
Proof.
  unfold OpportunityValidator.validateProfitPotential, wellFormedVerdict.
  destruct (estimatedProfit opp); [split_ifs |]; eauto.
Qed.

Lemma validateFreshness_wellFormed (self : OpportunityValidator.t) (now : Z)
    (opp : ArbitrageOpportunity) :
  wellFormedVerdict
    (OpportunityValidator.validateFreshness toFixed numberToString self now opp).
Proof.
  unfold OpportunityValidator.validateFreshness, wellFormedVerdict. split_ifs; eauto.
Qed.

Lemma validate_wellFormed (self : OpportunityValidator.t) (now : Z)
    (opp : ArbitrageOpportunity) (v : ValidationResult) :
  OpportunityValidator.validate toFixed numberToString getChecksumAddress icapValid
    self now opp = Ok v ->
  wellFormedVerdict v.
Proof.
  unfold OpportunityValidator.validate.
  destruct (negb (isValid (OpportunityValidator.validateTokens _ _ self opp)));
    [intros H; apply Ok_inj in H; subst v; apply validateTokens_wellFormed |].
  destruct (negb (isValid (OpportunityValidator.validateDexes _ _ self opp)));
    [intros H; apply Ok_inj in H; subst v; apply validateDexes_wellFormed |].
  destruct (OpportunityValidator.validatePrices toFixed self opp) as [pv | e] eqn:Hpv;
    cbn [bind]; [| intros H; discriminate H].
  destruct (negb (isValid pv));
    [intros H; apply Ok_inj in H; subst v; eapply validatePrices_wellFormed; eassumption |].
  destruct (negb (isValid (OpportunityValidator.validateLiquidity _ _ self opp)));
    [intros H; apply Ok_inj in H; subst v; apply validateLiquidity_wellFormed |].
  destruct (negb (isValid (OpportunityValidator.validateProfitPotential _ _ self opp)));
    [intros H; apply Ok_inj in H; subst v; apply validateProfitPotential_wellFormed |].
  destruct (negb (isValid (OpportunityValidator.validateFreshness _ _ self now opp)));
    [intros H; apply Ok_inj in H; subst v; apply validateFreshness_wellFormed |].
  intros H. apply Ok_inj in H. subst v. left. eauto.
Qed.

End Stages.

(** X12.  Every verdict [validate] returns has one of two shapes: an
    acceptance, with no reason, or a rejection, with exactly one reason and
    no warnings; a rejection never carries the warnings gathered by the
    stages before it. *)
Theorem X12_verdict_shape (toFixed : Q -> nat -> string)
    (numberToString : Q -> string) (getChecksumAddress : string -> string)
    (icapValid : string -> bool) (self : OpportunityValidator.t) (now : Z)
    (opp : ArbitrageOpportunity) (v : ValidationResult) :
  OpportunityValidator.validate toFixed numberToString getChecksumAddress icapValid
    self now opp = Ok v ->
  (isValid v = true /\ reason v = None)
  \/ (isValid v = false /\ warnings v = None /\ exists why, reason v = Some why).
Proof.
  intros H. apply validate_wellFormed in H.
  destruct H as [[ws ->] | [why ->]]; [left | right]; cbn; eauto.
Qed.

(** X12 on the sample opportunity, 61 seconds after detection. *)
Lemma X12_verdict_shape_witness :
  exists v : ValidationResult,
    OpportunityValidator.validate Sample.toFixed Sample.numberToString
      Sample.checksumNotConsulted Sample.icapNotConsulted
      Sample.validator (Sample.detectedAt + 61000) Sample.freshOpportunity = Ok v
    /\ ((isValid v = true /\ reason v = None)
        \/ (isValid v = false /\ warnings v = None /\ exists why, reason v = Some why)).
Proof.
  destruct (OpportunityValidator.validate Sample.toFixed Sample.numberToString
              Sample.checksumNotConsulted Sample.icapNotConsulted
              Sample.validator (Sample.detectedAt + 61000) Sample.freshOpportunity)
    as [v | e] eqn:Hrun; [| vm_compute in Hrun; discriminate Hrun].
  exists v. split; [reflexivity |].
  exact (X12_verdict_shape _ _ _ _ _ _ _ v Hrun).
Defined.

Section Accepted.

Variable toFixed : Q -> nat -> string.
Variable numberToString : Q -> string.
Variable getChecksumAddress : string -> string.
Variable icapValid : string -> bool.

Lemma validateTokens_accepted (self : OpportunityValidator.t)
    (opp : ArbitrageOpportunity) :
  isValid (OpportunityValidator.validateTokens getChecksumAddress icapValid self opp)
  = true ->
  OpportunityValidator.isAddress getChecksumAddress icapValid (tokenIn opp) = true
  /\ OpportunityValidator.isAddress getChecksumAddress icapValid (tokenOut opp) = true
  /\ String.eqb (Js.toLowerCase (tokenIn opp)) (Js.toLowerCase (tokenOut opp)) = false
  /\ JsSet.has (OpportunityValidator.blacklistedTokens self)
       (Js.toLowerCase (tokenIn opp)) = false
  /\ JsSet.has (OpportunityValidator.blacklistedTokens self)
       (Js.toLowerCase (tokenOut opp)) = false
  /\ (OpportunityValidator.useWhitelist self = true ->
      JsSet.has (OpportunityValidator.whitelistedTokens self)
        (Js.toLowerCase (tokenIn opp)) = true
      /\ JsSet.has (OpportunityValidator.whitelistedTokens self)
           (Js.toLowerCase (tokenOut opp)) = true).
Proof.
  unfold OpportunityValidator.validateTokens.
  destruct (OpportunityValidator.isAddress _ _ (tokenIn opp)); cbn [negb];
    [| intros H; discriminate H].
  destruct (OpportunityValidator.isAddress _ _ (tokenOut opp)); cbn [negb];
    [| intros H; discriminate H].
  destruct (String.eqb _ _); [intros H; discriminate H |].
  destruct (JsSet.has _ (Js.toLowerCase (tokenIn opp))); [intros H; discriminate H |].
  destruct (JsSet.has _ (Js.toLowerCase (tokenOut opp))); [intros H; discriminate H |].
  destruct (OpportunityValidator.useWhitelist self); cbn [andb].
  - destruct (JsSet.has _ (Js.toLowerCase (tokenIn opp))); cbn [negb];
      [| intros H; discriminate H].
    destruct (JsSet.has _ (Js.toLowerCase (tokenOut opp))); cbn [negb];
      [| intros H; discriminate H].
    intros _. repeat split; reflexivity.
  - intros _. repeat split; try reflexivity; discriminate.
Qed.

Lemma validateDexes_accepted (self : OpportunityValidator.t)
    (opp : ArbitrageOpportunity) :
  isValid (OpportunityValidator.validateDexes getChecksumAddress icapValid self opp)
  = true ->
  String.eqb (buyDex opp) (sellDex opp) = false
  /\ JsSet.has (OpportunityValidator.blacklistedDexes self) (buyDex opp) = false
  /\ JsSet.has (OpportunityValidator.blacklistedDexes self) (sellDex opp) = false
  /\ OpportunityValidator.isAddress getChecksumAddress icapValid (buyPoolAddress opp)
     = true
  /\ OpportunityValidator.isAddress getChecksumAddress icapValid (sellPoolAddress opp)
     = true.
Proof.
  unfold OpportunityValidator.validateDexes.
  destruct (String.eqb _ _); [intros H; discriminate H |].
  destruct (JsSet.has _ (buyDex opp)); [intros H; discriminate H |].
  destruct (JsSet.has _ (sellDex opp)); [intros H; discriminate H |].
  destruct (OpportunityValidator.isAddress _ _ (buyPoolAddress opp)); cbn [negb];
    [| intros H; discriminate H].
  destruct (OpportunityValidator.isAddress _ _ (sellPoolAddress opp)); cbn [negb];
    [| intros H; discriminate H].
  intros _. repeat split; reflexivity.
Qed.

Lemma validatePrices_accepted (self : OpportunityValidator.t)
    (opp : ArbitrageOpportunity) (v : ValidationResult) :
  OpportunityValidator.validatePrices toFixed self opp = Ok v ->
  isValid v = true ->
  0 < buyPrice opp /\ buyPrice opp < sellPrice opp.
Proof.
  unfold OpportunityValidator.validatePrices.
  destruct (Z.leb_spec (buyPrice opp) 0) as [Hb | Hb];
    [intros H Hv; apply Ok_inj in H; subst v; discriminate Hv |].
  destruct (Z.leb_spec (sellPrice opp) 0) as [Hs | Hs];
    [intros H Hv; apply Ok_inj in H; subst v; discriminate Hv |].
  destruct (Z.leb_spec (sellPrice opp) (buyPrice opp)) as [Hd | Hd];
    [intros H Hv; apply Ok_inj in H; subst v; discriminate Hv |].
  intros _ _. lia.
Qed.

Lemma validateLiquidity_accepted (self : OpportunityValidator.t)
    (opp : ArbitrageOpportunity) :
  isValid (OpportunityValidator.validateLiquidity toFixed numberToString self opp)
  = true ->
  0 < availableLiquidity opp
  /\ (Js.double (OpportunityValidator.minLiquidityUSD self)
      <= Js.mul (Js.parseFloat (BigNumber.formatEther (availableLiquidity opp))) 2000)%Q.
Proof.
  unfold OpportunityValidator.validateLiquidity.
  destruct (Z.leb_spec (availableLiquidity opp) 0) as [Hl | Hl];
    [intros H; discriminate H |].
  cbv zeta.
  destruct (Js.ltb _ (Js.double (OpportunityValidator.minLiquidityUSD self))) eqn:Hfloor;
    [intros H; discriminate H |].
  intros _. split; [assumption | now apply ltb_false_le].
Qed.

Lemma validateProfitPotential_accepted (self : OpportunityValidator.t)
    (opp : ArbitrageOpportunity) :
  isValid (OpportunityValidator.validateProfitPotential toFixed numberToString self opp)
  = true ->
  forall p : Z,
    estimatedProfit opp = Some p ->
    0 < p
    /\ (Js.double (minProfitUSD (execution (OpportunityValidator.config self)))
        <= Js.mul (Js.parseFloat (BigNumber.formatEther p)) 2000)%Q.
Proof.
  unfold OpportunityValidator.validateProfitPotential.
  intros H p Hp. rewrite Hp in H.
  destruct (Z.leb_spec p 0) as [Hle | Hlt]; [discriminate H |].
  cbv zeta in H.
  destruct (Js.ltb _ (Js.double (minProfitUSD _))) eqn:Hmin; [discriminate H |].
  split; [assumption | now apply ltb_false_le].
Qed.

Lemma validateFreshness_accepted (self : OpportunityValidator.t) (now : Z)
    (opp : ArbitrageOpportunity) :
  isValid (OpportunityValidator.validateFreshness toFixed numberToString self now opp)
  = true ->
  now - timestamp opp <= 60000.
Proof.
  rewrite validateFreshness_cases. cbv zeta.
  destruct (Z.ltb_spec 60000 (now - timestamp opp)) as [Hold | Hfresh];
    [intros H; discriminate H |].
  intros _. assumption.
Qed.

Lemma negb_false_true (b : bool) : negb b = false -> b = true.
Proof. destruct b; [reflexivity | discriminate]. Qed.

Lemma validate_accepted (self : OpportunityValidator.t) (now : Z)
    (opp : ArbitrageOpportunity) (v : ValidationResult) :
  OpportunityValidator.validate toFixed numberToString getChecksumAddress icapValid
    self now opp = Ok v ->
  isValid v = true ->
  isValid (OpportunityValidator.validateTokens getChecksumAddress icapValid self opp)
  = true
  /\ isValid (OpportunityValidator.validateDexes getChecksumAddress icapValid self opp)
     = true
  /\ (exists pv, OpportunityValidator.validatePrices toFixed self opp = Ok pv
                 /\ isValid pv = true)
  /\ isValid (OpportunityValidator.validateLiquidity toFixed numberToString self opp)
     = true
  /\ isValid (OpportunityValidator.validateProfitPotential toFixed numberToString
                self opp) = true
  /\ isValid (OpportunityValidator.validateFreshness toFixed numberToString
                self now opp) = true.
Proof.
  unfold OpportunityValidator.validate. intros H Hv.
  destruct (negb (isValid (OpportunityValidator.validateTokens _ _ self opp))) eqn:H1;
    [apply Ok_inj in H; subst v; rewrite Hv in H1; discriminate H1 |].
  destruct (negb (isValid (OpportunityValidator.validateDexes _ _ self opp))) eqn:H2;
    [apply Ok_inj in H; subst v; rewrite Hv in H2; discriminate H2 |].
  destruct (OpportunityValidator.validatePrices toFixed self opp) as [pv | e];
    cbn [bind] in H; [| discriminate H].
  destruct (negb (isValid pv)) eqn:H3;
    [apply Ok_inj in H; subst v; rewrite Hv in H3; discriminate H3 |].
  destruct (negb (isValid (OpportunityValidator.validateLiquidity _ _ self opp))) eqn:H4;
    [apply Ok_inj in H; subst v; rewrite Hv in H4; discriminate H4 |].
  destruct (negb (isValid (OpportunityValidator.validateProfitPotential _ _ self opp)))
    eqn:H5; [apply Ok_inj in H; subst v; rewrite Hv in H5; discriminate H5 |].
  destruct (negb (isValid (OpportunityValidator.validateFreshness _ _ self now opp)))
    eqn:H6; [apply Ok_inj in H; subst v; rewrite Hv in H6; discriminate H6 |].
  apply negb_false_true in H1, H2, H3, H4, H5, H6.
  repeat (split; [assumption |]).
  split; [exists pv; split; [reflexivity | assumption] |].
  repeat (split; [assumption |]). assumption.
Qed.

End Accepted.

(** X13.  An opportunity that [validate] accepts satisfies everything the
    six stages check: four well-formed addresses, tokens that differ even
    when letter case is ignored, neither token nor venue blacklisted,
    distinct venues, 0 < buyPrice < sellPrice, positive liquidity, a
    positive estimated profit when one is given, and an age of at most 60
    seconds.  The dollar value of the liquidity is not below the configured
    floor, and that of the estimated profit not below the configured
    minimum profit, the value being the one the code computes in doubles:
    [parseFloat(formatEther(x)) * 2000], the wei amount rounded to the
    nearest double and the product rounded again (so 5 ether less one wei
    is worth 10000). *)
Theorem X13_accepted_opportunity_is_sound (toFixed : Q -> nat -> string)
    (numberToString : Q -> string) (getChecksumAddress : string -> string)
    (icapValid : string -> bool) (self : OpportunityValidator.t) (now : Z)
    (opp : ArbitrageOpportunity) (v : ValidationResult) :
  OpportunityValidator.validate toFixed numberToString getChecksumAddress icapValid
    self now opp = Ok v ->
  isValid v = true ->
  (OpportunityValidator.isAddress getChecksumAddress icapValid (tokenIn opp) = true
   /\ OpportunityValidator.isAddress getChecksumAddress icapValid (tokenOut opp) = true
   /\ OpportunityValidator.isAddress getChecksumAddress icapValid (buyPoolAddress opp)
      = true
   /\ OpportunityValidator.isAddress getChecksumAddress icapValid (sellPoolAddress opp)
      = true)
  /\ String.eqb (Js.toLowerCase (tokenIn opp)) (Js.toLowerCase (tokenOut opp)) = false
  /\ (JsSet.has (OpportunityValidator.blacklistedTokens self)
        (Js.toLowerCase (tokenIn opp)) = false
      /\ JsSet.has (OpportunityValidator.blacklistedTokens self)
           (Js.toLowerCase (tokenOut opp)) = false
      /\ JsSet.has (OpportunityValidator.blacklistedDexes self) (buyDex opp) = false
      /\ JsSet.has (OpportunityValidator.blacklistedDexes self) (sellDex opp) = false)
  /\ String.eqb (buyDex opp) (sellDex opp) = false
  /\ (0 < buyPrice opp /\ buyPrice opp < sellPrice opp)
  /\ (0 < availableLiquidity opp
      /\ (Js.double (OpportunityValidator.minLiquidityUSD self)
          <= Js.mul (Js.parseFloat (BigNumber.formatEther (availableLiquidity opp)))
                    2000)%Q)
  /\ (forall p : Z,
         estimatedProfit opp = Some p ->
         0 < p
         /\ (Js.double (minProfitUSD (execution (OpportunityValidator.config self)))
             <= Js.mul (Js.parseFloat (BigNumber.formatEther p)) 2000)%Q)
  /\ now - timestamp opp <= 60000.
Proof.
  intros H Hv.
  destruct (validate_accepted _ _ _ _ _ _ _ _ H Hv)
    as (Htok & Hdex & (pv & Hpv & Hpvalid) & Hliq & Hprofit & Hfresh).
  apply validateTokens_accepted in Htok.
  destruct Htok as (Hin & Hout & Hdiff & Hbin & Hbout & _).
  apply validateDexes_accepted in Hdex.
  destruct Hdex as (Hvenues & Hbbuy & Hbsell & Hpbuy & Hpsell).
  pose proof (validatePrices_accepted _ _ _ _ Hpv Hpvalid) as Hprices.
  apply validateLiquidity_accepted in Hliq.
  pose proof (validateProfitPotential_accepted _ _ _ _ Hprofit) as Hp.
  apply validateFreshness_accepted in Hfresh.
  split; [auto |]. split; [assumption |]. split; [auto |].
  split; [assumption |]. split; [assumption |]. split; [assumption |].
  split; assumption.
Qed.

(** X13 on the sample opportunity with a liquidity of 5 ether less one
    wei, 10 seconds after detection, at a floor of 10000: it is accepted,
    the liquidity being valued at 10000. *)
Lemma X13_accepted_opportunity_is_sound_witness :
  exists v : ValidationResult,
    OpportunityValidator.validate Sample.toFixed Sample.numberToString
      Sample.checksumNotConsulted Sample.icapNotConsulted
      Sample.validator (Sample.detectedAt + 10000) Sample.marginalOpportunity = Ok v
    /\ isValid v = true
    /\ String.eqb (buyDex Sample.marginalOpportunity)
                  (sellDex Sample.marginalOpportunity) = false
    /\ (Js.double (OpportunityValidator.minLiquidityUSD Sample.validator)
        <= Js.mul (Js.parseFloat (BigNumber.formatEther (5 * 10 ^ 18 - 1))) 2000)%Q
    /\ Sample.detectedAt + 10000 - timestamp Sample.marginalOpportunity <= 60000.
Proof.
  destruct (OpportunityValidator.validate Sample.toFixed Sample.numberToString
              Sample.checksumNotConsulted Sample.icapNotConsulted
              Sample.validator (Sample.detectedAt + 10000) Sample.marginalOpportunity)
    as [v | e] eqn:Hrun; [| vm_compute in Hrun; discriminate Hrun].
  assert (Hv : isValid v = true).
  { vm_compute in Hrun. apply Ok_inj in Hrun. subst v. reflexivity. }
  destruct (X13_accepted_opportunity_is_sound _ _ _ _ _ _ _ v Hrun Hv)
    as (_ & _ & _ & Hvenues & _ & (_ & Hliquidity) & _ & Hage).
  exists v. split; [reflexivity |]. split; [exact Hv |].
  split; [exact Hvenues |]. split; [exact Hliquidity | exact Hage].
Defined.

(* ================================================================== *)
(** ** OpportunityValidator: black lists and the white list *)

Section Lists.

Variable toFixed : Q -> nat -> string.
Variable numberToString : Q -> string.
Variable getChecksumAddress : string -> string.
Variable icapValid : string -> bool.

Lemma validate_token_rejection (self : OpportunityValidator.t) (now : Z)
    (opp : ArbitrageOpportunity) :
  isValid (OpportunityValidator.validateTokens getChecksumAddress icapValid self opp)
  = false ->
  exists v,
    OpportunityValidator.validate toFixed numberToString getChecksumAddress icapValid
      self now opp = Ok v
    /\ isValid v = false.
Proof.
  intros H. unfold OpportunityValidator.validate. rewrite H. cbn [negb]. eauto.
Qed.

Lemma validate_dex_rejection (self : OpportunityValidator.t) (now : Z)
    (opp : ArbitrageOpportunity) :
  isValid (OpportunityValidator.validateDexes getChecksumAddress icapValid self opp)
  = false ->
  exists v,
    OpportunityValidator.validate toFixed numberToString getChecksumAddress icapValid
      self now opp = Ok v
    /\ isValid v = false.
Proof.
  intros H.
  destruct (isValid (OpportunityValidator.validateTokens getChecksumAddress icapValid
                       self opp)) eqn:Htok.
  - unfold OpportunityValidator.validate. rewrite Htok, H. cbn [negb]. eauto.
  - now apply validate_token_rejection.
Qed.

Lemma validateTokens_blacklisted (self : OpportunityValidator.t)
    (opp : ArbitrageOpportunity) :
  JsSet.has (OpportunityValidator.blacklistedTokens self) (Js.toLowerCase (tokenIn opp))
  = true
  \/ JsSet.has (OpportunityValidator.blacklistedTokens self)
       (Js.toLowerCase (tokenOut opp)) = true ->
  isValid (OpportunityValidator.validateTokens getChecksumAddress icapValid self opp)
  = false.
Proof.
  intros Hbl. unfold OpportunityValidator.validateTokens.
  destruct (negb (OpportunityValidator.isAddress _ _ (tokenIn opp))); [reflexivity |].
  destruct (negb (OpportunityValidator.isAddress _ _ (tokenOut opp))); [reflexivity |].
  destruct (String.eqb _ _); [reflexivity |].
  destruct (JsSet.has _ (Js.toLowerCase (tokenIn opp))); [reflexivity |].
  destruct (JsSet.has _ (Js.toLowerCase (tokenOut opp))); [reflexivity |].
  destruct Hbl as [H | H]; discriminate H.
Qed.

Lemma validateTokens_not_whitelisted (self : OpportunityValidator.t)
    (opp : ArbitrageOpportunity) :
  OpportunityValidator.useWhitelist self = true ->
  JsSet.has (OpportunityValidator.whitelistedTokens self) (Js.toLowerCase (tokenIn opp))
  = false
  \/ JsSet.has (OpportunityValidator.whitelistedTokens self)
       (Js.toLowerCase (tokenOut opp)) = false ->
  isValid (OpportunityValidator.validateTokens getChecksumAddress icapValid self opp)
  = false.
Proof.
  intros Hon Hwl. unfold OpportunityValidator.validateTokens. rewrite Hon.
  destruct (negb (OpportunityValidator.isAddress _ _ (tokenIn opp))); [reflexivity |].
  destruct (negb (OpportunityValidator.isAddress _ _ (tokenOut opp))); [reflexivity |].
  destruct (String.eqb _ _); [reflexivity |].
  destruct (JsSet.has (OpportunityValidator.blacklistedTokens self)
              (Js.toLowerCase (tokenIn opp))); [reflexivity |].
  destruct (JsSet.has (OpportunityValidator.blacklistedTokens self)
              (Js.toLowerCase (tokenOut opp))); [reflexivity |].
  cbn [andb].
  destruct (JsSet.has _ (Js.toLowerCase (tokenIn opp))); cbn [negb]; [| reflexivity].
  destruct (JsSet.has _ (Js.toLowerCase (tokenOut opp))); cbn [negb]; [| reflexivity].
  destruct Hwl as [H | H]; discriminate H.
Qed.

Lemma validateDexes_blacklisted (self : OpportunityValidator.t)
    (opp : ArbitrageOpportunity) :
  JsSet.has (OpportunityValidator.blacklistedDexes self) (buyDex opp) = true
  \/ JsSet.has (OpportunityValidator.blacklistedDexes self) (sellDex opp) = true ->
  isValid (OpportunityValidator.validateDexes getChecksumAddress icapValid self opp)
  = false.
Proof.
  intros Hbl. unfold OpportunityValidator.validateDexes.
  destruct (String.eqb _ _); [reflexivity |].
  destruct (JsSet.has _ (buyDex opp)); [reflexivity |].
  destruct (JsSet.has _ (sellDex opp)); [reflexivity |].
  destruct Hbl as [H | H]; discriminate H.
Qed.

(** The verdict of a validator whose white list is off does not depend on
    the white list. *)
Lemma validate_whitelist_off (self : OpportunityValidator.t) (wl : list string)
    (now : Z) (opp : ArbitrageOpportunity) :
  OpportunityValidator.useWhitelist self = false ->
  OpportunityValidator.validate toFixed numberToString getChecksumAddress icapValid
    {| OpportunityValidator.config := OpportunityValidator.config self;
       OpportunityValidator.blacklistedTokens := OpportunityValidator.blacklistedTokens self;
       OpportunityValidator.whitelistedTokens := wl;
       OpportunityValidator.blacklistedDexes := OpportunityValidator.blacklistedDexes self;
       OpportunityValidator.minLiquidityUSD := OpportunityValidator.minLiquidityUSD self;
       OpportunityValidator.useWhitelist := OpportunityValidator.useWhitelist self |}
    now opp
  = OpportunityValidator.validate toFixed numberToString getChecksumAddress icapValid
      self now opp.
Proof.
  intros Hoff. destruct self as [cfg bt wt bd ml uw]. cbn in Hoff. subst uw.
  reflexivity.
Qed.

End Lists.

(** X14.  Blacklisting works as a veto: once a token is blacklisted, every
    opportunity whose tokenIn or tokenOut is that token in any letter case
    is rejected; once a venue is blacklisted, every opportunity that buys or
    sells on it is rejected. *)
Theorem X14_blacklisted_is_rejected (toFixed : Q -> nat -> string)
    (numberToString : Q -> string) (getChecksumAddress : string -> string)
    (icapValid : string -> bool) (self : OpportunityValidator.t)
    (token dex : string) (now : Z) (opp : ArbitrageOpportunity) :
  (Js.toLowerCase (tokenIn opp) = Js.toLowerCase token
   \/ Js.toLowerCase (tokenOut opp) = Js.toLowerCase token ->
   exists v,
     OpportunityValidator.validate toFixed numberToString getChecksumAddress icapValid
       (OpportunityValidator.addToBlacklist self token) now opp = Ok v
     /\ isValid v = false)
  /\ (buyDex opp = dex \/ sellDex opp = dex ->
      exists v,
        OpportunityValidator.validate toFixed numberToString getChecksumAddress icapValid
          (OpportunityValidator.addDexToBlacklist self dex) now opp = Ok v
        /\ isValid v = false).
Proof.
  split; intros Hcase.
  - apply validate_token_rejection, validateTokens_blacklisted.
    cbn [OpportunityValidator.addToBlacklist OpportunityValidator.blacklistedTokens].
    destruct Hcase as [-> | ->]; [left | right]; apply JsSet_has_true, JsSet_add_In.
  - apply validate_dex_rejection, validateDexes_blacklisted.
    cbn [OpportunityValidator.addDexToBlacklist OpportunityValidator.blacklistedDexes].
    destruct Hcase as [-> | ->]; [left | right]; apply JsSet_has_true, JsSet_add_In.
Qed.

(** X14 on the sample opportunity after blacklisting WETH, given with
    checksum capitals. *)
Lemma X14_blacklisted_is_rejected_witness :
  exists v,
    OpportunityValidator.validate Sample.toFixed Sample.numberToString
      Sample.checksumNotConsulted Sample.icapNotConsulted
      (OpportunityValidator.addToBlacklist Sample.validator Sample.WETH_checksummed)
      (Sample.detectedAt + 10000) Sample.freshOpportunity = Ok v
    /\ isValid v = false.
Proof.
  refine (proj1 (X14_blacklisted_is_rejected Sample.toFixed Sample.numberToString
                   Sample.checksumNotConsulted Sample.icapNotConsulted
                   Sample.validator Sample.WETH_checksummed ""
                   (Sample.detectedAt + 10000) Sample.freshOpportunity) _).
  left. reflexivity.
Defined.

(** X15.  Removing a token from the black list undoes adding it, whatever
    the letter case either call is given: afterwards the token is not
    blacklisted, and when it was not blacklisted before, the validator is
    back to what it was; adding it a second time changes nothing.  The same
    holds for venues, by exact name. *)
Theorem X15_blacklist_round_trip (self : OpportunityValidator.t)
    (token token' dex : string) :
  Js.toLowerCase token' = Js.toLowerCase token ->
  JsSet.has
    (OpportunityValidator.blacklistedTokens
       (OpportunityValidator.removeFromBlacklist
          (OpportunityValidator.addToBlacklist self token) token'))
    (Js.toLowerCase token) = false
  /\ OpportunityValidator.addToBlacklist
       (OpportunityValidator.addToBlacklist self token) token'
     = OpportunityValidator.addToBlacklist self token
  /\ (JsSet.has (OpportunityValidator.blacklistedTokens self) (Js.toLowerCase token)
      = false ->
      OpportunityValidator.removeFromBlacklist
        (OpportunityValidator.addToBlacklist self token) token' = self)
  /\ JsSet.has
       (OpportunityValidator.blacklistedDexes
          (OpportunityValidator.removeDexFromBlacklist
             (OpportunityValidator.addDexToBlacklist self dex) dex)) dex = false
  /\ (JsSet.has (OpportunityValidator.blacklistedDexes self) dex = false ->
      OpportunityValidator.removeDexFromBlacklist
        (OpportunityValidator.addDexToBlacklist self dex) dex = self).
Proof.
  intros Hcase. destruct self as [cfg bt wt bd ml uw].
  unfold OpportunityValidator.removeFromBlacklist, OpportunityValidator.addToBlacklist,
    OpportunityValidator.removeDexFromBlacklist, OpportunityValidator.addDexToBlacklist.
  cbn [OpportunityValidator.config OpportunityValidator.blacklistedTokens
       OpportunityValidator.whitelistedTokens OpportunityValidator.blacklistedDexes
       OpportunityValidator.minLiquidityUSD OpportunityValidator.useWhitelist].
  rewrite Hcase.
  split; [apply JsSet_has_delete |].
  split; [now rewrite JsSet_add_idempotent |].
  split.
  { intros Habsent. f_equal. apply JsSet_delete_add_absent.
    intros Hin. apply JsSet_has_true in Hin. congruence. }
  split; [apply JsSet_has_delete |].
  intros Habsent. f_equal. apply JsSet_delete_add_absent.
  intros Hin. apply JsSet_has_true in Hin. congruence.
Qed.

(** X15 on the sample validator: WETH added with checksum capitals and
    removed in lower case. *)
Lemma X15_blacklist_round_trip_witness :
  OpportunityValidator.removeFromBlacklist
    (OpportunityValidator.addToBlacklist Sample.validator Sample.WETH_checksummed)
    Sample.WETH = Sample.validator.
Proof.
  refine (proj1 (proj2 (proj2 (X15_blacklist_round_trip Sample.validator
                                 Sample.WETH_checksummed Sample.WETH "" _))) _);
    reflexivity.
Defined.

(** X16.  The white list matters only when it is enabled: with it off, the
    verdict is the same whatever tokens are added to or removed from it;
    with it on, an opportunity one of whose tokens is not whitelisted is
    rejected, so enabling an empty white list rejects everything. *)
Theorem X16_whitelist_only_when_enabled (toFixed : Q -> nat -> string)
    (numberToString : Q -> string) (getChecksumAddress : string -> string)
    (icapValid : string -> bool) (self : OpportunityValidator.t)
    (token : string) (now : Z) (opp : ArbitrageOpportunity) :
  (OpportunityValidator.useWhitelist self = false ->
   OpportunityValidator.validate toFixed numberToString getChecksumAddress icapValid
     (OpportunityValidator.addToWhitelist self token) now opp
   = OpportunityValidator.validate toFixed numberToString getChecksumAddress icapValid
       self now opp
   /\ OpportunityValidator.validate toFixed numberToString getChecksumAddress icapValid
        (OpportunityValidator.removeFromWhitelist self token) now opp
      = OpportunityValidator.validate toFixed numberToString getChecksumAddress icapValid
          self now opp)
  /\ (OpportunityValidator.useWhitelist self = true ->
      JsSet.has (OpportunityValidator.whitelistedTokens self)
        (Js.toLowerCase (tokenIn opp)) = false
      \/ JsSet.has (OpportunityValidator.whitelistedTokens self)
           (Js.toLowerCase (tokenOut opp)) = false ->
      exists v,
        OpportunityValidator.validate toFixed numberToString getChecksumAddress icapValid
          self now opp = Ok v
        /\ isValid v = false)
  /\ (OpportunityValidator.whitelistedTokens self = [] ->
      exists v,
        OpportunityValidator.validate toFixed numberToString getChecksumAddress icapValid
          (OpportunityValidator.enableWhitelist self) now opp = Ok v
        /\ isValid v = false).
Proof.
  split; [| split].
  - intros Hoff. split; apply validate_whitelist_off; assumption.
  - intros Hon Hwl.
    apply validate_token_rejection, validateTokens_not_whitelisted; assumption.
  - intros Hempty.
    apply validate_token_rejection, validateTokens_not_whitelisted; [reflexivity |].
    cbn [OpportunityValidator.enableWhitelist OpportunityValidator.whitelistedTokens].
    rewrite Hempty. left. reflexivity.
Qed.

(** X16 on the sample validator, whose white list is off and empty. *)
Lemma X16_whitelist_only_when_enabled_witness :
  OpportunityValidator.validate Sample.toFixed Sample.numberToString
    Sample.checksumNotConsulted Sample.icapNotConsulted
    (OpportunityValidator.addToWhitelist Sample.validator Sample.USDC)
    (Sample.detectedAt + 10000) Sample.freshOpportunity
  = OpportunityValidator.validate Sample.toFixed Sample.numberToString
      Sample.checksumNotConsulted Sample.icapNotConsulted
      Sample.validator (Sample.detectedAt + 10000) Sample.freshOpportunity
  /\ exists v,
       OpportunityValidator.validate Sample.toFixed Sample.numberToString
         Sample.checksumNotConsulted Sample.icapNotConsulted
         (OpportunityValidator.enableWhitelist Sample.validator)
         (Sample.detectedAt + 10000) Sample.freshOpportunity = Ok v
       /\ isValid v = false.
Proof.
  split.
  - refine (proj1 (proj1 (X16_whitelist_only_when_enabled
                            Sample.toFixed Sample.numberToString
                            Sample.checksumNotConsulted Sample.icapNotConsulted
                            Sample.validator Sample.USDC
                            (Sample.detectedAt + 10000) Sample.freshOpportunity) _)).
    reflexivity.
  - refine (proj2 (proj2 (X16_whitelist_only_when_enabled
                            Sample.toFixed Sample.numberToString
                            Sample.checksumNotConsulted Sample.icapNotConsulted
                            Sample.validator Sample.USDC
                            (Sample.detectedAt + 10000) Sample.freshOpportunity)) _).
    reflexivity.
Defined.

(* ================================================================== *)
(** ** A synthesized opportunity at the validator *)






(* ================================================================== *)
(** ** DexScanner: the arithmetic helpers *)

Lemma fromNumber_integer (x : Q) (z : Z) :
  (x == inject_Z z)%Q -> Z.abs z < 2 ^ 53 - 1 -> BigNumber.fromNumber x = Ok z.
Proof.
  intros Heq Hsafe. unfold BigNumber.fromNumber.
  assert (Hfloor : Qfloor x = z) by (rewrite Heq; apply Qfloor_Z).
  rewrite Hfloor.
  assert (Hint : Qeq_bool (inject_Z z) x = true)
    by (apply Qeq_bool_iff; symmetry; exact Heq).
  rewrite Hint.
  destruct (Z.ltb_spec (Z.abs z) (2 ^ 53 - 1)); [reflexivity | lia].
Qed.

Lemma quot_div_bounds (a b : Z) :
  0 <= a -> 0 < b ->
  0 <= Z.quot a b /\ Z.quot a b * b <= a /\ a < (Z.quot a b + 1) * b.
Proof.
  intros Ha Hb. rewrite Z.quot_div_nonneg by lia.
  pose proof (Z.div_pos a b Ha Hb).
  pose proof (Z.mul_div_le a b Hb).
  pose proof (Z.mul_succ_div_gt a b Hb). lia.
Qed.

(** X18.  [calculateAmountOut] for a non-negative input, a positive input
    reserve, a non-negative output reserve and a fee of a whole number of
    basis points from 0 to 10000: the output is amountIn * (10000 - fee) *
    reserveOut / (reserveIn * 10000 + amountIn * (10000 - fee)), truncated;
    it is not negative and not above the output reserve, below it when the
    output reserve is positive, zero for a zero input, and the product of
    the reserves, input counted after the fee, does not decrease.  When the
    fee is left out it is 30.  (Outside these bounds the code checks
    nothing: a fee above 10000 or a negative input gives a negative
    output.) *)
Theorem X18_amount_out_constant_product (amountIn reserveIn reserveOut fee : Z) :
  0 <= amountIn -> 0 < reserveIn -> 0 <= reserveOut -> 0 <= fee <= 10000 ->
  exists out : Z,
    DexScanner.calculateAmountOut amountIn reserveIn reserveOut (Some (inject_Z fee))
    = Ok out
    /\ out = Z.quot (amountIn * (10000 - fee) * reserveOut)
                    (reserveIn * 10000 + amountIn * (10000 - fee))
    /\ 0 <= out <= reserveOut
    /\ (0 < reserveOut -> out < reserveOut)
    /\ (amountIn = 0 -> out = 0)
    /\ reserveIn * 10000 * reserveOut
       <= (reserveIn * 10000 + amountIn * (10000 - fee)) * (reserveOut - out)
    /\ (fee = 30 ->
        DexScanner.calculateAmountOut amountIn reserveIn reserveOut None = Ok out).
Proof.
  intros Hin Hres Hout Hfee.
  assert (Hkeep : BigNumber.fromNumber (10000 - inject_Z fee)%Q = Ok (10000 - fee)).
  { apply fromNumber_integer.
    - unfold Qeq, Qminus, Qplus, Qopp, inject_Z. cbn [Qnum Qden].
      change (1 * 1)%positive with 1%positive. lia.
    - change (2 ^ 53 - 1) with 9007199254740991. lia. }
  set (keep := 10000 - fee) in *.
  set (den := reserveIn * 10000 + amountIn * keep).
  set (num := amountIn * keep * reserveOut).
  assert (Hkeep0 : 0 <= keep) by (unfold keep; lia).
  assert (Hden : 0 < den) by (unfold den; nia).
  assert (Hnum : 0 <= num) by (unfold num; nia).
  destruct (quot_div_bounds num den Hnum Hden) as (Hq0 & Hqle & Hqlt).
  exists (Z.quot num den).
  assert (Hcall : DexScanner.calculateAmountOut amountIn reserveIn reserveOut
                    (Some (inject_Z fee)) = Ok (Z.quot num den)).
  { unfold DexScanner.calculateAmountOut. rewrite Hkeep. cbn [bind].
    apply div_Ok. fold den. lia. }
  split; [exact Hcall |]. split; [reflexivity |].
  assert (Hupper : Z.quot num den <= reserveOut).
  { assert (num <= reserveOut * den) by (unfold num, den; nia).
    assert (Z.quot num den * den <= reserveOut * den) by lia.
    nia. }
  split; [lia |].
  split.
  { intros Hpos. assert (num < reserveOut * den) by (unfold num, den; nia).
    assert (Z.quot num den * den < reserveOut * den) by lia. nia. }
  split.
  { intros ->. unfold num. now rewrite !Z.mul_0_l, Z.quot_0_l by lia. }
  split.
  { unfold den in *. unfold num in *. nia. }
  intros Hdefault. unfold DexScanner.calculateAmountOut.
  unfold DexScanner.calculateAmountOut in Hcall.
  rewrite Hkeep in Hcall. cbn [bind] in Hcall.
  change (BigNumber.fromNumber (10000 - 30)%Q) with (@Ok Z 9970). cbn [bind].
  unfold keep in Hcall. rewrite Hdefault in Hcall. exact Hcall.
Qed.

(** X18 on a pool of 1000 against 2000000 with input 10 and the default
    fee: the output is 19743. *)
Lemma X18_amount_out_constant_product_witness :
  exists out : Z,
    DexScanner.calculateAmountOut 10 1000 2000000 None = Ok out
    /\ out = 19743
    /\ out < 2000000.
Proof.
  destruct (X18_amount_out_constant_product 10 1000 2000000 30)
    as (out & _ & Hval & _ & Hlt & _ & _ & Hdefault); try lia.
  exists out. split; [apply Hdefault; reflexivity |].
  split; [rewrite Hval; reflexivity | apply Hlt; lia].
Defined.

(** Outside the bounds of X18 the output can be negative. *)
Example amount_out_negative_outside_bounds :
  DexScanner.calculateAmountOut 10 1000 2000000 (Some 10001%Q) = Ok (-2)
  /\ DexScanner.calculateAmountOut (-10) 1000 2000000 None = Ok (-20140).
Proof.
  split; vm_compute; reflexivity.
Qed.

Lemma pow10_scale (d : Z) :
  0 <= d <= 18 -> DexScanner.pow10 (18 - d) = DexScanner.Done (10 ^ (18 - d)).
Proof.
  intros Hd. unfold DexScanner.pow10.
  rewrite (fromNumber_integer (inject_Z (18 - d)) (18 - d));
    [| reflexivity | change (2 ^ 53 - 1) with 9007199254740991; lia].
  cbn [DexScanner.ofResult DexScanner.obind].
  destruct (Z.ltb_spec (18 - d) 0); [lia | reflexivity].
Qed.

Lemma pow10_negative (d : Z) :
  18 < d < 2 ^ 53 -> DexScanner.pow10 (18 - d) = DexScanner.Fault DexScanner.NegativePower.
Proof.
  intros Hd. unfold DexScanner.pow10.
  rewrite (fromNumber_integer (inject_Z (18 - d)) (18 - d));
    [| reflexivity | change (2 ^ 53) with 9007199254740992 in Hd;
                     change (2 ^ 53 - 1) with 9007199254740991; lia].
  cbn [DexScanner.ofResult DexScanner.obind].
  destruct (Z.ltb_spec (18 - d) 0); [reflexivity | lia].
Qed.

(** X19.  [calculatePrice] on reserves scaled to 18 decimals.  For token
    decimals from 0 to 18 and positive reserves it returns the truncated
    quotients price = adjusted1 * 10^18 / adjusted0 and inversePrice =
    adjusted0 * 10^18 / adjusted1, whose product is at most 10^36; an empty
    reserve on either side makes it throw a division by zero; swapping the
    two tokens swaps price and inverse price; and a token with more than 18
    decimals makes it throw, the power of ten having a negative exponent. *)
Theorem X19_price_from_reserves (reserve0 reserve1 decimals0 decimals1 : Z) :
  (0 <= decimals0 <= 18 -> 0 <= decimals1 <= 18 ->
   (0 < reserve0 -> 0 < reserve1 ->
    exists pp : DexScanner.PricePair,
      DexScanner.calculatePrice reserve0 reserve1 decimals0 decimals1 = DexScanner.Done pp
      /\ DexScanner.pairPrice pp
         = Z.quot (reserve1 * 10 ^ (18 - decimals1) * 10 ^ 18)
                  (reserve0 * 10 ^ (18 - decimals0))
      /\ DexScanner.pairInversePrice pp
         = Z.quot (reserve0 * 10 ^ (18 - decimals0) * 10 ^ 18)
                  (reserve1 * 10 ^ (18 - decimals1))
      /\ DexScanner.pairPrice pp * (reserve0 * 10 ^ (18 - decimals0))
         <= reserve1 * 10 ^ (18 - decimals1) * 10 ^ 18
      /\ reserve1 * 10 ^ (18 - decimals1) * 10 ^ 18
         < (DexScanner.pairPrice pp + 1) * (reserve0 * 10 ^ (18 - decimals0))
      /\ DexScanner.pairPrice pp * DexScanner.pairInversePrice pp <= 10 ^ 36)
   /\ (reserve0 = 0 \/ reserve1 = 0 ->
       DexScanner.calculatePrice reserve0 reserve1 decimals0 decimals1
       = DexScanner.Fault (DexScanner.Numeric DivisionByZero))
   /\ DexScanner.calculatePrice reserve1 reserve0 decimals1 decimals0
      = match DexScanner.calculatePrice reserve0 reserve1 decimals0 decimals1 with
        | DexScanner.Done pp =>
            DexScanner.Done {| DexScanner.pairPrice := DexScanner.pairInversePrice pp;
                               DexScanner.pairInversePrice := DexScanner.pairPrice pp |}
        | DexScanner.Fault f => DexScanner.Fault f
        end)
  /\ (18 < decimals0 < 2 ^ 53 ->
      DexScanner.calculatePrice reserve0 reserve1 decimals0 decimals1
      = DexScanner.Fault DexScanner.NegativePower)
  /\ (0 <= decimals0 <= 18 -> 18 < decimals1 < 2 ^ 53 ->
      DexScanner.calculatePrice reserve0 reserve1 decimals0 decimals1
      = DexScanner.Fault DexScanner.NegativePower).
Proof.
  split; [| split].
  - intros Hd0 Hd1.
    assert (Hs0 : 0 < 10 ^ (18 - decimals0)) by (apply Z.pow_pos_nonneg; lia).
    assert (Hs1 : 0 < 10 ^ (18 - decimals1)) by (apply Z.pow_pos_nonneg; lia).
    unfold DexScanner.calculatePrice.
    rewrite (pow10_scale decimals0 Hd0), (pow10_scale decimals1 Hd1).
    cbn [DexScanner.obind]. unfold BigNumber.WeiPerEther.
    set (a0 := reserve0 * 10 ^ (18 - decimals0)).
    set (a1 := reserve1 * 10 ^ (18 - decimals1)).
    split; [| split].
    + intros Hr0 Hr1.
      assert (Ha0 : 0 < a0) by (unfold a0; nia).
      assert (Ha1 : 0 < a1) by (unfold a1; nia).
      assert (HE : 0 < 10 ^ 18) by reflexivity.
      rewrite !div_Ok by lia. cbn [DexScanner.ofResult DexScanner.obind].
      eexists. split; [reflexivity |].
      cbn [DexScanner.pairPrice DexScanner.pairInversePrice].
      destruct (quot_div_bounds (a1 * 10 ^ 18) a0) as (Hp0 & Hple & Hplt); [nia | lia |].
      destruct (quot_div_bounds (a0 * 10 ^ 18) a1) as (Hi0 & Hile & Hilt); [nia | lia |].
      split; [reflexivity |]. split; [reflexivity |].
      split; [assumption |]. split; [assumption |].
      set (p := Z.quot (a1 * 10 ^ 18) a0) in *.
      set (ip := Z.quot (a0 * 10 ^ 18) a1) in *.
      assert (Hprod : (p * a0) * (ip * a1) <= (a1 * 10 ^ 18) * (a0 * 10 ^ 18))
        by (apply Z.mul_le_mono_nonneg; nia).
      assert (Hfact : (p * ip) * (a0 * a1) <= 10 ^ 36 * (a0 * a1)).
      { replace (10 ^ 36) with (10 ^ 18 * 10 ^ 18) by reflexivity.
        replace (p * ip * (a0 * a1)) with (p * a0 * (ip * a1)) by ring.
        replace (10 ^ 18 * 10 ^ 18 * (a0 * a1)) with (a1 * 10 ^ 18 * (a0 * 10 ^ 18))
          by ring.
        exact Hprod. }
      apply Z.mul_le_mono_pos_r in Hfact; [exact Hfact | nia].
    + intros Hzero. unfold BigNumber.div.
      destruct (Z.eqb_spec a0 0) as [Hz0 | Hnz0]; [reflexivity |].
      cbn [DexScanner.ofResult DexScanner.obind].
      destruct (Z.eqb_spec a1 0) as [Hz1 | Hnz1]; [reflexivity |].
      exfalso. destruct Hzero as [-> | ->]; [apply Hnz0 | apply Hnz1]; reflexivity.
    + unfold BigNumber.div.
      destruct (a0 =? 0), (a1 =? 0); reflexivity.
  - intros Hd0. unfold DexScanner.calculatePrice.
    now rewrite (pow10_negative decimals0 Hd0).
  - intros Hd0 Hd1. unfold DexScanner.calculatePrice.
    rewrite (pow10_scale decimals0 Hd0). cbn [DexScanner.obind].
    now rewrite (pow10_negative decimals1 Hd1).
Qed.

(** X19 on a pool of 1 WETH (18 decimals) against 2000 USDC (6 decimals). *)
Lemma X19_price_from_reserves_witness :
  exists pp : DexScanner.PricePair,
    DexScanner.calculatePrice (10 ^ 18) (2000 * 10 ^ 6) 18 6 = DexScanner.Done pp
    /\ DexScanner.pairPrice pp = 2000 * 10 ^ 18
    /\ DexScanner.pairInversePrice pp = 5 * 10 ^ 14
    /\ DexScanner.pairPrice pp * DexScanner.pairInversePrice pp <= 10 ^ 36.
Proof.
  destruct (proj1 (proj1 (X19_price_from_reserves (10 ^ 18) (2000 * 10 ^ 6) 18 6)
                     ltac:(lia) ltac:(lia)) eq_refl eq_refl)
    as (pp & Hrun & Hprice & Hinverse & _ & _ & Hprod).
  exists pp. split; [exact Hrun |].
  split; [rewrite Hprice; reflexivity |].
  split; [rewrite Hinverse; reflexivity | exact Hprod].
Defined.

Lemma string_compare_refl (s : string) : String.compare s s = Eq.
Proof.
  induction s as [| c s IH]; [reflexivity |].
  cbn [String.compare]. unfold Ascii.compare. rewrite N.compare_refl. exact IH.
Qed.

Lemma string_leb_refl (s : string) : String.leb s s = true.
Proof.
  unfold String.leb. now rewrite string_compare_refl.
Qed.

(** X20.  [sortTokens] returns its two arguments, the one whose lower-cased
    form comes first in front; the result does not depend on the order of
    the arguments unless they differ in letter case only, in which case the
    second argument comes back first. *)
Theorem X20_sortTokens_orders_by_lowercase (tokenA tokenB : string) :
  (DexScanner.sortTokens tokenA tokenB = (tokenA, tokenB)
   \/ DexScanner.sortTokens tokenA tokenB = (tokenB, tokenA))
  /\ String.leb (Js.toLowerCase (fst (DexScanner.sortTokens tokenA tokenB)))
                (Js.toLowerCase (snd (DexScanner.sortTokens tokenA tokenB))) = true
  /\ (String.eqb (Js.toLowerCase tokenA) (Js.toLowerCase tokenB) = false ->
      DexScanner.sortTokens tokenA tokenB = DexScanner.sortTokens tokenB tokenA)
  /\ (Js.toLowerCase tokenA = Js.toLowerCase tokenB ->
      DexScanner.sortTokens tokenA tokenB = (tokenB, tokenA)).
Proof.
  unfold DexScanner.sortTokens, String.ltb.
  split; [| split; [| split]].
  - destruct (String.compare (Js.toLowerCase tokenA) (Js.toLowerCase tokenB)).
    + destruct (String.eqb_spec tokenB tokenA) as [-> | _]; auto.
    + rewrite String.eqb_refl. auto.
    + destruct (String.eqb_spec tokenB tokenA) as [-> | _]; auto.
  - destruct (String.compare (Js.toLowerCase tokenA) (Js.toLowerCase tokenB)) eqn:Hcmp.
    + apply String.compare_eq_iff in Hcmp.
      destruct (String.eqb tokenB tokenA); cbn [fst snd];
        rewrite ?Hcmp; apply string_leb_refl.
    + rewrite String.eqb_refl. cbn [fst snd]. unfold String.leb. now rewrite Hcmp.
    + destruct (String.eqb_spec tokenB tokenA) as [-> | _]; cbn [fst snd].
      * apply string_leb_refl.
      * unfold String.leb. rewrite String.compare_antisym, Hcmp. reflexivity.
  - intros Hne.
    rewrite (String.compare_antisym (Js.toLowerCase tokenB) (Js.toLowerCase tokenA)).
    destruct (String.compare (Js.toLowerCase tokenA) (Js.toLowerCase tokenB)) eqn:Hcmp;
      cbn [CompOpp].
    + apply String.compare_eq_iff in Hcmp. rewrite Hcmp, String.eqb_refl in Hne.
      discriminate Hne.
    + rewrite !String.eqb_refl.
      destruct (String.eqb_spec tokenA tokenB) as [-> | _]; reflexivity.
    + rewrite !String.eqb_refl.
      destruct (String.eqb_spec tokenB tokenA) as [-> | _]; reflexivity.
  - intros Heq. rewrite Heq, string_compare_refl.
    destruct (String.eqb_spec tokenB tokenA) as [-> | _]; reflexivity.
Qed.

(** X20 on WETH in lower case and with checksum capitals. *)
Lemma X20_sortTokens_orders_by_lowercase_witness :
  DexScanner.sortTokens Sample.WETH Sample.USDC
  = DexScanner.sortTokens Sample.USDC Sample.WETH
  /\ DexScanner.sortTokens Sample.WETH Sample.WETH_checksummed
     = (Sample.WETH_checksummed, Sample.WETH).
Proof.
  split.
  - refine (proj1 (proj2 (proj2
      (X20_sortTokens_orders_by_lowercase Sample.WETH Sample.USDC))) _).
    reflexivity.
  - refine (proj2 (proj2 (proj2
      (X20_sortTokens_orders_by_lowercase Sample.WETH Sample.WETH_checksummed))) _).
    reflexivity.
Defined.

(* ------------------------------------------------------------------ *)
(** ** The opportunity handler of index.ts *)

Section HandlerCases.

Variable toFixed : Q -> nat -> string.
Variable numberToString : Q -> string.
Variable getChecksumAddress : string -> string.
Variable icapValid : string -> bool.

(** The paths through [handleOpportunity]: skipped before the executor is
    reached; skipped after a simulation that did not pass; or executed,
    after a simulation that passed. *)
Lemma handleOpportunity_cases (validator : OpportunityValidator.t)
    (calculator : ProfitCalculator.t) (interactor : Bot.ContractInteractor)
    (dryRun : bool) (now : Z) (opp : ArbitrageOpportunity) (st : Bot.State) :
  let out := Bot.handleOpportunity toFixed numberToString getChecksumAddress icapValid
               validator calculator interactor dryRun now opp st in
  out = Bot.skipped (Bot.detected st)
  \/ exists (v : ValidationResult) (a : ProfitAnalysis),
       OpportunityValidator.validate toFixed numberToString getChecksumAddress
         icapValid validator now opp = Ok v
       /\ isValid v = true
       /\ ProfitCalculator.calculateProfit calculator opp = Ok a
       /\ isExecutable a = true
       /\ dryRun = false
       /\ let params := {| Bot.provider := "aave";
                           Bot.token := tokenIn opp;
                           Bot.amount := recommendedAmount a;
                           Bot.paramsBuyDex := buyDex opp;
                           Bot.paramsSellDex := sellDex opp |} in
          let st2 := Bot.called (Bot.SimulateExecution params) (Bot.detected st) in
          let st3 := Bot.called (Bot.ExecuteAaveArbitrage opp (recommendedAmount a)) st2 in
          (out = Bot.skipped st2
           /\ (Bot.simulateExecution interactor params = Ok false
               \/ exists e, Bot.simulateExecution interactor params = Throw e))
          \/ (Bot.simulateExecution interactor params = Ok true
              /\ ((out = Bot.skipped st3
                   /\ ((exists r, Bot.executeAaveArbitrage interactor opp
                                    (recommendedAmount a) = Ok r
                                  /\ Bot.success r = false)
                       \/ exists e, Bot.executeAaveArbitrage interactor opp
                                      (recommendedAmount a) = Throw e))
                  \/ exists r, Bot.executeAaveArbitrage interactor opp
                                 (recommendedAmount a) = Ok r
                               /\ Bot.success r = true
                               /\ ((out = Bot.executed st3
                                    /\ exists p, Bot.profit r = Some p)
                                   \/ (out = Bot.skipped (Bot.executed st3)
                                       /\ Bot.profit r = None)))).
Proof.
  cbv zeta. unfold Bot.handleOpportunity.
  destruct (OpportunityValidator.validate toFixed numberToString getChecksumAddress
              icapValid validator now opp) as [v | e] eqn:Hv; [| left; reflexivity].
  destruct (isValid v) eqn:Hvalid; cbn [negb]; [| left; reflexivity].
  destruct (ProfitCalculator.calculateProfit calculator opp) as [a | e] eqn:Ha;
    [| left; reflexivity].
  destruct (isExecutable a) eqn:Hexec; cbn [negb]; [| left; reflexivity].
  destruct dryRun; cbn [negb]; [left; reflexivity |].
  right. exists v, a. repeat (split; [assumption || reflexivity |]).
  destruct (Bot.simulateExecution interactor _) as [[|] | e] eqn:Hsim; cbn [negb].
  - right. split; [reflexivity |].
    destruct (Bot.executeAaveArbitrage interactor opp (recommendedAmount a))
      as [r | e] eqn:Hrun.
    + destruct (Bot.success r) eqn:Hsuccess.
      * right. exists r. split; [reflexivity |]. split; [assumption |].
        destruct (Bot.profit r) as [p |] eqn:Hprofit.
        -- left. split; [reflexivity | exists p; reflexivity].
        -- right. split; reflexivity.
      * left. split; [reflexivity |]. left. exists r. split; [reflexivity | assumption].
    + left. split; [reflexivity |]. right. exists e. reflexivity.
  - left. split; [reflexivity |]. left. reflexivity.
  - left. split; [reflexivity |]. right. exists e. reflexivity.
Qed.

End HandlerCases.

(** X21.  Counting in [handleOpportunity].  Every handled opportunity raises
    [opportunitiesDetected] by one and [opportunitiesSkipped] and
    [opportunitiesExecuted] by at most one each.  It is counted once, as
    executed or as skipped, except when the execution reports success
    without a profit: formatting the missing profit for the log throws after
    the executed counter was raised, and the catch clause counts the same
    opportunity as skipped too. *)
Theorem X21_handler_counting (toFixed : Q -> nat -> string)
    (numberToString : Q -> string) (getChecksumAddress : string -> string)
    (icapValid : string -> bool) (validator : OpportunityValidator.t)
    (calculator : ProfitCalculator.t) (interactor : Bot.ContractInteractor)
    (dryRun : bool) (now : Z) (opp : ArbitrageOpportunity) (st : Bot.State) :
  let before := Bot.counters st in
  let after := Bot.counters
                 (Bot.handleOpportunity toFixed numberToString getChecksumAddress
                    icapValid validator calculator interactor dryRun now opp st) in
  Bot.opportunitiesDetected after = Bot.opportunitiesDetected before + 1
  /\ ((Bot.opportunitiesExecuted after = Bot.opportunitiesExecuted before
       /\ Bot.opportunitiesSkipped after = Bot.opportunitiesSkipped before + 1)
      \/ (Bot.opportunitiesExecuted after = Bot.opportunitiesExecuted before + 1
          /\ Bot.opportunitiesSkipped after = Bot.opportunitiesSkipped before
          /\ exists amount r p,
               Bot.executeAaveArbitrage interactor opp amount = Ok r
               /\ Bot.success r = true /\ Bot.profit r = Some p)
      \/ (Bot.opportunitiesExecuted after = Bot.opportunitiesExecuted before + 1
          /\ Bot.opportunitiesSkipped after = Bot.opportunitiesSkipped before + 1
          /\ exists amount r,
               Bot.executeAaveArbitrage interactor opp amount = Ok r
               /\ Bot.success r = true /\ Bot.profit r = None)).
Proof.
  cbv zeta.
  destruct (handleOpportunity_cases toFixed numberToString getChecksumAddress icapValid
              validator calculator interactor dryRun now opp st)
    as [-> | (v & a & _ & _ & _ & _ & _ & Hcases)].
  { cbn. split; [reflexivity |]. left. split; reflexivity. }
  cbv zeta in Hcases.
  destruct Hcases as [(-> & _) | (_ & [(-> & _) | (r & Hrun & Hsuccess & Hprofit)])].
  - cbn. split; [reflexivity |]. left. split; reflexivity.
  - cbn. split; [reflexivity |]. left. split; reflexivity.
  - destruct Hprofit as [(-> & p & Hp) | (-> & Hp)]; cbn; (split; [reflexivity |]).
    + right. left. split; [reflexivity |]. split; [reflexivity |].
      exists (recommendedAmount a), r, p. auto.
    + right. right. split; [reflexivity |]. split; [reflexivity |].
      exists (recommendedAmount a), r. auto.
Qed.

(** X22.  Calls to the executor.  [handleOpportunity] makes no call, or one
    simulation, or one simulation followed by one execution; a call is made
    only in live mode for an opportunity the validator accepted and the
    analysis found executable; the execution follows only a simulation that
    passed, and is for the same opportunity with the recommended amount the
    simulation was given. *)
Theorem X22_execution_only_after_simulation (toFixed : Q -> nat -> string)
    (numberToString : Q -> string) (getChecksumAddress : string -> string)
    (icapValid : string -> bool) (validator : OpportunityValidator.t)
    (calculator : ProfitCalculator.t) (interactor : Bot.ContractInteractor)
    (dryRun : bool) (now : Z) (opp : ArbitrageOpportunity) (st : Bot.State) :
  let out := Bot.handleOpportunity toFixed numberToString getChecksumAddress icapValid
               validator calculator interactor dryRun now opp st in
  (Bot.calls out = Bot.calls st
   /\ Bot.opportunitiesExecuted (Bot.counters out)
      = Bot.opportunitiesExecuted (Bot.counters st))
  \/ exists (v : ValidationResult) (a : ProfitAnalysis) (params : Bot.FlashLoanParams),
       dryRun = false
       /\ OpportunityValidator.validate toFixed numberToString getChecksumAddress
            icapValid validator now opp = Ok v
       /\ isValid v = true
       /\ ProfitCalculator.calculateProfit calculator opp = Ok a
       /\ isExecutable a = true
       /\ Bot.provider params = "aave"
       /\ Bot.token params = tokenIn opp
       /\ Bot.amount params = recommendedAmount a
       /\ Bot.paramsBuyDex params = buyDex opp
       /\ Bot.paramsSellDex params = sellDex opp
       /\ ((Bot.calls out = (Bot.calls st ++ [Bot.SimulateExecution params])%list
            /\ Bot.opportunitiesExecuted (Bot.counters out)
               = Bot.opportunitiesExecuted (Bot.counters st))
           \/ (Bot.calls out
               = (Bot.calls st
                  ++ [Bot.SimulateExecution params;
                      Bot.ExecuteAaveArbitrage opp (recommendedAmount a)])%list
               /\ Bot.simulateExecution interactor params = Ok true)).
Proof.
  cbv zeta.
  destruct (handleOpportunity_cases toFixed numberToString getChecksumAddress icapValid
              validator calculator interactor dryRun now opp st)
    as [-> | (v & a & Hv & Hvalid & Ha & Hexec & Hdry & Hcases)].
  { left. split; reflexivity. }
  right. cbv zeta in Hcases.
  exists v, a, {| Bot.provider := "aave";
                  Bot.token := tokenIn opp;
                  Bot.amount := recommendedAmount a;
                  Bot.paramsBuyDex := buyDex opp;
                  Bot.paramsSellDex := sellDex opp |}.
  repeat (split; [assumption || reflexivity |]).
  destruct Hcases as [(-> & _) | (Hsim & Hrest)].
  - left. split; reflexivity.
  - right. split; [| exact Hsim].
    assert (Htrace : forall s1 c1 c2,
               Bot.calls (Bot.called c2 (Bot.called c1 (Bot.detected s1)))
               = (Bot.calls s1 ++ [c1; c2])%list).
    { intros s1 c1 c2. cbn. now rewrite <- app_assoc. }
    destruct Hrest as [(-> & _) | (r & _ & _ & [(-> & _) | (-> & _)])];
      cbn [Bot.skipped Bot.executed Bot.calls]; apply Htrace.
Qed.

(** X23.  In dry-run mode, and under a slippage bound below 100 basis
    points, [handleOpportunity] never reaches the executor: no simulation
    and no execution is requested, the executed counter stays and the
    opportunity is counted as skipped. *)
Theorem X23_dry_run_never_executes (toFixed : Q -> nat -> string)
    (numberToString : Q -> string) (getChecksumAddress : string -> string)
    (icapValid : string -> bool) (validator : OpportunityValidator.t)
    (calculator : ProfitCalculator.t) (interactor : Bot.ContractInteractor)
    (dryRun : bool) (now : Z) (opp : ArbitrageOpportunity) (st : Bot.State) :
  dryRun = true
  \/ (maxSlippage (execution (ProfitCalculator.config calculator)) < 100)%Q ->
  Bot.handleOpportunity toFixed numberToString getChecksumAddress icapValid
    validator calculator interactor dryRun now opp st
  = Bot.skipped (Bot.detected st).
Proof.
  intros Hmode.
  destruct (handleOpportunity_cases toFixed numberToString getChecksumAddress icapValid
              validator calculator interactor dryRun now opp st)
    as [Hout | (v & a & _ & _ & Ha & Hexec & Hdry & _)]; [exact Hout |].
  exfalso. destruct Hmode as [Hmode | Hslip].
  - rewrite Hmode in Hdry. discriminate Hdry.
  - destruct (calculateProfit_facts calculator opp a Ha) as (_ & _ & _ & _ & Hverdict).
    destruct (Hverdict Hexec) as (_ & _ & _ & Hle).
    exact (Qlt_not_le _ _ Hslip Hle).
Qed.

(** X23 on an opportunity that is accepted and executable, with an executor
    that would succeed: in dry-run mode it is skipped, no call made. *)
Lemma X23_dry_run_never_executes_witness :
  Bot.handleOpportunity Sample.toFixed Sample.numberToString
    Sample.checksumNotConsulted Sample.icapNotConsulted Sample.validator
    (ProfitCalculator.new Sample.noDeductionConfig)
    (Sample.successfulInteractor (Some (5 * 10 ^ 18))) true Sample.detectedAt
    Sample.executableOpportunity Sample.initialState
  = Bot.skipped (Bot.detected Sample.initialState).
Proof.
  refine (X23_dry_run_never_executes _ _ _ _ _ _ _ true _ _ _ _).
  left. reflexivity.
Defined.

(** The third case of X21 is reached: in live mode, an accepted and
    executable opportunity whose execution reports success without a profit
    is counted as executed and as skipped. *)
Example handler_counts_profitless_success_twice :
  Bot.counters
    (Bot.handleOpportunity Sample.toFixed Sample.numberToString
       Sample.checksumNotConsulted Sample.icapNotConsulted Sample.validator
       (ProfitCalculator.new Sample.noDeductionConfig)
       (Sample.successfulInteractor None) false Sample.detectedAt
       Sample.executableOpportunity Sample.initialState)
  = {| Bot.opportunitiesDetected := 1;
       Bot.opportunitiesExecuted := 1;
       Bot.opportunitiesSkipped := 1 |}.
Proof.
  vm_compute. reflexivity.
Qed.

(** In live mode with a reported profit the same opportunity is counted as
    executed only, after one simulation and one execution. *)
Example handler_executes_sample_opportunity :
  Bot.counters
    (Bot.handleOpportunity Sample.toFixed Sample.numberToString
       Sample.checksumNotConsulted Sample.icapNotConsulted Sample.validator
       (ProfitCalculator.new Sample.noDeductionConfig)
       (Sample.successfulInteractor (Some (5 * 10 ^ 18))) false Sample.detectedAt
       Sample.executableOpportunity Sample.initialState)
  = {| Bot.opportunitiesDetected := 1;
       Bot.opportunitiesExecuted := 1;
       Bot.opportunitiesSkipped := 0 |}
  /\ List.length
       (Bot.calls
          (Bot.handleOpportunity Sample.toFixed Sample.numberToString
             Sample.checksumNotConsulted Sample.icapNotConsulted Sample.validator
             (ProfitCalculator.new Sample.noDeductionConfig)
             (Sample.successfulInteractor (Some (5 * 10 ^ 18))) false Sample.detectedAt
             Sample.executableOpportunity Sample.initialState)) = 2%nat.
Proof.
  vm_compute. split; reflexivity.
Qed.

(* ------------------------------------------------------------------ *)
(** ** The ETH price and the minimum amount of the ProfitCalculator *)

Lemma ethValue_nonneg (n : Z) :
  0 < n -> (0 <= Js.parseFloat (BigNumber.formatEther n))%Q.
Proof.
  intros Hn. unfold Js.parseFloat. apply double_nonneg.
  unfold BigNumber.formatEther. apply Qle_shift_div_l; [reflexivity |].
  rewrite Qmult_0_l. unfold Qle. cbn [Qnum Qden inject_Z]. lia.
Qed.

Lemma isOpportunityExecutable_price_mono (self : ProfitCalculator.t) (priceUSD : Q)
    (net : Z) (percentage impactBuy impactSell : Q) :
  (ProfitCalculator.ethPriceUSD self <= priceUSD)%Q ->
  ProfitCalculator.isOpportunityExecutable self net percentage impactBuy impactSell
  = true ->
  ProfitCalculator.isOpportunityExecutable
    (ProfitCalculator.updateEthPrice self priceUSD) net percentage impactBuy impactSell
  = true.
Proof.
  intros Hprice. unfold ProfitCalculator.isOpportunityExecutable.
  cbn [ProfitCalculator.config ProfitCalculator.updateEthPrice].
  destruct (Z.leb_spec net 0) as [Hle | Hgt]; [intros Hx; discriminate Hx |].
  unfold ProfitCalculator.convertToUSD.
  cbn [ProfitCalculator.ethPriceUSD ProfitCalculator.updateEthPrice].
  set (ethValue := Js.parseFloat (BigNumber.formatEther net)).
  set (minimum := Js.double (minProfitUSD (execution (ProfitCalculator.config self)))).
  destruct (Js.ltb (Js.mul ethValue (ProfitCalculator.ethPriceUSD self)) minimum)
    eqn:Husd; [intros Hx; discriminate Hx |].
  apply ltb_false_le in Husd.
  assert (Hnew : Js.ltb (Js.mul ethValue priceUSD) minimum = false).
  { destruct (Js.ltb (Js.mul ethValue priceUSD) minimum) eqn:Hlt; [| reflexivity].
    exfalso. apply ltb_true_lt in Hlt.
    apply (Qlt_not_le _ _ Hlt).
    eapply Qle_trans; [exact Husd |].
    apply mul_mono_r; [apply ethValue_nonneg; exact Hgt | exact Hprice]. }
  rewrite Hnew. intros Hx. exact Hx.
Qed.

(** X24.  The ETH price set by [updateEthPrice] reaches an analysis through
    the verdict only: amounts, fees, net profit, percentage and price impact
    of [calculateProfit] are the same at every ETH price, and an analysis
    that is executable stays executable when the ETH price is raised. *)
Theorem X24_eth_price_moves_only_the_verdict (self : ProfitCalculator.t)
    (opp : ArbitrageOpportunity) (priceUSD : Q) (a : ProfitAnalysis) :
  ProfitCalculator.calculateProfit self opp = Ok a ->
  exists a' : ProfitAnalysis,
    ProfitCalculator.calculateProfit (ProfitCalculator.updateEthPrice self priceUSD) opp
    = Ok a'
    /\ opportunity a' = opportunity a
    /\ recommendedAmount a' = recommendedAmount a
    /\ grossProfit a' = grossProfit a
    /\ flashLoanFee a' = flashLoanFee a
    /\ dexFees a' = dexFees a
    /\ gasCost a' = gasCost a
    /\ netProfit a' = netProfit a
    /\ profitPercentage a' = profitPercentage a
    /\ priceImpact a' = priceImpact a
    /\ ((ProfitCalculator.ethPriceUSD self <= priceUSD)%Q ->
        isExecutable a = true -> isExecutable a' = true).
Proof.
  intros H. apply calculateProfit_inv in H.
  destruct H as (amount & gross & loanFee & venueFees & gas & percentage
                 & impactBuy & impactSell
                 & Hamount & Hgross & Hloan & Hvenue & Hgas & Hpct & Hbuy & Hsell & ->).
  unfold ProfitCalculator.calculateProfit.
  change (ProfitCalculator.calculateOptimalAmount
            (ProfitCalculator.updateEthPrice self priceUSD))
    with (ProfitCalculator.calculateOptimalAmount self).
  rewrite Hamount; cbn [bind]. rewrite Hgross; cbn [bind].
  change (ProfitCalculator.calculateFlashLoanFee
            (ProfitCalculator.updateEthPrice self priceUSD))
    with (ProfitCalculator.calculateFlashLoanFee self).
  rewrite Hloan; cbn [bind].
  change (ProfitCalculator.calculateDexFees
            (ProfitCalculator.updateEthPrice self priceUSD))
    with (ProfitCalculator.calculateDexFees self).
  rewrite Hvenue; cbn [bind].
  change (ProfitCalculator.estimateGasCost
            (ProfitCalculator.updateEthPrice self priceUSD))
    with (ProfitCalculator.estimateGasCost self).
  rewrite Hgas; cbn [bind]. rewrite Hpct; cbn [bind].
  rewrite Hbuy; cbn [bind]. rewrite Hsell; cbn [bind].
  eexists. split; [reflexivity |].
  cbn [opportunity recommendedAmount grossProfit flashLoanFee dexFees gasCost
       netProfit profitPercentage priceImpact isExecutable].
  repeat (split; [reflexivity |]).
  apply isOpportunityExecutable_price_mono.
Qed.

(** X24 on the executable sample analysis, the ETH price raised from 2000
    to 3000 dollars. *)
Lemma X24_eth_price_moves_only_the_verdict_witness :
  exists a' : ProfitAnalysis,
    ProfitCalculator.calculateProfit
      (ProfitCalculator.updateEthPrice
         (ProfitCalculator.new Sample.noDeductionConfig) 3000)
      (Sample.opp_100_105 "Uniswap V2" "Rebate" 0) = Ok a'
    /\ netProfit a' = 5 * 10 ^ 18
    /\ isExecutable a' = true.
Proof.
  destruct (ProfitCalculator.calculateProfit
              (ProfitCalculator.new Sample.noDeductionConfig)
              (Sample.opp_100_105 "Uniswap V2" "Rebate" 0)) as [a | e] eqn:Hrun;
    [| vm_compute in Hrun; discriminate Hrun].
  assert (Hfields : netProfit a = 5 * 10 ^ 18 /\ isExecutable a = true).
  { vm_compute in Hrun. apply Ok_inj in Hrun. subst a. split; reflexivity. }
  destruct (X24_eth_price_moves_only_the_verdict
              (ProfitCalculator.new Sample.noDeductionConfig)
              (Sample.opp_100_105 "Uniswap V2" "Rebate" 0) 3000 a Hrun)
    as (a' & Hrun' & _ & _ & _ & _ & _ & _ & Hnet & _ & _ & Hverdict).
  exists a'. split; [exact Hrun' |].
  split; [rewrite Hnet; exact (proj1 Hfields) |].
  apply Hverdict; [vm_compute; discriminate | exact (proj2 Hfields)].
Defined.

(** X25.  The amount [calculateOptimalAmount] recommends is never below
    [calculateMinimumProfitableAmount]: the latter is 0 when the sell price
    does not exceed the buy price and 0.1 ether otherwise, whatever the fees
    and the gas price of the configuration. *)
Theorem X25_recommended_amount_covers_minimum (self : ProfitCalculator.t)
    (buy sell liquidity amount : Z) :
  ProfitCalculator.calculateOptimalAmount self buy sell liquidity = Ok amount ->
  exists minimum : Z,
    ProfitCalculator.calculateMinimumProfitableAmount buy sell = Ok minimum
    /\ minimum <= amount
    /\ (sell <= buy -> minimum = 0)
    /\ (buy < sell -> minimum = 10 ^ 17).
Proof.
  intros H. apply calculateOptimalAmount_positive in H.
  unfold ProfitCalculator.calculateMinimumProfitableAmount. cbv zeta.
  assert (Hparse : BigNumber.parseEther "0.1" = Ok (10 ^ 17)) by (vm_compute; reflexivity).
  rewrite Hparse.
  destruct (Z.leb_spec (sell - buy) 0) as [Hle | Hgt].
  - exists 0. split; [reflexivity |]. split; [lia |]. split; [reflexivity | lia].
  - exists (10 ^ 17). split; [reflexivity |]. split; [exact H |].
    split; [lia | reflexivity].
Qed.

(** X25 on the default configuration and the sample prices. *)
Lemma X25_recommended_amount_covers_minimum_witness :
  exists minimum : Z,
    ProfitCalculator.calculateMinimumProfitableAmount (100 * 10 ^ 18) (105 * 10 ^ 18)
    = Ok minimum
    /\ minimum <= 10 ^ 18.
Proof.
  destruct (X25_recommended_amount_covers_minimum
              (ProfitCalculator.new Sample.defaultConfig)
              (100 * 10 ^ 18) (105 * 10 ^ 18) (10 * 10 ^ 18) (10 ^ 18))
    as (minimum & Hmin & Hle & _); [vm_compute; reflexivity |].
  exists minimum. split; [exact Hmin | exact Hle].
Defined.

(* ------------------------------------------------------------------ *)
(** ** Price impact of the scanner base class *)

(** X26.  [calculatePriceImpact] of the scanner base class: for a
    non-negative input against a positive input reserve, with the impact in
    hundredths of a percent below 2^53, it returns amountIn / reserveIn in
    percent, rounded down to a hundredth; a larger ratio makes [toNumber]
    throw, an empty input reserve makes the division throw; the output
    reserve is not consulted. *)
Theorem X26_price_impact_of_reserves (amountIn reserveIn reserveOut : Z) :
  (0 <= amountIn -> 0 < reserveIn -> amountIn * 10000 < 2 ^ 53 * reserveIn ->
   exists impact : Q,
     DexScanner.calculatePriceImpact amountIn reserveIn reserveOut = Ok impact
     /\ (0 <= impact)%Q
     /\ (impact * inject_Z reserveIn <= inject_Z amountIn * 100)%Q
     /\ (inject_Z amountIn * 100 < (impact + (1 # 100)) * inject_Z reserveIn)%Q)
  /\ (0 < reserveIn -> 2 ^ 53 * reserveIn <= amountIn * 10000 ->
      DexScanner.calculatePriceImpact amountIn reserveIn reserveOut = Throw Overflow)
  /\ (reserveIn = 0 ->
      DexScanner.calculatePriceImpact amountIn reserveIn reserveOut
      = Throw DivisionByZero)
  /\ DexScanner.calculatePriceImpact amountIn reserveIn reserveOut
     = DexScanner.calculatePriceImpact amountIn reserveIn 0.
Proof.
  split; [| split; [| split]].
  - intros Hin Hres Hsafe. unfold DexScanner.calculatePriceImpact.
    rewrite div_Ok by lia. cbn [bind].
    destruct (quot_div_bounds (amountIn * 10000) reserveIn) as (H0 & Hle & Hlt);
      [lia | lia |].
    set (q := Z.quot (amountIn * 10000) reserveIn) in *.
    assert (Hq : q < 2 ^ 53) by nia.
    unfold BigNumber.toNumber.
    destruct (Z.ltb_spec (Z.abs q) (2 ^ 53)) as [_ | Hbig]; [| lia].
    cbn [bind]. eexists. split; [reflexivity |].
    unfold Qle, Qlt, Qdiv, Qmult, Qplus, Qinv, inject_Z.
    cbn [Qnum Qden Z.mul Pos.mul].
    change (Z.pos (1 * 100)) with 100. change (Z.pos (1 * 1)) with 1.
    change (Z.pos (100 * 100 * 1)) with 10000.
    change (Z.pos (100 * 1)) with 100.
    change (Z.pos (1 * 100 * 1)) with 100.
    lia.
  - intros Hres Hbig. unfold DexScanner.calculatePriceImpact.
    rewrite div_Ok by lia. cbn [bind].
    assert (Hq : 2 ^ 53 <= Z.quot (amountIn * 10000) reserveIn).
    { apply Z.quot_le_lower_bound; [exact Hres | lia]. }
    unfold BigNumber.toNumber.
    destruct (Z.ltb_spec (Z.abs (Z.quot (amountIn * 10000) reserveIn)) (2 ^ 53))
      as [Hsmall | _]; [lia | reflexivity].
  - intros ->. reflexivity.
  - reflexivity.
Qed.

(** X26 on an input of 5 against a reserve of 1000: half a percent. *)
Lemma X26_price_impact_of_reserves_witness :
  exists impact : Q,
    DexScanner.calculatePriceImpact 5 1000 2000000 = Ok impact
    /\ (impact * 1000 <= 500)%Q
    /\ (500 < (impact + (1 # 100)) * 1000)%Q.
Proof.
  destruct (proj1 (X26_price_impact_of_reserves 5 1000 2000000))
    as (impact & Hrun & _ & Hle & Hlt); [lia | lia | reflexivity |].
  exists impact. split; [exact Hrun |]. split; [exact Hle | exact Hlt].
Defined.
